(** * Water-quality service: ingestion pipeline and query engine

    Shallow embedding of [data/water_quality_db.py] (class [WaterQualityDB])
    and of [api/water_quality_api.py] (the Flask handlers), followed by the
    properties established about them.

    Numbers are IEEE-754 binary64 values (Python [float]), integers are
    unbounded (Python [int]), text is a [string].  The reductions that
    pandas, numpy and the Python runtime supply ([Series.mean],
    [Series.std], [Series.quantile], [datetime.fromisoformat], [int],
    [float]) are the fields of the class [Runtime]: every general statement
    holds for all of them, and [reference_runtime] gives one executable
    choice used to evaluate the handlers on concrete requests. *)

From Stdlib Require Import ZArith List String Ascii Bool Lia Floats Sorted.
Import ListNotations.

Local Open Scope string_scope.
Local Open Scope Z_scope.

(** ** Python [str] operations used by the handlers *)

Module PyStr.

(** [c in s] for a one-character [c]. *)
Fixpoint contains (c : ascii) (s : string) : bool :=
  match s with
  | EmptyString => false
  | String d s' => Ascii.eqb c d || contains c s'
  end.

(** [s.find(c)]: index of the first occurrence, [-1] when there is none. *)
Fixpoint find (c : ascii) (s : string) : Z :=
  match s with
  | EmptyString => -1
  | String d s' =>
      if Ascii.eqb c d then 0
      else let i := find c s' in if i <? 0 then -1 else i + 1
  end.

(** [s.rfind(c)]: index of the last occurrence, [-1] when there is none. *)
Fixpoint rfind (c : ascii) (s : string) : Z :=
  match s with
  | EmptyString => -1
  | String d s' =>
      let i := rfind c s' in
      if 0 <=? i then i + 1 else if Ascii.eqb c d then 0 else -1
  end.

Definition len (s : string) : Z := Z.of_nat (String.length s).

(** Slice bounds as Python normalises them. *)
Definition slice_index (i : Z) (s : string) : nat :=
  Z.to_nat (if i <? 0 then Z.max 0 (len s + i) else Z.min i (len s)).

Fixpoint take (n : nat) (s : string) : string :=
  match n, s with
  | S n', String c s' => String c (take n' s')
  | _, _ => EmptyString
  end.

Fixpoint drop (n : nat) (s : string) : string :=
  match n, s with
  | S n', String _ s' => drop n' s'
  | _, _ => s
  end.

(** [s[:i]] and [s[i:]]. *)
Definition slice_to (i : Z) (s : string) : string := take (slice_index i s) s.
Definition slice_from (i : Z) (s : string) : string := drop (slice_index i s) s.

(** [s.replace(c, '')]. *)
Fixpoint remove (c : ascii) (s : string) : string :=
  match s with
  | EmptyString => EmptyString
  | String d s' => if Ascii.eqb c d then remove c s' else String d (remove c s')
  end.

(** [s.rsplit(c, 1)] for a string that contains [c]: the text before and
    after the last occurrence. *)
Definition rsplit1 (c : ascii) (s : string) : string * string :=
  let i := rfind c s in (slice_to i s, slice_from (i + 1) s).

Fixpoint zeros (n : nat) : string :=
  match n with
  | O => EmptyString
  | S n' => String "0" (zeros n')
  end.

(** [s.zfill(width)]: zeros are inserted on the left, after a leading sign. *)
Definition zfill (width : nat) (s : string) : string :=
  let pad := zeros (width - String.length s) in
  match s with
  | String c s' =>
      if Ascii.eqb c "+" || Ascii.eqb c "-" then String c (pad ++ s') else pad ++ s
  | EmptyString => pad
  end.

Definition is_digit (c : ascii) : bool :=
  let n := nat_of_ascii c in (48 <=? n)%nat && (n <=? 57)%nat.

Fixpoint all_digits (s : string) : bool :=
  match s with
  | EmptyString => true
  | String c s' => is_digit c && all_digits s'
  end.

Definition digit_value (c : ascii) : Z := Z.of_nat (nat_of_ascii c) - 48.

(** Value of a run of decimal digits, most significant first. *)
Fixpoint digits_value (acc : Z) (s : string) : Z :=
  match s with
  | EmptyString => acc
  | String c s' => digits_value (10 * acc + digit_value c) s'
  end.

Definition is_space (c : ascii) : bool :=
  let n := nat_of_ascii c in ((9 <=? n)%nat && (n <=? 13)%nat) || (n =? 32)%nat.

Fixpoint lstrip (s : string) : string :=
  match s with
  | String c s' => if is_space c then lstrip s' else s
  | EmptyString => EmptyString
  end.

Fixpoint rev_acc (acc s : string) : string :=
  match s with
  | EmptyString => acc
  | String c s' => rev_acc (String c acc) s'
  end.

Definition strip (s : string) : string :=
  rev_acc "" (lstrip (rev_acc "" (lstrip s))).

End PyStr.

(** ** Values of the Python runtime *)

(** [datetime.datetime]: the seven calendar fields and [tzinfo], the UTC
    offset in microseconds of an aware value, [None] for a naive one. *)
Record datetime : Type := mk_datetime {
  year : Z; month : Z; day : Z;
  hour : Z; minute : Z; second : Z; microsecond : Z;
  tzinfo : option Z
}.

(** [dt.replace(tzinfo=tz)]: the calendar fields are kept as they are. *)
Definition replace_tzinfo (dt : datetime) (tz : option Z) : datetime :=
  mk_datetime (year dt) (month dt) (day dt) (hour dt) (minute dt) (second dt)
    (microsecond dt) tz.

Definition dt_fields (dt : datetime) : list Z :=
  [year dt; month dt; day dt; hour dt; minute dt; second dt; microsecond dt].

Fixpoint lex_leb (a b : list Z) : bool :=
  match a, b with
  | [], _ => true
  | _ :: _, [] => false
  | x :: a', y :: b' => (x <? y) || ((x =? y) && lex_leb a' b')
  end.

(** [a <= b] on naive datetimes: field by field, most significant first. *)
Definition dt_leb (a b : datetime) : bool := lex_leb (dt_fields a) (dt_fields b).

(** What a document field, a DataFrame cell or a JSON payload can hold. *)
#[warnings="-register-all"]
Inductive value : Type :=
| VNone
| VInt (n : Z)
| VFloat (x : float)
| VStr (s : string)
| VDatetime (dt : datetime)
| VList (l : list value)
| VDict (d : list (string * value)).

Definition dict : Type := list (string * value).

Fixpoint dict_get (k : string) (d : dict) : option value :=
  match d with
  | [] => None
  | (k', v) :: d' => if String.eqb k k' then Some v else dict_get k d'
  end.

Definition keys (d : dict) : list string := map fst d.

Fixpoint mem_string (k : string) (l : list string) : bool :=
  match l with
  | [] => false
  | k' :: l' => String.eqb k k' || mem_string k l'
  end.

(** Parameters of a request ([request.args]): [get] returns the first value
    bound to a key. *)
Definition params : Type := list (string * string).

Fixpoint args_get (args : params) (k : string) : option string :=
  match args with
  | [] => None
  | (k', v) :: args' => if String.eqb k k' then Some v else args_get args' k
  end.

Definition args_has (args : params) (k : string) : bool :=
  match args_get args k with Some _ => true | None => false end.

(** The library functions the program calls.  [None] stands for the
    [ValueError] the Python function raises on text it does not accept. *)
Class Runtime : Type := {
  fromisoformat : string -> option datetime;
  isoformat : datetime -> string;
  py_int : string -> option Z;
  py_float : string -> option float;
  series_mean : list float -> float;
  series_std : list float -> float;
  series_quantile : list float -> float -> float;
  series_median : list float -> float;
  series_min : list float -> float;
  series_max : list float -> float
}.

(** ** The process state and the monad of the program

    The state holds the documents of the collection [asv_1] in insertion
    order, the three report counters of the [WaterQualityDB] instance and a
    log of the database and division operations carried out. *)

Inductive column : Type :=
| Timestamp | Latitude | Longitude | Temperature | Salinity | Odo.

(** A row of a DataFrame over the canonical columns and a stored document.
    [None] is a missing cell (NaN, NaT or [None]). *)
Record row : Type := mk_row {
  timestamp : option datetime;
  latitude : option float;
  longitude : option float;
  temperature : option float;
  salinity : option float;
  odo : option float
}.

Inductive event : Type :=
| DbCount | DbFind | DbInsert | SeriesDiv.

Record state : Type := mk_state {
  docs : list row;
  original_rows : Z;
  removed_outliers : Z;
  remaining_rows : Z;
  log : list event
}.

Inductive outcome (A : Type) : Type :=
| Returned (a : A)
| Raised (exc : string).
Arguments Returned {A} a.
Arguments Raised {A} exc.

Definition M (A : Type) : Type := state -> outcome A * state.

Definition ret {A : Type} (a : A) : M A := fun st => (Returned a, st).

Definition raise {A : Type} (exc : string) : M A := fun st => (Raised exc, st).

Definition bind {A B : Type} (m : M A) (f : A -> M B) : M B :=
  fun st =>
    match m st with
    | (Returned a, st') => f a st'
    | (Raised exc, st') => (Raised exc, st')
    end.

(** [try: m except Exception: h]. *)
Definition try_except {A : Type} (m : M A) (h : string -> M A) : M A :=
  fun st =>
    match m st with
    | (Returned a, st') => (Returned a, st')
    | (Raised exc, st') => h exc st'
    end.

Declare Scope py_scope.
Delimit Scope py_scope with py.
Notation "x <- m ;; k" := (bind m (fun x => k))
  (at level 61, m at next level, right associativity) : py_scope.
Notation "m ;;; k" := (bind m (fun _ => k))
  (at level 61, right associativity) : py_scope.

Definition tell (e : event) : M unit :=
  fun st => (Returned tt,
             mk_state (docs st) (original_rows st) (removed_outliers st)
               (remaining_rows st) (log st ++ [e])).

Definition get_state : M state := fun st => (Returned st, st).

Definition set_docs (d : list row) : M unit :=
  fun st => (Returned tt,
             mk_state d (original_rows st) (removed_outliers st)
               (remaining_rows st) (log st)).

Definition set_original_rows (n : Z) : M unit :=
  fun st => (Returned tt,
             mk_state (docs st) n (removed_outliers st) (remaining_rows st) (log st)).

Definition set_removed_outliers (n : Z) : M unit :=
  fun st => (Returned tt,
             mk_state (docs st) (original_rows st) n (remaining_rows st) (log st)).

Definition set_remaining_rows (n : Z) : M unit :=
  fun st => (Returned tt,
             mk_state (docs st) (original_rows st) (removed_outliers st) n (log st)).

(** ** The mongomock collection

    Queries are conjunctions of inclusive ranges, the only form
    [build_mongo_query] produces; [{}] is [match_all]. *)

Record range (A : Type) : Type := mk_range { gte : option A; lte : option A }.
Arguments mk_range {A} gte lte.
Arguments gte {A} r.
Arguments lte {A} r.

Record query : Type := mk_query {
  q_timestamp : option (range datetime);
  q_temperature : option (range float);
  q_salinity : option (range float);
  q_odo : option (range float)
}.

Definition match_all : query := mk_query None None None None.

(** A bound is met only by a present value that compares as required. *)
Definition in_range {A : Type} (leb : A -> A -> bool) (r : option (range A))
    (v : option A) : bool :=
  match r with
  | None => true
  | Some b =>
      match v with
      | None => false
      | Some x =>
          match gte b with Some lo => leb lo x | None => true end
          && match lte b with Some hi => leb x hi | None => true end
      end
  end.

(** mongomock keeps a [datetime] with the precision of MongoDB, the
    millisecond: [value.replace(microsecond=(value.microsecond // 1000) * 1000)]
    in [patch_datetime_awareness_in_document], which it applies to every
    document it inserts and to every filter it is given.  This is its
    treatment of a naive value, which the timestamps of the frames (a date
    and a time of day) and the bounds of the filters are; the move to UTC
    that it adds for an aware value is not part of the development. *)
Definition mongo_datetime (dt : datetime) : datetime :=
  mk_datetime (year dt) (month dt) (day dt) (hour dt) (minute dt) (second dt)
    (microsecond dt / 1000 * 1000) (tzinfo dt).

Definition mongo_range (b : range datetime) : range datetime :=
  mk_range (option_map mongo_datetime (gte b)) (option_map mongo_datetime (lte b)).

(** A document as the collection keeps it. *)
Definition stored (r : row) : row :=
  mk_row (option_map mongo_datetime (timestamp r)) (latitude r) (longitude r)
    (temperature r) (salinity r) (odo r).

(** Whether a stored document satisfies a filter, the datetimes of the
    filter cut as above ([Cursor.__init__], [count_documents]). *)
Definition matches (q : query) (r : row) : bool :=
  in_range dt_leb (option_map mongo_range (q_timestamp q)) (timestamp r)
  && in_range PrimFloat.leb (q_temperature q) (temperature r)
  && in_range PrimFloat.leb (q_salinity q) (salinity r)
  && in_range PrimFloat.leb (q_odo q) (odo r).

Definition of_datetime (o : option datetime) : value :=
  match o with Some dt => VDatetime dt | None => VNone end.

Definition of_float (o : option float) : value :=
  match o with Some x => VFloat x | None => VNone end.

(** A stored document without its [_id]. *)
Definition doc_of_row (r : row) : dict :=
  [("timestamp", of_datetime (timestamp r));
   ("latitude", of_float (latitude r));
   ("longitude", of_float (longitude r));
   ("temperature", of_float (temperature r));
   ("salinity", of_float (salinity r));
   ("odo", of_float (odo r))].

(** A projection that names fields with [1] keeps those fields only;
    [{"_id": 0}] alone ([None] here) keeps every other field. *)
Definition project (projection : option (list string)) (d : dict) : dict :=
  match projection with
  | None => d
  | Some ks => filter (fun kv => mem_string (fst kv) ks) d
  end.

Fixpoint insert_sorted {A : Type} (leb : A -> A -> bool) (x : A) (l : list A) : list A :=
  match l with
  | [] => [x]
  | y :: l' => if leb x y then x :: l else y :: insert_sorted leb x l'
  end.

(** A stable sort: equal keys keep their relative order. *)
Definition sort_by {A : Type} (leb : A -> A -> bool) (l : list A) : list A :=
  fold_right (insert_sorted leb) [] l.

(** Ascending order of a sort key in MongoDB: a missing value comes first. *)
Definition mongo_leb (a b : option datetime) : bool :=
  match a, b with
  | None, _ => true
  | Some _, None => false
  | Some x, Some y => dt_leb x y
  end.

(** A cursor records the query and its modifiers; they take effect when the
    cursor is iterated, the sort before [skip] and [limit] whatever the
    order of the calls. *)
Record cursor : Type := mk_cursor {
  c_query : query;
  c_projection : option (list string);
  c_skip : Z;
  c_limit : Z;
  c_sort_timestamp : bool
}.

Definition find (q : query) (projection : option (list string)) : cursor :=
  mk_cursor q projection 0 0 false.

Definition skip (n : Z) (c : cursor) : cursor :=
  mk_cursor (c_query c) (c_projection c) n (c_limit c) (c_sort_timestamp c).

Definition limit (n : Z) (c : cursor) : cursor :=
  mk_cursor (c_query c) (c_projection c) (c_skip c) n (c_sort_timestamp c).

Definition sort_timestamp (c : cursor) : cursor :=
  mk_cursor (c_query c) (c_projection c) (c_skip c) (c_limit c) true.

(** [results[skip:]], then [results[:abs(limit)]] unless the limit is [0],
    which is no limit. *)
Definition window {A : Type} (skip_ limit_ : Z) (results : list A) : list A :=
  let skipped := skipn (Z.to_nat skip_) results in
  if limit_ =? 0 then skipped else firstn (Z.to_nat (Z.abs limit_)) skipped.

(** The rows a cursor yields. *)
Definition cursor_rows (c : cursor) (d : list row) : list row :=
  let found := filter (matches (c_query c)) d in
  let ordered :=
    if c_sort_timestamp c
    then sort_by (fun a b => mongo_leb (timestamp a) (timestamp b)) found
    else found in
  window (c_skip c) (c_limit c) ordered.

(** Iterating a cursor ([list(cursor)], [for item in cursor]). *)
Definition iterate (c : cursor) : M (list dict) :=
  (tell DbFind ;;;
   st <- get_state ;;
   ret (map (fun r => project (c_projection c) (doc_of_row r)) (cursor_rows c (docs st))))%py.

Definition count_documents (q : query) : M Z :=
  (tell DbCount ;;;
   st <- get_state ;;
   ret (Z.of_nat (List.length (filter (matches q) (docs st)))))%py.

Definition insert_many (records : list row) : M unit :=
  (tell DbInsert ;;;
   st <- get_state ;;
   set_docs (docs st ++ map stored records))%py.

(** ** [data/water_quality_db.py]: class [WaterQualityDB] *)

Module DB.
Section WithRuntime.
Context {RT : Runtime}.

Local Open Scope py_scope.

(** A DataFrame over canonical columns: the columns it has, and its rows.
    The cells of a column the frame does not have are missing. *)
Record frame : Type := mk_frame { columns : list column; rows : list row }.

Definition column_eqb (a b : column) : bool :=
  match a, b with
  | Timestamp, Timestamp | Latitude, Latitude | Longitude, Longitude
  | Temperature, Temperature | Salinity, Salinity | Odo, Odo => true
  | _, _ => false
  end.

Definition has_column (c : column) (cols : list column) : bool :=
  existsb (column_eqb c) cols.

Definition required_cols : list column :=
  [Timestamp; Latitude; Longitude; Temperature; Salinity; Odo].

Definition numeric_cols : list column := [Temperature; Salinity; Odo].

(** [pd.notna] on a cell: NaN counts as missing. *)
Definition notna_float (x : option float) : bool :=
  match x with Some v => negb (PrimFloat.is_nan v) | None => false end.

Definition notna_datetime (x : option datetime) : bool :=
  match x with Some _ => true | None => false end.

Definition notna (c : column) (r : row) : bool :=
  match c with
  | Timestamp => notna_datetime (timestamp r)
  | Latitude => notna_float (latitude r)
  | Longitude => notna_float (longitude r)
  | Temperature => notna_float (temperature r)
  | Salinity => notna_float (salinity r)
  | Odo => notna_float (odo r)
  end.

(** The float in a numeric cell, NaN when it is missing. *)
Definition cell (c : column) (r : row) : float :=
  let get (x : option float) := match x with Some v => v | None => PrimFloat.nan end in
  match c with
  | Timestamp => PrimFloat.nan
  | Latitude => get (latitude r)
  | Longitude => get (longitude r)
  | Temperature => get (temperature r)
  | Salinity => get (salinity r)
  | Odo => get (odo r)
  end.

(** The values of a numeric column that [mean] and [std] work on: pandas
    skips the missing ones. *)
Definition series (c : column) (l : list row) : list float :=
  map (cell c) (filter (notna c) l).

Definition keep {A : Type} (present : bool) (x : option A) : option A :=
  if present then x else None.

(** A row of a frame with columns [cols], seen as a row of the
    concatenation. *)
Definition reindex (cols : list column) (r : row) : row :=
  mk_row (keep (has_column Timestamp cols) (timestamp r))
         (keep (has_column Latitude cols) (latitude r))
         (keep (has_column Longitude cols) (longitude r))
         (keep (has_column Temperature cols) (temperature r))
         (keep (has_column Salinity cols) (salinity r))
         (keep (has_column Odo cols) (odo r)).

(** [pd.concat(all_data, ignore_index=True)]: the union of the columns, the
    rows of the frames one after the other. *)
Definition concat (all_data : list frame) : frame :=
  mk_frame
    (filter (fun c => existsb (fun f => has_column c (columns f)) all_data) required_cols)
    (flat_map (fun f => map (reindex (columns f)) (rows f)) all_data).

(** [df.dropna(subset=subset, how='any')]: a label that is not a column
    raises [KeyError]. *)
Definition dropna (subset : list column) (df : frame) : M frame :=
  if forallb (fun c => has_column c (columns df)) subset
  then ret (mk_frame (columns df)
              (filter (fun r => forallb (fun c => notna c r) subset) (rows df)))
  else raise "KeyError".

(** Ascending order of [sort_values]: a missing timestamp comes last. *)
Definition pandas_leb (a b : option datetime) : bool :=
  match a, b with
  | _, None => true
  | None, Some _ => false
  | Some x, Some y => dt_leb x y
  end.

Definition row_leb (a b : row) : bool := pandas_leb (timestamp a) (timestamp b).

(** [df.sort_values('timestamp').reset_index(drop=True)]; rows with equal
    timestamps are kept here in their order of arrival. *)
Definition sort_values_timestamp (df : frame) : frame :=
  mk_frame (columns df) (sort_by row_leb (rows df)).

(** [df.empty]: no rows or no columns. *)
Definition empty (df : frame) : bool :=
  match rows df, columns df with
  | [], _ => true
  | _, [] => true
  | _, _ => false
  end.

Definition len (df : frame) : Z := Z.of_nat (List.length (rows df)).

(** [_load_and_standardize_data], from the point where the loop over [paths]
    has filled [all_data] with one standardized frame per readable file. *)
Definition _load_and_standardize_data (all_data : list frame) : M frame :=
  match all_data with
  | [] => ret (mk_frame [] [])
  | _ :: _ =>
      let combined_df := concat all_data in
      set_original_rows (len combined_df) ;;;
      combined_df <- dropna required_cols combined_df ;;
      ret (sort_values_timestamp combined_df)
  end.

(** The column [f'{col}_z']:
    [np.where(std == 0, 0.0, ((df[col] - mean) / std).abs())]. *)
Definition z_column (df : frame) (col : column) : row -> float :=
  let mean := series_mean (series col (rows df)) in
  let std := series_std (series col (rows df)) in
  fun r =>
    if PrimFloat.eqb std 0 then 0%float
    else PrimFloat.abs (PrimFloat.div (PrimFloat.sub (cell col r) mean) std).

(** [(df_clean[z_cols] > z_score_threshold).any(axis=1)]. *)
Definition outlier_mask (z_cols : list (row -> float)) (z_score_threshold : float)
    (r : row) : bool :=
  existsb (fun z => PrimFloat.ltb z_score_threshold (z r)) z_cols.

Definition _clean_outliers (df : frame) (z_score_threshold : float) : M frame :=
  if empty df then ret df
  else
    let present := filter (fun c => has_column c (columns df)) numeric_cols in
    let z_cols := map (z_column df) present in
    fold_right (fun _ k => tell SeriesDiv ;;; k) (ret tt) present ;;;
    let df_cleaned :=
      match z_cols with
      | [] => df
      | _ :: _ =>
          mk_frame (columns df)
            (filter (fun r => negb (outlier_mask z_cols z_score_threshold r)) (rows df))
      end in
    st <- get_state ;;
    set_removed_outliers (original_rows st - len df_cleaned) ;;;
    set_remaining_rows (len df_cleaned) ;;;
    ret df_cleaned.

(** [df.where(df.notna(), None)] on one row. *)
Definition none_if_na (r : row) : row :=
  mk_row (timestamp r)
         (keep (notna_float (latitude r)) (latitude r))
         (keep (notna_float (longitude r)) (longitude r))
         (keep (notna_float (temperature r)) (temperature r))
         (keep (notna_float (salinity r)) (salinity r))
         (keep (notna_float (odo r)) (odo r)).

Definition _insert_data (df : frame) : M unit :=
  if empty df then ret tt
  else
    let records := map none_if_na (rows df) in
    match records with
    | [] => ret tt
    | _ :: _ => insert_many records
    end.

(** [_print_report] writes the three counters to the console. *)
Definition _print_report : M unit := ret tt.

(** [_print_sample_data] reads the first five documents in timestamp order
    and prints them; the items it rewrites are copies, and an exception is
    caught and printed. *)
Definition _print_sample_data : M unit :=
  try_except
    (let sample_cursor := sort_timestamp (limit 5 (find match_all None)) in
     sample_items <- iterate sample_cursor ;;
     ret tt)
    (fun _ => ret tt).

(** [WaterQualityDB.__init__]: the collection is built only when it holds no
    document yet. *)
Definition __init__ (all_data : list frame) : M unit :=
  n <- count_documents match_all ;;
  if n =? 0 then
    df <- _load_and_standardize_data all_data ;;
    df <- _clean_outliers df 3%float ;;
    _insert_data df ;;;
    _print_report ;;;
    _print_sample_data
  else ret tt.

End WithRuntime.
End DB.

(** ** [data/water_quality_db.py]: the column names of one file

    The part of the loop of [_load_and_standardize_data] that renames the
    columns of a file, from the point where [df.columns] holds the
    lower-cased, stripped headers. *)

Module Columns.

Definition COLUMN_REMAP : list (string * string) :=
  [("timestamp", "timestamp");
   ("date", "date"); ("date m/d/y", "date");
   ("time", "time"); ("time hh:mm:ss", "time"); ("date and time", "timestamp");
   ("latitude", "latitude");
   ("longitude", "longitude"); ("long", "longitude");
   ("temperature", "temperature"); ("temp c", "temperature"); ("temp (c)", "temperature");
   ("salinity", "salinity"); ("sal ppt", "salinity"); ("salinity (ppt)", "salinity");
   ("odo", "odo"); ("odo mg/l", "odo"); ("d.o.", "odo"); ("dissolved oxygen", "odo")].

(** [d.get(k)] on a dictionary from names to names. *)
Fixpoint lookup (d : list (string * string)) (k : string) : option string :=
  match d with
  | [] => None
  | (k', v) :: d' => if String.eqb k k' then Some v else lookup d' k
  end.

(** [d[k] = v]: the value of an existing key is replaced, a new key goes
    last. *)
Fixpoint assign (k v : string) (d : list (string * string)) : list (string * string) :=
  match d with
  | [] => [(k, v)]
  | (k', v') :: d' =>
      if String.eqb k k' then (k, v) :: d' else (k', v') :: assign k v d'
  end.

(** [COLUMN_REMAP.get(old_col, old_col)]. *)
Definition standard_name (old_col : string) : string :=
  match lookup COLUMN_REMAP old_col with
  | Some s => s
  | None => old_col
  end.

(** One turn of the loop over [df.columns]: the pair is [new_cols_map] and
    [mapped_names]. *)
Definition remap_column (acc : list (string * string) * list string)
    (old_col : string) : list (string * string) * list string :=
  let '(new_cols_map, mapped_names) := acc in
  let s := standard_name old_col in
  if mem_string s mapped_names then acc
  else (assign old_col s new_cols_map, s :: mapped_names).

Definition new_cols_map (columns : list string) : list (string * string) :=
  fst (fold_left remap_column columns ([], [])).

(** [df.rename(columns=m)]: a label that is a key of [m] is replaced by its
    value. *)
Definition rename (m : list (string * string)) (columns : list string) : list string :=
  map (fun c => match lookup m c with Some s => s | None => c end) columns.

(** The labels of the frame after [df.rename(columns=new_cols_map)]. *)
Definition standardize (columns : list string) : list string :=
  rename (new_cols_map columns) columns.

End Columns.

(** ** [api/water_quality_api.py]: the request handlers *)

Module API.
Section WithRuntime.
Context {RT : Runtime}.

Local Open Scope py_scope.

(** The module-level [db_collection] is either a reference to the
    collection [asv_1] or [None] when the import of the database failed. *)
Inductive collection : Type := asv_1.

(** [jsonify(body), status]. *)
Record response : Type := mk_response { body : dict; status : Z }.

Definition jsonify (d : dict) : response := mk_response d 200.
Definition jsonify_status (d : dict) (code : Z) : response := mk_response d code.

Definition error_response (msg : string) (code : Z) : response :=
  jsonify_status [("error", VStr msg)] code.

Definition convert_decimals_to_float (item : dict) : dict :=
  map (fun kv =>
         match snd kv with
         | VDatetime dt => (fst kv, VStr (isoformat dt))
         | v => (fst kv, v)
         end) item.

Definition naive (dt : datetime) : datetime := replace_tzinfo dt None.

(** The cleaned text the fallback of [safe_iso_to_datetime] parses. *)
Definition clean_iso_string (iso_string : string) : string :=
  let '(base_part, micro_tz_part) := PyStr.rsplit1 "." iso_string in
  let '(tz_suffix, micro_part) :=
    if PyStr.contains "Z" micro_tz_part then
      ("Z", PyStr.remove "Z" micro_tz_part)
    else if PyStr.contains "+" micro_tz_part then
      let tz_index := PyStr.find "+" micro_tz_part in
      (PyStr.slice_from tz_index micro_tz_part, PyStr.slice_to tz_index micro_tz_part)
    else if PyStr.contains "-" micro_tz_part && PyStr.contains ":" micro_tz_part then
      let tz_index := PyStr.rfind "-" micro_tz_part in
      (PyStr.slice_from tz_index micro_tz_part, PyStr.slice_to tz_index micro_tz_part)
    else ("", micro_tz_part) in
  let clean_micro := PyStr.zfill 6 (PyStr.slice_to 6 micro_part) in
  base_part ++ "." ++ clean_micro ++ tz_suffix.

Definition safe_iso_to_datetime (iso_string : string) : option datetime :=
  match fromisoformat iso_string with
  | Some dt => Some (naive dt)
  | None =>
      if PyStr.contains "." iso_string then
        match fromisoformat (clean_iso_string iso_string) with
        | Some dt => Some (naive dt)
        | None => None
        end
      else None
  end.

(** One bound of a filter: absent, parsed, or rejected ([inr tt]). *)
Definition bound {A : Type} (parse : string -> option A) (args : params)
    (key : string) : option A + unit :=
  match args_get args key with
  | None => inl None
  | Some s => match parse s with Some x => inl (Some x) | None => inr tt end
  end.

Definition numeric_filter (args : params) (min_key max_key : string)
    : option (range float) + string :=
  if args_has args min_key || args_has args max_key then
    match bound py_float args min_key with
    | inl lo =>
        match bound py_float args max_key with
        | inl hi => inl (Some (mk_range lo hi))
        | inr _ =>
            inr ("Invalid value for " ++ min_key ++ " or " ++ max_key ++ ". Must be a number.")
        end
    | inr _ =>
        inr ("Invalid value for " ++ min_key ++ " or " ++ max_key ++ ". Must be a number.")
    end
  else inl None.

Definition time_filter (args : params) : option (range datetime) + string :=
  if args_has args "start" || args_has args "end" then
    match bound safe_iso_to_datetime args "start" with
    | inr _ => inr "Invalid 'start' date format."
    | inl lo =>
        match bound safe_iso_to_datetime args "end" with
        | inr _ => inr "Invalid 'end' date format."
        | inl hi => inl (Some (mk_range lo hi))
        end
    end
  else inl None.

(** [build_mongo_query]: [inl query] for [(query, None)], [inr error] for
    [(None, error)]. *)
Definition build_mongo_query (args : params) : query + string :=
  match time_filter args with
  | inr error => inr error
  | inl ts =>
      match numeric_filter args "min_temp" "max_temp" with
      | inr error => inr error
      | inl temp =>
          match numeric_filter args "min_sal" "max_sal" with
          | inr error => inr error
          | inl sal =>
              match numeric_filter args "min_odo" "max_odo" with
              | inr error => inr error
              | inl od => inl (mk_query ts temp sal od)
              end
          end
      end
  end.

Definition health_check : M response := ret (jsonify [("status", VStr "ok")]).

(** [int(args.get(key, default))]. *)
Definition int_arg (args : params) (key : string) (default : Z) : option Z :=
  match args_get args key with
  | Some s => py_int s
  | None => Some default
  end.

Definition get_observations (db_collection : option collection) (args : params)
    : M response :=
  match db_collection with
  | None => ret (error_response "Database not initialized." 500)
  | Some _ =>
      match build_mongo_query args with
      | inr error => ret (error_response error 400)
      | inl query =>
          match int_arg args "limit" 100 with
          | None => ret (error_response "Limit and skip must be valid integers." 400)
          | Some requested =>
              let limit_ := Z.min requested 1000 in
              match int_arg args "skip" 0 with
              | None => ret (error_response "Limit and skip must be valid integers." 400)
              | Some skip_ =>
                  if (limit_ <? 0) || (skip_ <? 0) then
                    ret (error_response "Limit and skip must be non-negative." 400)
                  else
                    try_except
                      (total_count <- count_documents query ;;
                       let items_cursor :=
                         sort_timestamp (limit limit_ (skip skip_ (find query None))) in
                       found <- iterate items_cursor ;;
                       let items := map convert_decimals_to_float found in
                       ret (jsonify [("count", VInt total_count);
                                     ("items", VList (map VDict items))]))
                      (fun _ =>
                         ret (error_response "Internal server error during database query." 500))
              end
          end
      end
  end.

(** *** DataFrames built from projected documents

    [pd.DataFrame(processed_items)] has the keys of the items as columns,
    so none when there is no item. *)

Definition frame : Type := list dict.

Definition has_column (col : string) (df : frame) : bool :=
  existsb (fun d => mem_string col (keys d)) df.

(** [pd.notna] on a cell; a key the item lacks is a missing cell. *)
Definition notna (v : option value) : bool :=
  match v with
  | None | Some VNone => false
  | Some (VFloat x) => negb (PrimFloat.is_nan x)
  | Some _ => true
  end.

(** The cell after [astype(float)].  Stored cells are floats or [None]. *)
Definition to_float (v : option value) : float :=
  match v with
  | Some (VFloat x) => x
  | _ => PrimFloat.nan
  end.

(** [df.dropna(subset=[col])]: [KeyError] when [col] is not a column. *)
Definition dropna (col : string) (df : frame) : M frame :=
  if has_column col df
  then ret (filter (fun d => notna (dict_get col d)) df)
  else raise "KeyError".

(** [df[col]] as floats. *)
Definition floats (col : string) (df : frame) : list float :=
  map (fun d => to_float (dict_get col d)) df.

Definition stats_of (s : list float) : dict :=
  match s with
  | [] =>
      [("count", VInt 0); ("mean", VNone); ("min", VNone); ("max", VNone);
       ("25%", VNone); ("50%", VNone); ("75%", VNone)]
  | _ :: _ =>
      [("count", VInt (Z.of_nat (List.length s)));
       ("mean", VFloat (series_mean s));
       ("min", VFloat (series_min s));
       ("max", VFloat (series_max s));
       ("25%", VFloat (series_quantile s 0.25%float));
       ("50%", VFloat (series_median s));
       ("75%", VFloat (series_quantile s 0.75%float))]
  end.

Definition numeric_fields : list string := ["temperature"; "salinity"; "odo"].

Definition get_stats (db_collection : option collection) : M response :=
  match db_collection with
  | None => ret (error_response "Database not initialized." 500)
  | Some _ =>
      try_except
        (all_items <- iterate (find match_all (Some numeric_fields)) ;;
         let processed_items := map convert_decimals_to_float all_items in
         let df_all : frame := processed_items in
         let stats :=
           flat_map
             (fun col =>
                if has_column col df_all then
                  let series :=
                    floats col (filter (fun d => notna (dict_get col d)) df_all) in
                  [(col, VDict (stats_of series))]
                else [])
             numeric_fields in
         ret (jsonify stats))
        (fun _ =>
           ret (error_response "Internal server error during statistics calculation." 500))
  end.

(** The mask of the selected method over the rows of [df], or the response
    that rejects the method. *)
Definition method_mask (method field : string) (k_factor : float) (df : frame)
    : M ((dict -> bool) + response) :=
  let x (d : dict) := to_float (dict_get field d) in
  if String.eqb method "zscore" then
    let mean := series_mean (floats field df) in
    let std := series_std (floats field df) in
    if negb (PrimFloat.eqb std 0) then
      tell SeriesDiv ;;;
      ret (inl (fun d =>
                  PrimFloat.ltb k_factor
                    (PrimFloat.abs (PrimFloat.div (PrimFloat.sub (x d) mean) std))))
    else ret (inl (fun _ => false))
  else if String.eqb method "iqr" then
    let Q1 := series_quantile (floats field df) 0.25%float in
    let Q3 := series_quantile (floats field df) 0.75%float in
    let IQR := PrimFloat.sub Q3 Q1 in
    let lower_bound := PrimFloat.sub Q1 (PrimFloat.mul k_factor IQR) in
    let upper_bound := PrimFloat.add Q3 (PrimFloat.mul k_factor IQR) in
    ret (inl (fun d => PrimFloat.ltb (x d) lower_bound || PrimFloat.ltb upper_bound (x d)))
  else
    ret (inr (error_response "Invalid outlier method. Use 'iqr' or 'zscore'." 400)).

(** [float(args.get('k', 1.5 if method == 'iqr' else 3.0))]. *)
Definition factor_arg (args : params) (method : string) : option float :=
  match args_get args "k" with
  | Some s => py_float s
  | None => Some (if String.eqb method "iqr" then 1.5%float else 3%float)
  end.

(** [{"_id": 0, field: 1, "timestamp": 1, "latitude": 1, "longitude": 1}]. *)
Definition outlier_projection (field : string) : option (list string) :=
  Some [field; "timestamp"; "latitude"; "longitude"].

Definition find_outliers (db_collection : option collection) (args : params)
    : M response :=
  match db_collection with
  | None => ret (error_response "Database not initialized." 500)
  | Some _ =>
      let field := args_get args "field" in
      let method := match args_get args "method" with Some m => m | None => "iqr" end in
      match factor_arg args method with
      | None => ret (error_response "Invalid factor 'k'." 400)
      | Some k_factor =>
          match field with
          | None => ret (error_response "Invalid field specified." 400)
          | Some field =>
              if negb (mem_string field numeric_fields) then
                ret (error_response "Invalid field specified." 400)
              else
                fetched <-
                  try_except
                    (all_items <- iterate (find match_all (outlier_projection field)) ;;
                     let processed_items := map convert_decimals_to_float all_items in
                     ret (inl (processed_items : frame)))
                    (fun _ =>
                       ret (inr (error_response
                                   "Internal server error during database query." 500))) ;;
                match fetched with
                | inr failed => ret failed
                | inl df =>
                    df <- dropna field df ;;
                    match df with
                    | [] => ret (jsonify [("outliers", VList [])])
                    | _ :: _ =>
                        mask <- method_mask method field k_factor df ;;
                        match mask with
                        | inr rejected => ret rejected
                        | inl outlier_mask =>
                            let outlier_records := filter outlier_mask df in
                            ret (jsonify
                                   [("outliers", VList (map VDict outlier_records));
                                    ("count", VInt (Z.of_nat (List.length outlier_records)))])
                        end
                    end
                end
          end
      end
  end.

End WithRuntime.
End API.

(** ** A reference runtime

    An executable choice for the fields of [Runtime], used to run the
    program on concrete inputs.  [int] is Python's for ASCII text;
    [datetime.fromisoformat] reads the format of Python 3.7 to 3.10,
    [YYYY-MM-DD[*HH[:MM[:SS[.fff[fff]]]][+HH:MM[:SS[.ffffff]]]]]; the
    reductions are the textbook ones (left-to-right sum, sample standard
    deviation, linear-interpolation quantile); [float] reads plain decimal
    literals of at most fifteen digits, which convert exactly, and rejects
    everything else. *)

Module Reference.

Definition float_of_Z (n : Z) : float := PrimFloat.of_uint63 (Uint63.of_Z n).
Definition float_of_nat (n : nat) : float := float_of_Z (Z.of_nat n).

(** Digits with single underscores between them. *)
Fixpoint int_digits (s : string) (after_digit : bool) (acc : Z) : option Z :=
  match s with
  | EmptyString => if after_digit then Some acc else None
  | String c s' =>
      if PyStr.is_digit c then int_digits s' true (10 * acc + PyStr.digit_value c)
      else if Ascii.eqb c "_" && after_digit then int_digits s' false acc
      else None
  end.

Definition int (s : string) : option Z :=
  match PyStr.strip s with
  | String "+" r => int_digits r false 0
  | String "-" r => option_map Z.opp (int_digits r false 0)
  | t => int_digits t false 0
  end.

Definition unsigned_decimal (s : string) : option float :=
  let i := PyStr.find "." s in
  let whole := if i <? 0 then s else PyStr.slice_to i s in
  let frac := if i <? 0 then "" else PyStr.slice_from (i + 1) s in
  let digits := whole ++ frac in
  if PyStr.all_digits digits
     && (1 <=? String.length digits)%nat && (String.length digits <=? 15)%nat
  then Some (PrimFloat.div (float_of_Z (PyStr.digits_value 0 digits))
               (float_of_Z (10 ^ Z.of_nat (String.length frac))))
  else None.

Definition float_ (s : string) : option float :=
  match PyStr.strip s with
  | String "+" r => unsigned_decimal r
  | String "-" r => option_map PrimFloat.opp (unsigned_decimal r)
  | t => unsigned_decimal t
  end.

(** Exactly [n] digits at the head of [s]: their value and the rest. *)
Definition digits (n : nat) (s : string) : option (Z * string) :=
  let d := PyStr.take n s in
  if (String.length d =? n)%nat && PyStr.all_digits d
  then Some (PyStr.digits_value 0 d, PyStr.drop n s)
  else None.

(** [HH[:MM[:SS[.fff[fff]]]]]: hour, minute, second, microsecond. *)
Definition hh_mm_ss_ff (s : string) : option (Z * Z * Z * Z) :=
  match digits 2 s with
  | None => None
  | Some (h, EmptyString) => Some (h, 0, 0, 0)
  | Some (h, String ":" s1) =>
      match digits 2 s1 with
      | None => None
      | Some (m, EmptyString) => Some (h, m, 0, 0)
      | Some (m, String ":" s2) =>
          match digits 2 s2 with
          | None => None
          | Some (sec, EmptyString) => Some (h, m, sec, 0)
          | Some (sec, String "." f) =>
              if PyStr.all_digits f then
                if (String.length f =? 3)%nat
                then Some (h, m, sec, 1000 * PyStr.digits_value 0 f)
                else if (String.length f =? 6)%nat
                then Some (h, m, sec, PyStr.digits_value 0 f)
                else None
              else None
          | Some _ => None
          end
      | Some _ => None
      end
  | Some _ => None
  end.

(** Position of the first [+] or [-]. *)
Fixpoint sign_index (s : string) : option nat :=
  match s with
  | EmptyString => None
  | String c s' =>
      if Ascii.eqb c "+" || Ascii.eqb c "-" then Some O
      else option_map S (sign_index s')
  end.

(** The UTC offset in microseconds of [+HH:MM[:SS[.ffffff]]]. *)
Definition utc_offset (s : string) : option Z :=
  match s with
  | String c t =>
      let n := String.length t in
      if (n =? 5)%nat || (n =? 8)%nat || (n =? 15)%nat then
        match hh_mm_ss_ff t with
        | Some (h, m, sec, us) =>
            let off := ((h * 3600 + m * 60 + sec) * 1000000 + us) in
            Some (if Ascii.eqb c "-" then - off else off)
        | None => None
        end
      else None
  | EmptyString => None
  end.

Definition is_leap (y : Z) : bool :=
  ((y mod 4 =? 0) && negb (y mod 100 =? 0)) || (y mod 400 =? 0).

Definition days_in_month (y m : Z) : Z :=
  if m =? 2 then (if is_leap y then 29 else 28)
  else if (m =? 4) || (m =? 6) || (m =? 9) || (m =? 11) then 30 else 31.

(** The range checks of the [datetime] constructor. *)
Definition valid (dt : datetime) : bool :=
  (1 <=? year dt) && (year dt <=? 9999)
  && (1 <=? month dt) && (month dt <=? 12)
  && (1 <=? day dt) && (day dt <=? days_in_month (year dt) (month dt))
  && (0 <=? hour dt) && (hour dt <=? 23)
  && (0 <=? minute dt) && (minute dt <=? 59)
  && (0 <=? second dt) && (second dt <=? 59)
  && (0 <=? microsecond dt) && (microsecond dt <=? 999999)
  && match tzinfo dt with
     | Some off => (- 86400000000 <? off) && (off <? 86400000000)
     | None => true
     end.

Definition checked (dt : datetime) : option datetime :=
  if valid dt then Some dt else None.

Definition time_of (y m d : Z) (tstr : string) : option datetime :=
  let '(timestr, tz) :=
    match sign_index tstr with
    | Some i => (PyStr.take i tstr, Some (PyStr.drop i tstr))
    | None => (tstr, None)
    end in
  match hh_mm_ss_ff timestr with
  | None => None
  | Some (h, mi, sec, us) =>
      match tz with
      | None => checked (mk_datetime y m d h mi sec us None)
      | Some tzstr =>
          match utc_offset tzstr with
          | Some off => checked (mk_datetime y m d h mi sec us (Some off))
          | None => None
          end
      end
  end.

Definition fromisoformat_ (date_string : string) : option datetime :=
  match digits 4 date_string with
  | Some (y, String "-" s1) =>
      match digits 2 s1 with
      | Some (m, String "-" s2) =>
          match digits 2 s2 with
          | Some (d, EmptyString) => checked (mk_datetime y m d 0 0 0 0 None)
          | Some (d, String _ tstr) => time_of y m d tstr
          | None => None
          end
      | _ => None
      end
  | _ => None
  end.

(** [n] written with exactly [width] decimal digits. *)
Fixpoint fixed_width (width : nat) (n : Z) (acc : string) : string :=
  match width with
  | O => acc
  | S w => fixed_width w (n / 10) (String (ascii_of_nat (48 + Z.to_nat (n mod 10))) acc)
  end.

Definition hms (h m s us : Z) : string :=
  fixed_width 2 h "" ++ ":" ++ fixed_width 2 m "" ++ ":" ++ fixed_width 2 s ""
  ++ (if us =? 0 then "" else "." ++ fixed_width 6 us "").

Definition isoformat_ (dt : datetime) : string :=
  fixed_width 4 (year dt) "" ++ "-" ++ fixed_width 2 (month dt) "" ++ "-"
  ++ fixed_width 2 (day dt) "" ++ "T"
  ++ hms (hour dt) (minute dt) (second dt) (microsecond dt)
  ++ match tzinfo dt with
     | None => ""
     | Some off =>
         let a := Z.abs off in
         let secs := a / 1000000 in
         (if off <? 0 then "-" else "+")
         ++ fixed_width 2 (secs / 3600) "" ++ ":" ++ fixed_width 2 (secs / 60 mod 60) ""
         ++ (if (secs mod 60 =? 0) && (a mod 1000000 =? 0) then ""
             else ":" ++ fixed_width 2 (secs mod 60) ""
                  ++ (if a mod 1000000 =? 0 then ""
                      else "." ++ fixed_width 6 (a mod 1000000) ""))
     end.

Definition sum (l : list float) : float := fold_left PrimFloat.add l 0%float.

Definition mean (l : list float) : float :=
  PrimFloat.div (sum l) (float_of_nat (List.length l)).

(** Sample standard deviation ([ddof=1]); NaN below two values. *)
Definition std (l : list float) : float :=
  let m := mean l in
  let sq := map (fun x => PrimFloat.mul (PrimFloat.sub x m) (PrimFloat.sub x m)) l in
  PrimFloat.sqrt
    (PrimFloat.div (sum sq) (PrimFloat.sub (float_of_nat (List.length l)) 1%float)).

(** The largest index below [n] whose value does not exceed [pos]. *)
Fixpoint floor_index (n : nat) (pos : float) : nat :=
  match n with
  | O => O
  | S n' => if PrimFloat.leb (float_of_nat n') pos then n' else floor_index n' pos
  end.

Definition lerp (a b t : float) : float :=
  let diff := PrimFloat.sub b a in
  if PrimFloat.leb 0.5%float t
  then PrimFloat.sub b (PrimFloat.mul diff (PrimFloat.sub 1%float t))
  else PrimFloat.add a (PrimFloat.mul diff t).

(** Quantile by linear interpolation between the two nearest ranks. *)
Definition quantile (l : list float) (q : float) : float :=
  let sorted := sort_by PrimFloat.leb l in
  let n := List.length sorted in
  match n with
  | O => PrimFloat.nan
  | S n' =>
      let pos := PrimFloat.mul (float_of_nat n') q in
      let lo := floor_index n pos in
      let hi := Nat.min (S lo) n' in
      lerp (nth lo sorted PrimFloat.nan) (nth hi sorted PrimFloat.nan)
        (PrimFloat.sub pos (float_of_nat lo))
  end.

Definition median (l : list float) : float :=
  let sorted := sort_by PrimFloat.leb l in
  let n := List.length sorted in
  match n with
  | O => PrimFloat.nan
  | S n' =>
      if Nat.even n
      then PrimFloat.div
             (PrimFloat.add (nth (n / 2 - 1) sorted PrimFloat.nan)
                (nth (n / 2) sorted PrimFloat.nan)) 2%float
      else nth (n / 2) sorted PrimFloat.nan
  end.

Definition minimum (l : list float) : float :=
  match l with
  | [] => PrimFloat.nan
  | x :: l' => fold_left (fun a b => if PrimFloat.ltb b a then b else a) l' x
  end.

Definition maximum (l : list float) : float :=
  match l with
  | [] => PrimFloat.nan
  | x :: l' => fold_left (fun a b => if PrimFloat.ltb a b then b else a) l' x
  end.

End Reference.

Definition reference_runtime : Runtime := {|
  fromisoformat := Reference.fromisoformat_;
  isoformat := Reference.isoformat_;
  py_int := Reference.int;
  py_float := Reference.float_;
  series_mean := Reference.mean;
  series_std := Reference.std;
  series_quantile := Reference.quantile;
  series_median := Reference.median;
  series_min := Reference.minimum;
  series_max := Reference.maximum
|}.

(** ** The process as a transition system

    An operation is the construction of a [WaterQualityDB] over the frames
    read from disk, or one request served by the API. *)

Inductive operation : Type :=
| Construct (all_data : list DB.frame)
| Health
| Observations (db_collection : option API.collection) (args : params)
| Stats (db_collection : option API.collection)
| Outliers (db_collection : option API.collection) (args : params).

Definition is_request (op : operation) : bool :=
  match op with Construct _ => false | _ => true end.

Definition perform {RT : Runtime} (op : operation) (st : state) : state :=
  match op with
  | Construct all_data => snd (DB.__init__ all_data st)
  | Health => snd (API.health_check st)
  | Observations db args => snd (API.get_observations db args st)
  | Stats db => snd (API.get_stats db st)
  | Outliers db args => snd (API.find_outliers db args st)
  end.

(** A fresh process: an empty collection, the class-level counters at 0. *)
Definition start : state := mk_state [] 0 0 0 [].

Inductive reachable {RT : Runtime} : state -> Prop :=
| reachable_start : reachable start
| reachable_step (st : state) (op : operation) :
    reachable st -> reachable (perform op st).

(** All six required fields of a stored row are present and not NaN. *)
Definition complete (r : row) : Prop :=
  forallb (fun c => DB.notna c r) DB.required_cols = true.

(** Each row is no later than every row after it. *)
Definition sorted_by_timestamp (l : list row) : Prop :=
  StronglySorted (fun a b => DB.row_leb a b = true) l.

(** ** Reading a response *)

Definition response_count (o : outcome API.response) : option Z :=
  match o with
  | Returned r =>
      match dict_get "count" (API.body r) with
      | Some (VInt n) => Some n
      | _ => None
      end
  | Raised _ => None
  end.

Definition response_list (key : string) (o : outcome API.response) : option (list value) :=
  match o with
  | Returned r =>
      match dict_get key (API.body r) with
      | Some (VList l) => Some l
      | _ => None
      end
  | Raised _ => None
  end.

(** The rows of the ["outliers"] list of a response, none when it has no
    such list. *)
Definition flagged (o : outcome API.response) : list value :=
  match response_list "outliers" o with Some l => l | None => [] end.

Definition observation_fields : list string :=
  ["timestamp"; "latitude"; "longitude"; "temperature"; "salinity"; "odo"].

(** The values a field takes over the stored documents where it is not
    null. *)
Definition field_values (field : string) (st : state) : list float :=
  API.floats field
    (filter (fun d => API.notna (dict_get field d)) (map doc_of_row (docs st))).

(** The matches of a query in ascending timestamp order, as served. *)
Definition served {RT : Runtime} (q : query) (st : state) : list value :=
  map (fun r => VDict (API.convert_decimals_to_float (doc_of_row r)))
    (sort_by (fun a b => mongo_leb (timestamp a) (timestamp b))
       (filter (matches q) (docs st))).

(** ** Sample data *)

Definition at_second (s : Z) : option datetime :=
  Some (mk_datetime 2021 12 16 9 30 s 0 None).

Definition reading (s : Z) (temp : float) : row :=
  mk_row (at_second s) (Some 26.5%float) (Some (-80.25)%float)
    (Some temp) (Some 35%float) (Some 6.5%float).

(** Two files; the second lacks one dissolved-oxygen reading and is not in
    chronological order. *)
Definition sample_frames : list DB.frame :=
  [DB.mk_frame DB.required_cols [reading 3 3; reading 1 1; reading 5 100];
   DB.mk_frame DB.required_cols
     [reading 4 4;
      mk_row (at_second 6) (Some 26.5%float) (Some (-80.25)%float)
        (Some 7%float) (Some 35%float) None;
      reading 2 2]].

Definition sample_store : state :=
  perform (RT := reference_runtime) (Construct sample_frames) start.

(** The collection built from one file in which every temperature is the
    same. *)
Definition constant_store : state :=
  perform (RT := reference_runtime)
    (Construct [DB.mk_frame DB.required_cols
                  [reading 1 5; reading 2 5; reading 3 5; reading 4 5]]) start.

(** The collection built from one file of 1001 identical readings. *)
Definition large_store : state :=
  perform (RT := reference_runtime)
    (Construct [DB.mk_frame DB.required_cols (repeat (reading 1 20) 1001)]) start.

(** The process after a start-up that found none of the files. *)
Definition empty_store : state :=
  perform (RT := reference_runtime) (Construct []) start.

(** A collection whose only document has a null temperature.  The
    constructor never stores such a document; the handlers are written to
    cope with one. *)
Definition null_store : state :=
  mk_state [mk_row (at_second 1) (Some 26.5%float) (Some (-80.25)%float)
              None (Some 35%float) (Some 6.5%float)] 1 0 1 [].

(** ** Statements about the program *)

Definition complete_b (r : row) : bool :=
  forallb (fun c => DB.notna c r) DB.required_cols.

(** ** Read-only computations

    A computation is read-only when it changes nothing in the state but the
    log. *)

Definition same_data (st st' : state) : Prop :=
  docs st' = docs st
  /\ original_rows st' = original_rows st
  /\ removed_outliers st' = removed_outliers st
  /\ remaining_rows st' = remaining_rows st.

Definition read_only {A : Type} (m : M A) : Prop :=
  forall st, same_data st (snd (m st)).

(** The reading of the counters under which they describe the z-score pass
    alone: its input, what it removed, its output. *)
Definition report_of_zscore_pass {RT : Runtime} (all_data : list DB.frame)
    (st : state) : Prop :=
  forall df st1 df' st2,
    DB._load_and_standardize_data all_data st = (Returned df, st1) ->
    DB._clean_outliers df 3%float st1 = (Returned df', st2) ->
    original_rows st2 = DB.len df
    /\ removed_outliers st2 = DB.len df - DB.len df'
    /\ remaining_rows st2 = DB.len df'.

(** The equation of C4 for two requests over one filter: [args] yields the
    count, [page_args] asks for the page with no row skipped and that count
    as limit. *)
Definition count_equals_full_page {RT : Runtime} (st : state)
    (args page_args : params) : Prop :=
  forall (c : Z) (items : list value),
    API.build_mongo_query page_args = API.build_mongo_query args ->
    response_count (fst (API.get_observations (Some API.asv_1) args st)) = Some c ->
    API.int_arg page_args "limit" 100 = Some c ->
    API.int_arg page_args "skip" 0 = Some 0 ->
    response_list "items" (fst (API.get_observations (Some API.asv_1) page_args st))
    = Some items ->
    Z.of_nat (List.length items) = c.

(** The DataFrame [find_outliers] builds: one item per stored document, in
    insertion order, with the projected fields only. *)
Definition outlier_item {RT : Runtime} (field : string) (r : row) : dict :=
  API.convert_decimals_to_float (project (API.outlier_projection field) (doc_of_row r)).

(** The reading of C1: each flagged row has a value under each of the six
    field names of an observation. *)
Definition carries_all_fields (o : outcome API.response) : Prop :=
  forall d : dict, In (VDict d) (flagged o) ->
  forall k : string, In k observation_fields -> dict_get k d <> None.

(** The forms of time-zone suffix the fallback of [safe_iso_to_datetime]
    tells apart after the fraction: none, [Z], [+...], and [-...] with a
    colon. *)
Definition tz_marker (tz : string) : bool :=
  match tz with
  | EmptyString => true
  | String c t =>
      negb (PyStr.contains "." t)
      && (if Ascii.eqb c "Z" then String.eqb t ""
          else if Ascii.eqb c "+" then negb (PyStr.contains "Z" t)
          else if Ascii.eqb c "-" then
            negb (PyStr.contains "Z" t) && negb (PyStr.contains "+" t)
            && negb (PyStr.contains "-" t) && PyStr.contains ":" t
          else false)
  end.

(** The names of the eight filter parameters. *)
Definition filter_keys : list string :=
  ["start"; "end"; "min_temp"; "max_temp"; "min_sal"; "max_sal"; "min_odo"; "max_odo"].

(** A request that carries no filter parameter. *)
Definition unfiltered (args : params) : bool :=
  negb (existsb (args_has args) filter_keys).

(** Ascending timestamp order of a served page. *)
Definition served_in_order (l : list row) : Prop :=
  StronglySorted (fun a b => mongo_leb (timestamp a) (timestamp b) = true) l.

(** The item [get_stats] builds from a stored document: its three numeric
    fields. *)
Definition stats_item {RT : Runtime} (r : row) : dict :=
  API.convert_decimals_to_float (project (Some API.numeric_fields) (doc_of_row r)).

(** The value a row holds under a field name, as a float cell. *)
Definition field_cell (field : string) (r : row) : option value :=
  dict_get field (doc_of_row r).

(** A bound of a request that is absent or that its parser accepts. *)
Definition bound_accepted {A : Type} (parse : string -> option A) (args : params)
    (key : string) : Prop :=
  forall s, args_get args key = Some s -> parse s <> None.

(** One file of three readings of the same temperature, 0.1 (the binary64
    value nearest to it), and the collection built from it. *)
Definition tenth_frames : list DB.frame :=
  [DB.mk_frame DB.required_cols
     [reading 1 0x1.999999999999ap-4%float; reading 2 0x1.999999999999ap-4%float; reading 3 0x1.999999999999ap-4%float]].

Definition tenth_store : state :=
  perform (RT := reference_runtime) (Construct tenth_frames) start.

(** ** Lists and the insertion sort *)

Section Sorting.
Context {A : Type} (leb : A -> A -> bool).

Lemma insert_sorted_length (x : A) (l : list A) :
  List.length (insert_sorted leb x l) = S (List.length l).
Proof.
  induction l as [|y l IH]; simpl; [reflexivity|].
  destruct (leb x y); simpl; [reflexivity | now rewrite IH].
Qed.

Lemma sort_by_length (l : list A) : List.length (sort_by leb l) = List.length l.
Proof.
  induction l as [|x l IH]; simpl; [reflexivity|].
  unfold sort_by in *. simpl. now rewrite insert_sorted_length, IH.
Qed.

Lemma insert_sorted_Forall (P : A -> Prop) (x : A) (l : list A) :
  P x -> Forall P l -> Forall P (insert_sorted leb x l).
Proof.
  intros Hx Hl. induction Hl as [|y l Hy Hl IH]; simpl.
  - constructor; [assumption | constructor].
  - destruct (leb x y); repeat constructor; assumption.
Qed.

Lemma sort_by_Forall (P : A -> Prop) (l : list A) :
  Forall P l -> Forall P (sort_by leb l).
Proof.
  induction 1 as [|x l Hx Hl IH]; [constructor|].
  unfold sort_by in *. simpl. now apply insert_sorted_Forall.
Qed.

Hypothesis leb_total : forall a b, leb a b = true \/ leb b a = true.
Hypothesis leb_trans : forall a b c, leb a b = true -> leb b c = true -> leb a c = true.

Lemma insert_sorted_sorted (x : A) (l : list A) :
  StronglySorted (fun a b => leb a b = true) l ->
  StronglySorted (fun a b => leb a b = true) (insert_sorted leb x l).
Proof.
  induction 1 as [|y l Hs IH Hy]; simpl.
  - repeat constructor.
  - destruct (leb x y) eqn:E.
    + constructor; [now constructor|].
      constructor; [assumption|].
      eapply Forall_impl; [|exact Hy]. intros z Hz. now apply leb_trans with y.
    + constructor; [assumption|].
      apply insert_sorted_Forall; [|assumption].
      destruct (leb_total x y) as [H|H]; [congruence | assumption].
Qed.

Lemma sort_by_sorted (l : list A) :
  StronglySorted (fun a b => leb a b = true) (sort_by leb l).
Proof.
  induction l as [|x l IH]; [constructor|].
  unfold sort_by in *. simpl. now apply insert_sorted_sorted.
Qed.

End Sorting.

Lemma filter_sorted {A : Type} (R : A -> A -> Prop) (f : A -> bool) (l : list A) :
  StronglySorted R l -> StronglySorted R (filter f l).
Proof.
  induction 1 as [|x l Hs IH Hx]; simpl; [constructor|].
  destruct (f x); [|assumption].
  constructor; [assumption|].
  apply Forall_forall. intros y Hy. apply filter_In in Hy.
  rewrite Forall_forall in Hx. now apply Hx.
Qed.

Lemma filter_Forall {A : Type} (P : A -> Prop) (f : A -> bool) (l : list A) :
  Forall P l -> Forall P (filter f l).
Proof.
  intros H. apply Forall_forall. intros y Hy. apply filter_In in Hy.
  rewrite Forall_forall in H. now apply H.
Qed.

Lemma lex_leb_total (a b : list Z) : lex_leb a b = true \/ lex_leb b a = true.
Proof.
  revert b. induction a as [|x a IH]; intros [|y b]; simpl; auto.
  destruct (IH b) as [H|H]; rewrite H;
    destruct (Z.ltb_spec x y), (Z.ltb_spec y x), (Z.eqb_spec x y), (Z.eqb_spec y x);
    simpl; auto; lia.
Qed.

Lemma lex_leb_trans (a b c : list Z) :
  lex_leb a b = true -> lex_leb b c = true -> lex_leb a c = true.
Proof.
  revert b c. induction a as [|x a IH]; intros [|y b] [|z c]; simpl; auto; try discriminate.
  intros H1 H2.
  apply orb_true_iff in H1. apply orb_true_iff in H2. apply orb_true_iff.
  destruct H1 as [H1|H1], H2 as [H2|H2];
    rewrite ?andb_true_iff, ?Z.ltb_lt, ?Z.eqb_eq in *.
  - left. lia.
  - left. lia.
  - left. lia.
  - right. destruct H1 as [E1 L1], H2 as [E2 L2]. split; [lia|]. now apply IH with b.
Qed.

Lemma row_leb_total (a b : row) : DB.row_leb a b = true \/ DB.row_leb b a = true.
Proof.
  unfold DB.row_leb, DB.pandas_leb.
  destruct (timestamp a), (timestamp b); auto. apply lex_leb_total.
Qed.

Lemma row_leb_trans (a b c : row) :
  DB.row_leb a b = true -> DB.row_leb b c = true -> DB.row_leb a c = true.
Proof.
  unfold DB.row_leb, DB.pandas_leb.
  destruct (timestamp a), (timestamp b), (timestamp c); auto; try discriminate.
  apply lex_leb_trans.
Qed.

(** ** Running the monad *)

Ltac unfold_monad :=
  unfold bind, ret, raise, try_except, tell, get_state, set_docs,
    set_original_rows, set_removed_outliers, set_remaining_rows in *.

Lemma filter_all {A : Type} (f : A -> bool) (l : list A) :
  (forall x, f x = true) -> filter f l = l.
Proof.
  intros H. induction l as [|x l IH]; simpl; [reflexivity|]. now rewrite H, IH.
Qed.

Lemma matches_match_all (r : row) : matches match_all r = true.
Proof. reflexivity. Qed.

Lemma count_documents_run (q : query) (st : state) :
  count_documents q st =
    (Returned (Z.of_nat (List.length (filter (matches q) (docs st)))),
     mk_state (docs st) (original_rows st) (removed_outliers st) (remaining_rows st)
       (log st ++ [DbCount])).
Proof. reflexivity. Qed.

Lemma iterate_run (c : cursor) (st : state) :
  iterate c st =
    (Returned (map (fun r => project (c_projection c) (doc_of_row r))
                 (cursor_rows c (docs st))),
     mk_state (docs st) (original_rows st) (removed_outliers st) (remaining_rows st)
       (log st ++ [DbFind])).
Proof. reflexivity. Qed.

Lemma tells_run (e : event) {A : Type} (l : list A) (st : state) :
  fold_right (fun _ k => bind (tell e) (fun _ => k)) (ret tt) l st =
    (Returned tt,
     mk_state (docs st) (original_rows st) (removed_outliers st) (remaining_rows st)
       (log st ++ repeat e (List.length l))).
Proof.
  revert st. induction l as [|x l IH]; intros st; simpl.
  - unfold ret. rewrite app_nil_r. now destruct st.
  - unfold bind at 1. unfold tell at 1. rewrite IH. simpl.
    now rewrite <- app_assoc.
Qed.

Lemma same_data_refl (st : state) : same_data st st.
Proof. repeat split. Qed.

Lemma same_data_trans (a b c : state) :
  same_data a b -> same_data b c -> same_data a c.
Proof.
  unfold same_data. intros (H1 & H2 & H3 & H4) (K1 & K2 & K3 & K4).
  repeat split; congruence.
Qed.

Lemma read_only_ret {A : Type} (a : A) : read_only (ret a).
Proof. intros st. apply same_data_refl. Qed.

Lemma read_only_raise {A : Type} (e : string) : read_only (@raise A e).
Proof. intros st. apply same_data_refl. Qed.

Lemma read_only_tell (e : event) : read_only (tell e).
Proof. intros st. repeat split. Qed.

Lemma read_only_get_state : read_only get_state.
Proof. intros st. apply same_data_refl. Qed.

Lemma read_only_bind {A B : Type} (m : M A) (f : A -> M B) :
  read_only m -> (forall a, read_only (f a)) -> read_only (bind m f).
Proof.
  intros Hm Hf st. unfold bind. specialize (Hm st).
  destruct (m st) as [[a|e] st1]; [|exact Hm].
  eapply same_data_trans; [exact Hm | apply Hf].
Qed.

Lemma read_only_try_except {A : Type} (m : M A) (h : string -> M A) :
  read_only m -> (forall e, read_only (h e)) -> read_only (try_except m h).
Proof.
  intros Hm Hh st. unfold try_except. specialize (Hm st).
  destruct (m st) as [[a|e] st1]; [exact Hm|].
  eapply same_data_trans; [exact Hm | apply Hh].
Qed.

Lemma read_only_count_documents (q : query) : read_only (count_documents q).
Proof. intros st. repeat split. Qed.

Lemma read_only_iterate (c : cursor) : read_only (iterate c).
Proof. intros st. repeat split. Qed.

Create HintDb read_only.
#[export] Hint Resolve read_only_ret read_only_raise read_only_tell read_only_get_state
  read_only_count_documents read_only_iterate : read_only.

Ltac read_only_step :=
  match goal with
  | |- read_only (bind _ _) => apply read_only_bind; [|intros ?]
  | |- read_only (try_except _ _) => apply read_only_try_except; [|intros ?]
  | |- read_only (match ?x with _ => _ end) => destruct x
  | |- read_only _ => solve [auto with read_only]
  end.

Section DBFacts.
Context {RT : Runtime}.

Lemma load_run (all_data : list DB.frame) (st : state) :
  DB._load_and_standardize_data all_data st =
    match all_data with
    | [] => (Returned (DB.mk_frame [] []), st)
    | _ :: _ =>
        let c := DB.concat all_data in
        let st1 := mk_state (docs st) (DB.len c) (removed_outliers st)
                     (remaining_rows st) (log st) in
        if forallb (fun col => DB.has_column col (DB.columns c)) DB.required_cols
        then (Returned (DB.mk_frame (DB.columns c)
                          (sort_by DB.row_leb (filter complete_b (DB.rows c)))), st1)
        else (Raised "KeyError", st1)
    end.
Proof.
  destruct all_data as [|f fs]; [reflexivity|].
  unfold DB._load_and_standardize_data, DB.dropna. unfold_monad. cbv zeta.
  cbn [set_original_rows].
  destruct (forallb _ DB.required_cols); reflexivity.
Qed.

Lemma clean_outliers_run (df : DB.frame) (t : float) (st : state) :
  exists (keep : row -> bool) (es : list event),
    DB._clean_outliers df t st =
      if DB.empty df then (Returned df, st)
      else
        let df' := DB.mk_frame (DB.columns df) (filter keep (DB.rows df)) in
        (Returned df',
         mk_state (docs st) (original_rows st) (original_rows st - DB.len df')
           (DB.len df') (log st ++ es)).
Proof.
  unfold DB._clean_outliers.
  destruct (DB.empty df) eqn:E.
  - exists (fun _ => true), []. reflexivity.
  - set (present := filter _ DB.numeric_cols).
    destruct (map (DB.z_column df) present) as [|z zs] eqn:Z.
    + exists (fun _ => true), (repeat SeriesDiv (List.length present)).
      unfold bind at 1. rewrite tells_run.
      rewrite filter_all by reflexivity. destruct df. reflexivity.
    + exists (fun r => negb (DB.outlier_mask (z :: zs) t r)),
        (repeat SeriesDiv (List.length present)).
      unfold bind at 1. rewrite tells_run. reflexivity.
Qed.

Lemma insert_data_run (df : DB.frame) (st : state) :
  DB._insert_data df st =
    if DB.empty df then (Returned tt, st)
    else (Returned tt,
          mk_state (docs st ++ map stored (map DB.none_if_na (DB.rows df)))
            (original_rows st)
            (removed_outliers st) (remaining_rows st) (log st ++ [DbInsert])).
Proof.
  unfold DB._insert_data. destruct df as [cols rws].
  destruct rws as [|r rws]; [reflexivity|].
  destruct cols; reflexivity.
Qed.

End DBFacts.

Section Construction.
Context {RT : Runtime}.

(** Constructing a [WaterQualityDB] leaves the documents as they are, or
    fills an empty collection with rows selected from the sorted complete
    rows of the concatenation. *)
Lemma init_docs (all_data : list DB.frame) (st : state) :
  docs (snd (DB.__init__ all_data st)) = docs st
  \/ (docs st = []
      /\ exists keep : row -> bool,
           docs (snd (DB.__init__ all_data st)) =
             map stored
               (map DB.none_if_na
                  (filter keep
                     (sort_by DB.row_leb
                        (filter complete_b (DB.rows (DB.concat all_data))))))).
Proof.
  assert (Tail : forall st0,
            docs (snd ((DB._print_report ;;; DB._print_sample_data)%py st0)) = docs st0).
  { intros st0.
    assert (R : read_only (DB._print_report ;;; DB._print_sample_data)%py).
    { unfold DB._print_report, DB._print_sample_data. repeat read_only_step. }
    exact (proj1 (R st0)). }
  remember (docs (snd (DB.__init__ all_data st))) as built eqn:B. revert B.
  unfold DB.__init__. unfold bind at 1. rewrite count_documents_run.
  rewrite (filter_all _ _ matches_match_all).
  destruct (docs st) as [|d ds] eqn:D; [|intros ->; left; reflexivity].
  cbn [List.length Z.of_nat Z.eqb].
  set (st0 := mk_state _ _ _ _ _).
  unfold bind at 1. rewrite load_run.
  destruct all_data as [|f fs].
  - unfold bind at 1.
    destruct (clean_outliers_run (DB.mk_frame [] []) 3%float st0) as (keep & es & H).
    rewrite H. cbn [DB.empty DB.rows DB.columns].
    unfold bind at 1. rewrite insert_data_run. cbn [DB.empty DB.rows DB.columns].
    rewrite Tail. intros ->. left. reflexivity.
  - cbv zeta. destruct (forallb _ DB.required_cols); [|intros ->; left; reflexivity].
    set (df := DB.mk_frame _ _). set (st1 := mk_state _ _ _ _ _).
    unfold bind at 1.
    destruct (clean_outliers_run df 3%float st1) as (keep & es & H).
    rewrite H. destruct (DB.empty df) eqn:E.
    + cbv beta iota zeta. unfold bind at 1. rewrite insert_data_run, E.
      rewrite Tail. intros ->. left. reflexivity.
    + cbv beta iota zeta. unfold bind at 1. rewrite insert_data_run.
      set (df' := DB.mk_frame _ (filter keep _)).
      destruct (DB.empty df'); rewrite Tail; intros ->; [left; reflexivity|].
      right. split; [reflexivity|]. exists keep. reflexivity.
Qed.

Lemma none_if_na_complete (r : row) : complete r -> DB.none_if_na r = r.
Proof.
  unfold complete. destruct r as [ts la lo te sa od]. cbn.
  rewrite !andb_true_iff. intros (_ & H1 & H2 & H3 & H4 & H5 & _).
  unfold DB.none_if_na. cbn. now rewrite H1, H2, H3, H4, H5.
Qed.

Lemma map_none_if_na (l : list row) : Forall complete l -> map DB.none_if_na l = l.
Proof.
  induction 1 as [|r l Hr Hl IH]; simpl; [reflexivity|].
  now rewrite none_if_na_complete, IH.
Qed.

(** The cut to the millisecond keeps the order of two datetimes. *)
Lemma lex_leb_last (f : Z -> Z) (l1 l2 : list Z) (a b : Z) :
  (forall x y, x <= y -> f x <= f y) ->
  List.length l1 = List.length l2 ->
  lex_leb (l1 ++ [a]) (l2 ++ [b]) = true ->
  lex_leb (l1 ++ [f a]) (l2 ++ [f b]) = true.
Proof.
  intros Mono. revert l2. induction l1 as [|x l1 IH]; intros [|y l2] L; try discriminate L.
  - cbn. rewrite !andb_true_r, !orb_true_iff, !Z.ltb_lt, !Z.eqb_eq. intros H.
    assert (Hab : a <= b) by lia. specialize (Mono a b Hab). lia.
  - cbn [app lex_leb]. rewrite !orb_true_iff, !andb_true_iff. intros [H|[H1 H2]].
    + now left.
    + right. split; [exact H1|]. apply IH; [now injection L | exact H2].
Qed.

Lemma mongo_datetime_leb (a b : datetime) :
  dt_leb a b = true -> dt_leb (mongo_datetime a) (mongo_datetime b) = true.
Proof.
  unfold dt_leb.
  change (dt_fields (mongo_datetime a))
    with (([year a; month a; day a; hour a; minute a; second a]
           ++ [(fun us => us / 1000 * 1000) (microsecond a)])%list).
  change (dt_fields (mongo_datetime b))
    with (([year b; month b; day b; hour b; minute b; second b]
           ++ [(fun us => us / 1000 * 1000) (microsecond b)])%list).
  intros H.
  apply (lex_leb_last (fun us => us / 1000 * 1000)
           [year a; month a; day a; hour a; minute a; second a]
           [year b; month b; day b; hour b; minute b; second b]
           (microsecond a) (microsecond b)); [|reflexivity|exact H].
  intros x y L. cbv beta. apply Z.mul_le_mono_nonneg_r; [lia|].
  apply Z.div_le_mono; lia.
Qed.

Lemma stored_leb (a b : row) :
  DB.row_leb a b = true -> DB.row_leb (stored a) (stored b) = true.
Proof.
  unfold DB.row_leb, DB.pandas_leb, stored. cbn [timestamp].
  destruct (timestamp a), (timestamp b); cbn [option_map]; auto.
  apply mongo_datetime_leb.
Qed.

Lemma stored_complete (r : row) : complete r -> complete (stored r).
Proof.
  unfold complete. destruct r as [[ts|] la lo te sa od]; intros H; exact H.
Qed.

Lemma stored_rows_invariant (l : list row) :
  Forall complete l -> sorted_by_timestamp l ->
  Forall complete (map stored l) /\ sorted_by_timestamp (map stored l).
Proof.
  intros C S. split.
  - apply Forall_map. revert C. apply Forall_impl. exact stored_complete.
  - unfold sorted_by_timestamp in *. induction S as [|a l S IH H]; cbn [map].
    + constructor.
    + inversion C as [|? ? _ Cl]; subst. constructor; [now apply IH|].
      apply Forall_map. revert H. apply Forall_impl. intros b. apply stored_leb.
Qed.

Lemma built_rows_invariant (keep : row -> bool) (l : list row) :
  let built :=
    map stored
      (map DB.none_if_na (filter keep (sort_by DB.row_leb (filter complete_b l)))) in
  Forall complete built /\ sorted_by_timestamp built.
Proof.
  intros built.
  assert (C : Forall complete (filter keep (sort_by DB.row_leb (filter complete_b l)))).
  { apply filter_Forall, sort_by_Forall. apply Forall_forall. intros r Hr.
    apply filter_In in Hr. exact (proj2 Hr). }
  subst built. rewrite (map_none_if_na _ C). apply stored_rows_invariant; [exact C|].
  apply filter_sorted, sort_by_sorted; [apply row_leb_total | apply row_leb_trans].
Qed.

End Construction.

Section Handlers.
Context {RT : Runtime}.

Lemma read_only_health_check : read_only API.health_check.
Proof. unfold API.health_check. auto with read_only. Qed.

Lemma read_only_get_observations (db : option API.collection) (args : params) :
  read_only (API.get_observations db args).
Proof. unfold API.get_observations. repeat read_only_step. Qed.

Lemma read_only_get_stats (db : option API.collection) : read_only (API.get_stats db).
Proof. unfold API.get_stats. repeat read_only_step. Qed.

Lemma read_only_dropna (col : string) (df : API.frame) : read_only (API.dropna col df).
Proof. unfold API.dropna. repeat read_only_step. Qed.

Lemma read_only_method_mask (method field : string) (k : float) (df : API.frame) :
  read_only (API.method_mask method field k df).
Proof. unfold API.method_mask. cbv zeta. repeat read_only_step. Qed.

Lemma read_only_find_outliers (db : option API.collection) (args : params) :
  read_only (API.find_outliers db args).
Proof.
  unfold API.find_outliers. cbv zeta.
  repeat first [ apply read_only_dropna | apply read_only_method_mask | read_only_step ].
Qed.

(** A request leaves the documents and the counters as they are. *)
Lemma request_same_data (op : operation) (st : state) :
  is_request op = true -> same_data st (perform op st).
Proof.
  destruct op; intros H; try discriminate; cbn [perform].
  - apply read_only_health_check.
  - apply read_only_get_observations.
  - apply read_only_get_stats.
  - apply read_only_find_outliers.
Qed.

End Handlers.

(** ** The stored dataset *)

(** C2. In every state the process can reach, each stored document has its
    six fields present and non-null and the documents are in non-decreasing
    timestamp order; no request changes the stored documents, and
    constructing the database again leaves a non-empty collection as it is. *)
Theorem store_invariant {RT : Runtime} (st : state) :
  reachable st ->
  Forall complete (docs st)
  /\ sorted_by_timestamp (docs st)
  /\ (forall op, is_request op = true -> docs (perform op st) = docs st)
  /\ (forall all_data, docs st <> [] -> docs (perform (Construct all_data) st) = docs st).
Proof.
  intros R.
  assert (Inv : Forall complete (docs st) /\ sorted_by_timestamp (docs st)).
  { induction R as [|st op R [IH1 IH2]].
    - split; constructor.
    - destruct (is_request op) eqn:Q.
      + destruct (request_same_data op st Q) as (D & _). rewrite D. now split.
      + destruct op as [all_data| | | |]; try discriminate. cbn [perform].
        destruct (init_docs all_data st) as [E|(_ & keep & E)]; rewrite E.
        * now split.
        * apply built_rows_invariant. }
  destruct Inv as [I1 I2]. repeat split; try assumption.
  - intros op Q. exact (proj1 (request_same_data op st Q)).
  - intros all_data N. cbn [perform].
    destruct (init_docs all_data st) as [E|(E & _)]; [exact E | contradiction].
Qed.

Lemma store_invariant_witness :
  List.length (docs sample_store) = 5%nat
  /\ Forall complete (docs sample_store)
  /\ sorted_by_timestamp (docs sample_store)
  /\ (forall op, is_request op = true ->
        docs (perform (RT := reference_runtime) op sample_store) = docs sample_store)
  /\ (forall all_data, docs sample_store <> [] ->
        docs (perform (RT := reference_runtime) (Construct all_data) sample_store)
        = docs sample_store).
Proof.
  split; [vm_compute; reflexivity|].
  apply (store_invariant (RT := reference_runtime) sample_store).
  unfold sample_store. apply reachable_step, reachable_start.
Defined.

(** ** The cleaning report *)

Lemma filter_len_le {A : Type} (f : A -> bool) (l : list A) :
  (List.length (filter f l) <= List.length l)%nat.
Proof.
  induction l as [|x l IH]; simpl; [lia|]. destruct (f x); simpl; lia.
Qed.

(** C3, as the program behaves. When the z-score pass receives at least one
    row, "rows before" is the number of rows of the concatenation, counted
    before the rows with a missing required field are dropped; "rows
    removed" is the number of those dropped rows plus the number of rows
    the z-score threshold removes; "rows remaining" is the number of rows
    the pass returns. *)
Theorem report_counts_from_concatenation {RT : Runtime} (all_data : list DB.frame)
    (st st1 st2 : state) (df df' : DB.frame) :
  DB._load_and_standardize_data all_data st = (Returned df, st1) ->
  DB._clean_outliers df 3%float st1 = (Returned df', st2) ->
  DB.empty df = false ->
  let before_drop := DB.len (DB.concat all_data) in
  original_rows st2 = before_drop
  /\ removed_outliers st2 = (before_drop - DB.len df) + (DB.len df - DB.len df')
  /\ remaining_rows st2 = DB.len df'
  /\ 0 <= before_drop - DB.len df
  /\ 0 <= DB.len df - DB.len df'.
Proof.
  intros L C E before_drop. rewrite load_run in L.
  destruct all_data as [|f fs].
  - injection L as <- <-. discriminate.
  - subst before_drop. remember (DB.concat (f :: fs)) as c eqn:Hc. clear Hc.
    cbv zeta in L. destruct (forallb _ DB.required_cols); [|discriminate].
    apply pair_equal_spec in L. destruct L as [L1 L2].
    assert (L3 : DB.mk_frame (DB.columns c)
                   (sort_by DB.row_leb (filter complete_b (DB.rows c))) = df)
      by congruence.
    clear L1. subst df st1.
    match type of C with
    | DB._clean_outliers ?d _ ?s = _ =>
        destruct (clean_outliers_run d 3%float s) as (keep & es & H)
    end.
    rewrite H, E in C. cbv zeta in C.
    apply pair_equal_spec in C. destruct C as [C1 C2].
    assert (C3 : DB.mk_frame (DB.columns c)
                   (filter keep (sort_by DB.row_leb (filter complete_b (DB.rows c)))) = df')
      by (cbn [DB.columns DB.rows] in C1; congruence).
    clear C1. subst df' st2.
    cbn [original_rows removed_outliers remaining_rows].
    unfold DB.len. cbn [DB.rows].
    rewrite sort_by_length.
    pose proof (filter_len_le keep
                  (sort_by DB.row_leb (filter complete_b (DB.rows c)))) as K.
    rewrite sort_by_length in K.
    pose proof (filter_len_le complete_b (DB.rows c)) as K'.
    repeat split; lia.
Qed.

Lemma report_counts_from_concatenation_witness :
  exists (df : DB.frame) (st1 : state) (df' : DB.frame) (st2 : state),
    DB._load_and_standardize_data sample_frames start = (Returned df, st1)
    /\ DB._clean_outliers (RT := reference_runtime) df 3%float st1 = (Returned df', st2)
    /\ DB.empty df = false
    /\ original_rows st2 = 6
    /\ removed_outliers st2 = 1
    /\ remaining_rows st2 = 5.
Proof.
  pose proof (report_counts_from_concatenation (RT := reference_runtime)
                sample_frames start _ _ _ _ eq_refl eq_refl eq_refl) as K.
  cbv zeta in K. destruct K as (K1 & K2 & K3 & _).
  do 4 eexists.
  split; [vm_compute; reflexivity|].
  split; [vm_compute; reflexivity|].
  split; [reflexivity|].
  split; [exact K1|]. split; [exact K2 | exact K3].
Defined.

(** C3 fails as stated: of the six rows read from the sample files one lacks
    a required field and the z-score pass removes none of the other five,
    yet the report says six rows before and one removed. *)
Lemma report_counts_incomplete_rows :
  ~ report_of_zscore_pass (RT := reference_runtime) sample_frames start.
Proof.
  intros H.
  pose proof (H _ _ _ _ eq_refl eq_refl) as K.
  vm_compute in K. destruct K as (K & _). discriminate K.
Qed.

(** ** Observations: pagination *)

Lemma window_map {A B : Type} (f : A -> B) (skip_ limit_ : Z) (l : list A) :
  window skip_ limit_ (map f l) = map f (window skip_ limit_ l).
Proof.
  unfold window. destruct (limit_ =? 0).
  - now rewrite skipn_map.
  - now rewrite skipn_map, firstn_map.
Qed.

Section Pagination.
Context {RT : Runtime}.

(** What [get_observations] answers once its parameters are accepted. *)
Lemma get_observations_run (args : params) (q : query) (l s : Z) (st : state) :
  API.build_mongo_query args = inl q ->
  API.int_arg args "limit" 100 = Some l ->
  API.int_arg args "skip" 0 = Some s ->
  0 <= l -> 0 <= s ->
  API.get_observations (Some API.asv_1) args st =
    (Returned
       (API.jsonify
          [("count", VInt (Z.of_nat (List.length (filter (matches q) (docs st)))));
           ("items", VList (window s (Z.min l 1000) (served q st)))]),
     mk_state (docs st) (original_rows st) (removed_outliers st) (remaining_rows st)
       ((log st ++ [DbCount]) ++ [DbFind])).
Proof.
  intros Hq Hl Hs Pl Ps. unfold API.get_observations. rewrite Hq, Hl, Hs.
  assert (G : (Z.min l 1000 <? 0) || (s <? 0) = false).
  { apply orb_false_iff. split; apply Z.ltb_ge; lia. }
  rewrite G. unfold try_except, bind.
  rewrite count_documents_run, iterate_run. unfold ret.
  cbn [docs log original_rows removed_outliers remaining_rows].
  do 4 f_equal. unfold served, cursor_rows. cbn.
  rewrite !window_map, !map_map. reflexivity.
Qed.

(** C10. A request whose [limit] or [skip] parses as a negative integer is
    answered with status 400 and a message, and the state, log of database
    operations included, is left as it was; without the two parameters the
    page served is the first 100 matches, none skipped. *)
Theorem negative_pagination_rejected (args : params) (st : state) :
  (((exists n, API.int_arg args "limit" 100 = Some n /\ n < 0)
    \/ (exists n, API.int_arg args "skip" 0 = Some n /\ n < 0)) ->
   exists msg : string,
     API.get_observations (Some API.asv_1) args st
     = (Returned (API.error_response msg 400), st))
  /\ (forall q : query,
        args_get args "limit" = None -> args_get args "skip" = None ->
        API.build_mongo_query args = inl q ->
        response_list "items" (fst (API.get_observations (Some API.asv_1) args st))
        = Some (firstn 100 (served q st))).
Proof.
  split.
  - intros H. unfold API.get_observations.
    destruct (API.build_mongo_query args) as [q|error]; [|now exists error].
    destruct (API.int_arg args "limit" 100) as [l|] eqn:L;
      [|now exists "Limit and skip must be valid integers."].
    destruct (API.int_arg args "skip" 0) as [s|] eqn:S;
      [|now exists "Limit and skip must be valid integers."].
    assert (G : (Z.min l 1000 <? 0) || (s <? 0) = true).
    { apply orb_true_iff.
      destruct H as [(n & E & N)|(n & E & N)]; injection E as <-;
        [left | right]; apply Z.ltb_lt; lia. }
    rewrite G. now exists "Limit and skip must be non-negative.".
  - intros q L S Q.
    rewrite (get_observations_run args q 100 0 st Q); try lia.
    + reflexivity.
    + unfold API.int_arg. now rewrite L.
    + unfold API.int_arg. now rewrite S.
Qed.

End Pagination.

Lemma negative_pagination_rejected_witness :
  (exists msg : string,
     API.get_observations (RT := reference_runtime) (Some API.asv_1)
       [("limit", "-1")] sample_store
     = (Returned (API.error_response msg 400), sample_store))
  /\ response_list "items"
       (fst (API.get_observations (RT := reference_runtime) (Some API.asv_1)
               [("min_temp", "2.5")] sample_store))
     = Some (firstn 100 (served (RT := reference_runtime)
                            (mk_query None (Some (mk_range (Some 2.5%float) None)) None None)
                            sample_store)).
Proof.
  pose proof (negative_pagination_rejected (RT := reference_runtime)) as T.
  split.
  - apply (proj1 (T [("limit", "-1")] sample_store)).
    left. exists (-1). split; [reflexivity | lia].
  - apply (proj2 (T [("min_temp", "2.5")] sample_store)); reflexivity.
Defined.

Local Open Scope list_scope.

Section Pages.
Context {A : Type}.

Lemma firstn_plus (a b : nat) (l : list A) :
  firstn (a + b) l = firstn a l ++ firstn b (skipn a l).
Proof.
  revert l. induction a as [|a IH]; intros l; [reflexivity|].
  destruct l as [|x l]; simpl.
  - now rewrite firstn_nil.
  - now rewrite IH.
Qed.

(** Two consecutive pages of [n] rows, each cut at [cap], against one page
    of [2 * n] rows cut at [cap]. *)
Lemma two_pages (cap n : nat) (l : list A) :
  firstn cap (firstn (Nat.min n cap) l ++ firstn (Nat.min n cap) (skipn n l))
  = firstn (Nat.min (n + n) cap) l.
Proof.
  destruct (Nat.le_gt_cases n cap) as [Le|Gt].
  - rewrite (Nat.min_l n cap Le), <- firstn_plus, firstn_firstn.
    now rewrite Nat.min_comm.
  - rewrite (Nat.min_r n cap) by lia. rewrite (Nat.min_r (n + n) cap) by lia.
    rewrite firstn_app, firstn_firstn, Nat.min_id, length_firstn.
    destruct (Nat.le_gt_cases cap (List.length l)) as [Long|Short].
    + rewrite (Nat.min_l _ _ Long), Nat.sub_diag. cbn [firstn]. apply app_nil_r.
    + rewrite (skipn_all2 (n := n) l) by lia. rewrite !firstn_nil. apply app_nil_r.
Qed.

Lemma window_first (limit_ : Z) (l : list A) :
  0 < limit_ -> window 0 limit_ l = firstn (Z.to_nat limit_) l.
Proof.
  intros P. unfold window. destruct (Z.eqb_spec limit_ 0) as [E|_]; [lia|].
  rewrite Z.abs_eq by lia. reflexivity.
Qed.

Lemma window_next (skip_ limit_ : Z) (l : list A) :
  0 < limit_ -> window skip_ limit_ l = firstn (Z.to_nat limit_) (skipn (Z.to_nat skip_) l).
Proof.
  intros P. unfold window. destruct (Z.eqb_spec limit_ 0) as [E|_]; [lia|].
  rewrite Z.abs_eq by lia. reflexivity.
Qed.

Lemma window_pages (L : Z) (l : list A) :
  0 < L ->
  firstn 1000 (window 0 (Z.min L 1000) l ++ window L (Z.min L 1000) l)
  = window 0 (Z.min (2 * L) 1000) l
  /\ (2 * L <= 1000 ->
      window 0 (Z.min L 1000) l ++ window L (Z.min L 1000) l
      = window 0 (Z.min (2 * L) 1000) l).
Proof.
  intros P.
  rewrite !window_first, window_next by lia.
  assert (E1 : Z.to_nat (Z.min L 1000) = Nat.min (Z.to_nat L) 1000) by lia.
  assert (E2 : Z.to_nat (Z.min (2 * L) 1000) = Nat.min (Z.to_nat L + Z.to_nat L) 1000) by lia.
  rewrite E1, E2. split.
  - apply two_pages.
  - intros Small.
    rewrite (Nat.min_l (Z.to_nat L) 1000) by lia.
    rewrite (Nat.min_l (Z.to_nat L + Z.to_nat L) 1000) by lia.
    symmetry. apply firstn_plus.
Qed.

Lemma window_full_length (c : Z) (l : list A) :
  c = Z.of_nat (List.length l) ->
  Z.of_nat (List.length (window 0 (Z.min c 1000) l)) = Z.min c 1000.
Proof.
  intros ->. unfold window. cbn [Z.to_nat skipn].
  destruct (Z.eqb_spec (Z.min (Z.of_nat (List.length l)) 1000) 0) as [E|N].
  - lia.
  - rewrite length_firstn. lia.
Qed.

End Pages.

Section Observations.
Context {RT : Runtime}.

Lemma served_length (q : query) (st : state) :
  List.length (served q st) = List.length (filter (matches q) (docs st)).
Proof. unfold served. now rewrite length_map, sort_by_length. Qed.

(** A response that carries a count comes from an accepted request. *)
Lemma count_response (args : params) (st : state) (c : Z) :
  response_count (fst (API.get_observations (Some API.asv_1) args st)) = Some c ->
  exists q : query,
    API.build_mongo_query args = inl q
    /\ c = Z.of_nat (List.length (served q st)).
Proof.
  unfold API.get_observations.
  destruct (API.build_mongo_query args) as [q|error]; [|discriminate].
  destruct (API.int_arg args "limit" 100) as [l|]; [|discriminate].
  destruct (API.int_arg args "skip" 0) as [s|]; [|discriminate].
  destruct ((Z.min l 1000 <? 0) || (s <? 0)); [discriminate|].
  unfold try_except, bind. rewrite count_documents_run, iterate_run. unfold ret.
  cbn. intros E. injection E as <-. exists q. now rewrite served_length.
Qed.

End Observations.

(** C4, as the program behaves. The page requested with no row skipped and
    the count of the filter as limit has as many rows as the count when the
    count is at most 1000, and 1000 rows when it is more. *)
Theorem full_page_length {RT : Runtime} (st : state) (args page_args : params) (c : Z) :
  API.build_mongo_query page_args = API.build_mongo_query args ->
  response_count (fst (API.get_observations (Some API.asv_1) args st)) = Some c ->
  API.int_arg page_args "limit" 100 = Some c ->
  API.int_arg page_args "skip" 0 = Some 0 ->
  exists items : list value,
    response_list "items" (fst (API.get_observations (Some API.asv_1) page_args st))
    = Some items
    /\ Z.of_nat (List.length items) = Z.min c 1000.
Proof.
  intros Q C L S.
  destruct (count_response args st c C) as (q & Hq & Hc).
  rewrite Hq in Q.
  rewrite (get_observations_run page_args q c 0 st Q L S) by lia.
  eexists. split; [reflexivity|].
  now apply window_full_length.
Qed.

Lemma full_page_length_witness :
  exists items : list value,
    response_list "items"
      (fst (API.get_observations (RT := reference_runtime) (Some API.asv_1)
              [("max_temp", "3.5"); ("limit", "3"); ("skip", "0")] sample_store))
    = Some items
    /\ Z.of_nat (List.length items) = Z.min 3 1000.
Proof.
  apply (full_page_length (RT := reference_runtime) sample_store [("max_temp", "3.5")]);
    vm_compute; reflexivity.
Defined.

(** C4 fails as stated: over 1001 stored documents and the empty filter the
    count is 1001 and the page requested with limit 1001 has 1000 rows. *)
Lemma full_page_capped :
  ~ count_equals_full_page (RT := reference_runtime) large_store
      [] [("limit", "1001"); ("skip", "0")].
Proof.
  intros H.
  assert (Docs : docs large_store = repeat (reading 1 20) 1001)
    by (vm_compute; reflexivity).
  assert (C : response_count
                (fst (API.get_observations (RT := reference_runtime) (Some API.asv_1)
                        [] large_store)) = Some 1001).
  { rewrite (get_observations_run (RT := reference_runtime) [] match_all 100 0 large_store);
      [|reflexivity|reflexivity|reflexivity|lia|lia].
    cbn [fst response_count API.body API.jsonify dict_get String.eqb].
    rewrite (filter_all _ _ matches_match_all), Docs.
    now rewrite repeat_length. }
  set (page := window 0 (Z.min 1001 1000)
                 (served (RT := reference_runtime) match_all large_store)).
  assert (P : response_list "items"
                (fst (API.get_observations (RT := reference_runtime) (Some API.asv_1)
                        [("limit", "1001"); ("skip", "0")] large_store)) = Some page).
  { rewrite (get_observations_run (RT := reference_runtime)
               [("limit", "1001"); ("skip", "0")] match_all 1001 0 large_store);
      [reflexivity|reflexivity|reflexivity|reflexivity|lia|lia]. }
  specialize (H 1001 page eq_refl C eq_refl eq_refl P).
  assert (N : Z.of_nat (List.length page) = Z.min 1001 1000).
  { apply window_full_length. rewrite served_length.
    rewrite (filter_all _ _ matches_match_all), Docs.
    now rewrite repeat_length. }
  rewrite N in H. discriminate H.
Qed.

(** C5. For a page size [L > 0], the page at skip 0 followed by the page at
    skip [L] agrees, once cut to 1000 rows, with the page requested with
    limit [2 L], row for row in the same order; when [2 L] is at most 1000
    nothing is cut. *)
Theorem pages_concatenate {RT : Runtime} (st : state) (q : query) (L : Z)
    (first_args second_args double_args : params) :
  0 < L ->
  API.build_mongo_query first_args = inl q ->
  API.build_mongo_query second_args = inl q ->
  API.build_mongo_query double_args = inl q ->
  API.int_arg first_args "limit" 100 = Some L ->
  API.int_arg first_args "skip" 0 = Some 0 ->
  API.int_arg second_args "limit" 100 = Some L ->
  API.int_arg second_args "skip" 0 = Some L ->
  API.int_arg double_args "limit" 100 = Some (2 * L) ->
  API.int_arg double_args "skip" 0 = Some 0 ->
  exists a b c : list value,
    response_list "items" (fst (API.get_observations (Some API.asv_1) first_args st)) = Some a
    /\ response_list "items" (fst (API.get_observations (Some API.asv_1) second_args st)) = Some b
    /\ response_list "items" (fst (API.get_observations (Some API.asv_1) double_args st)) = Some c
    /\ firstn 1000 (a ++ b) = c
    /\ (2 * L <= 1000 -> a ++ b = c).
Proof.
  intros P Q1 Q2 Q3 L1 S1 L2 S2 L3 S3.
  rewrite (get_observations_run first_args q L 0 st Q1 L1 S1) by lia.
  rewrite (get_observations_run second_args q L L st Q2 L2 S2) by lia.
  rewrite (get_observations_run double_args q (2 * L) 0 st Q3 L3 S3) by lia.
  do 3 eexists. repeat (split; [reflexivity|]).
  apply window_pages. exact P.
Qed.

Lemma pages_concatenate_witness :
  exists a b c : list value,
    response_list "items"
      (fst (API.get_observations (RT := reference_runtime) (Some API.asv_1)
              [("limit", "2")] sample_store)) = Some a
    /\ response_list "items"
         (fst (API.get_observations (RT := reference_runtime) (Some API.asv_1)
                 [("limit", "2"); ("skip", "2")] sample_store)) = Some b
    /\ response_list "items"
         (fst (API.get_observations (RT := reference_runtime) (Some API.asv_1)
                 [("limit", "4")] sample_store)) = Some c
    /\ firstn 1000 (a ++ b) = c
    /\ (2 * 2 <= 1000 -> a ++ b = c).
Proof.
  apply (pages_concatenate (RT := reference_runtime) sample_store match_all 2);
    first [lia | reflexivity].
Defined.

(** ** Outliers *)

Section Outliers.
Context {RT : Runtime}.

Lemma numeric_field_cases (field : string) :
  mem_string field API.numeric_fields = true ->
  field = "temperature" \/ field = "salinity" \/ field = "odo".
Proof.
  unfold API.numeric_fields. cbn [mem_string]. rewrite !orb_true_iff.
  intros [H|[H|[H|H]]]; try discriminate; apply String.eqb_eq in H; auto.
Qed.

Lemma outlier_item_keys (field : string) (r : row) :
  mem_string field API.numeric_fields = true ->
  keys (outlier_item field r) = ["timestamp"; "latitude"; "longitude"; field].
Proof.
  intros H. destruct (numeric_field_cases field H) as [-> | [-> | ->]];
    destruct r as [[ts|] [la|] [lo|] [te|] [sa|] [od|]]; reflexivity.
Qed.

Lemma outlier_item_get (field : string) (r : row) :
  mem_string field API.numeric_fields = true ->
  dict_get field (outlier_item field r) = dict_get field (doc_of_row r).
Proof.
  intros H. destruct (numeric_field_cases field H) as [-> | [-> | ->]];
    destruct r as [[ts|] [la|] [lo|] [te|] [sa|] [od|]]; reflexivity.
Qed.

Lemma fetch_run (field : string) (st : state) :
  iterate (find match_all (API.outlier_projection field)) st =
    (Returned (map (fun r => project (API.outlier_projection field) (doc_of_row r)) (docs st)),
     mk_state (docs st) (original_rows st) (removed_outliers st) (remaining_rows st)
       (log st ++ [DbFind])).
Proof.
  rewrite iterate_run. unfold cursor_rows, find, window. cbn.
  now rewrite (filter_all _ _ matches_match_all).
Qed.

Lemma has_column_items (field : string) (l : list row) :
  mem_string field API.numeric_fields = true ->
  API.has_column field (map (outlier_item field) l)
  = match l with [] => false | _ :: _ => true end.
Proof.
  intros H. destruct l as [|r l]; [reflexivity|].
  unfold API.has_column. cbn [map existsb].
  rewrite (outlier_item_keys field r H).
  cbn [mem_string]. rewrite String.eqb_refl, !orb_true_r. reflexivity.
Qed.

Lemma notna_items (field : string) (l : list row) :
  mem_string field API.numeric_fields = true ->
  API.floats field
    (filter (fun d => API.notna (dict_get field d)) (map (outlier_item field) l))
  = API.floats field
      (filter (fun d => API.notna (dict_get field d)) (map doc_of_row l)).
Proof.
  intros H. unfold API.floats. induction l as [|r l IH]; [reflexivity|].
  cbn [map filter]. rewrite (outlier_item_get field r H).
  destruct (API.notna (dict_get field (doc_of_row r))); [|exact IH].
  cbn [map]. now rewrite (outlier_item_get field r H), IH.
Qed.

(** [find_outliers] up to the choice of the mask, for an accepted field and
    factor. *)
Lemma find_outliers_run (args : params) (field : string) (k : float) (st : state) :
  args_get args "field" = Some field ->
  mem_string field API.numeric_fields = true ->
  let method := match args_get args "method" with Some m => m | None => "iqr" end in
  API.factor_arg args method = Some k ->
  let st' := mk_state (docs st) (original_rows st) (removed_outliers st)
               (remaining_rows st) (log st ++ [DbFind]) in
  API.find_outliers (Some API.asv_1) args st =
    match docs st with
    | [] => (Raised "KeyError", st')
    | _ :: _ =>
        match filter (fun d => API.notna (dict_get field d))
                (map (outlier_item field) (docs st)) with
        | [] => (Returned (API.jsonify [("outliers", VList [])]), st')
        | d :: df =>
            match API.method_mask method field k (d :: df) st' with
            | (Returned (inl outlier_mask), st'') =>
                (Returned
                   (API.jsonify
                      [("outliers", VList (map VDict (filter outlier_mask (d :: df))));
                       ("count",
                        VInt (Z.of_nat (List.length (filter outlier_mask (d :: df)))))]),
                 st'')
            | (Returned (inr rejected), st'') => (Returned rejected, st'')
            | (Raised e, st'') => (Raised e, st'')
            end
        end
    end.
Proof.
  intros F N method K st'. unfold API.find_outliers.
  fold method. rewrite K, F, N. cbn [negb].
  unfold bind at 1. unfold try_except, bind at 1. rewrite fetch_run. fold st'.
  unfold ret at 1. cbv beta iota. rewrite map_map.
  change (map (fun r => API.convert_decimals_to_float
                          (project (API.outlier_projection field) (doc_of_row r)))
            (docs st)) with (map (outlier_item field) (docs st)).
  unfold bind at 1. unfold API.dropna. rewrite (has_column_items field (docs st) N).
  destruct (docs st) as [|r rs] eqn:D; [reflexivity|].
  unfold ret at 1. cbv beta iota.
  destruct (filter _ (map (outlier_item field) (r :: rs))) as [|d df]; [reflexivity|].
  unfold bind. destruct (API.method_mask method field k (d :: df) st') as [[[m|rej]|e] st''];
    reflexivity.
Qed.

End Outliers.

Lemma filter_none {A : Type} (l : list A) : filter (fun _ => false) l = [].
Proof. induction l as [|x l IH]; [reflexivity | exact IH]. Qed.

(** The guard of the z-score method. When the standard deviation computed
    for the non-null values of the field is equal to zero, the request
    flags no row, whatever factor it carries: the answer is an empty list
    with count 0, and the only operation logged is the read of the
    collection, so the division by the standard deviation did not take
    place. *)
Theorem zscore_constant_field {RT : Runtime} (args : params) (field : string)
    (st : state) :
  args_get args "field" = Some field ->
  mem_string field API.numeric_fields = true ->
  args_get args "method" = Some "zscore" ->
  (forall s, args_get args "k" = Some s -> py_float s <> None) ->
  field_values field st <> [] ->
  PrimFloat.eqb (series_std (field_values field st)) 0 = true ->
  API.find_outliers (Some API.asv_1) args st =
    (Returned (API.jsonify [("outliers", VList []); ("count", VInt 0)]),
     mk_state (docs st) (original_rows st) (removed_outliers st) (remaining_rows st)
       (log st ++ [DbFind])).
Proof.
  intros F N M K V Z.
  assert (Kf : exists k, API.factor_arg args "zscore" = Some k).
  { unfold API.factor_arg. destruct (args_get args "k") as [s|] eqn:E.
    - destruct (py_float s) as [k|] eqn:P; [now exists k|].
      now destruct (K s eq_refl).
    - eexists. reflexivity. }
  destruct Kf as [k Kf].
  pose proof (find_outliers_run args field k st F N) as R.
  rewrite M in R. cbv zeta in R. rewrite (R Kf). clear R.
  pose proof (notna_items field (docs st) N) as E. fold (field_values field st) in E.
  destruct (docs st) as [|r rs] eqn:D.
  { unfold field_values in V. rewrite D in V. now destruct V. }
  destruct (filter _ (map (outlier_item field) (r :: rs))) as [|d df] eqn:Df.
  { rewrite <- E in V. now destruct V. }
  unfold API.method_mask. cbn [String.eqb Ascii.eqb Bool.eqb].
  rewrite E, Z. cbn [negb]. unfold ret.
  now rewrite filter_none.
Qed.

Lemma zscore_constant_field_witness :
  API.find_outliers (RT := reference_runtime) (Some API.asv_1)
    [("field", "temperature"); ("method", "zscore"); ("k", "0.5")] constant_store =
    (Returned (API.jsonify [("outliers", VList []); ("count", VInt 0)]),
     mk_state (docs constant_store) (original_rows constant_store)
       (removed_outliers constant_store) (remaining_rows constant_store)
       (log constant_store ++ [DbFind])).
Proof.
  apply (zscore_constant_field (RT := reference_runtime)
           [("field", "temperature"); ("method", "zscore"); ("k", "0.5")] "temperature");
    try reflexivity.
  - intros s E. injection E as <-. discriminate.
  - discriminate.
Defined.

Lemma method_mask_cases {RT : Runtime} (method field : string) (k : float)
    (df : API.frame) (st : state) :
  (exists (mask : dict -> bool) (st' : state),
     API.method_mask method field k df st = (Returned (inl mask), st'))
  \/ API.method_mask method field k df st
     = (Returned (inr (API.error_response
                         "Invalid outlier method. Use 'iqr' or 'zscore'." 400)), st).
Proof.
  unfold API.method_mask. destruct (String.eqb method "zscore").
  - left. destruct (negb _); do 2 eexists; reflexivity.
  - destruct (String.eqb method "iqr"); [left; do 2 eexists; reflexivity|].
    right. reflexivity.
Qed.

(** C1, as the program behaves. Each flagged row of an outliers response is
    the projection of one stored document on four fields: the timestamp,
    the latitude, the longitude and the field the request names. *)
Theorem flagged_rows_projected {RT : Runtime} (args : params) (field : string)
    (st : state) (d : dict) :
  args_get args "field" = Some field ->
  In (VDict d) (flagged (fst (API.find_outliers (Some API.asv_1) args st))) ->
  keys d = ["timestamp"; "latitude"; "longitude"; field]
  /\ exists r : row, In r (docs st) /\ d = outlier_item field r.
Proof.
  intros F.
  set (method := match args_get args "method" with Some m => m | None => "iqr" end).
  destruct (API.factor_arg args method) as [k|] eqn:K.
  2: { unfold API.find_outliers. fold method. rewrite K. intros []. }
  destruct (mem_string field API.numeric_fields) eqn:N.
  2: { unfold API.find_outliers. fold method. rewrite K, F, N. intros []. }
  rewrite (find_outliers_run args field k st F N K).
  destruct (docs st) as [|r rs] eqn:D; [intros []|].
  rewrite <- D.
  destruct (filter _ (map (outlier_item field) (docs st))) as [|x df] eqn:Df; [intros []|].
  match goal with
  | |- context [API.method_mask ?m ?f ?kf ?fr ?s] =>
      destruct (method_mask_cases m f kf fr s) as [(mask & st'' & Mk)|Mk]; rewrite Mk
  end.
  - cbn [fst flagged response_list API.body API.jsonify dict_get String.eqb
           Ascii.eqb Bool.eqb].
    intros I. apply in_map_iff in I. destruct I as (v & Ev & Iv).
    injection Ev as ->. apply filter_In in Iv. destruct Iv as [Iv _].
    rewrite <- Df in Iv. apply filter_In in Iv. destruct Iv as [Iv _].
    apply in_map_iff in Iv. destruct Iv as (r0 & <- & Ir).
    split; [now apply outlier_item_keys | now exists r0].
  - intros [].
Qed.

Lemma flagged_rows_projected_witness :
  exists d : dict,
    In (VDict d)
      (flagged (fst (API.find_outliers (RT := reference_runtime) (Some API.asv_1)
                       [("field", "temperature")] sample_store)))
    /\ keys d = ["timestamp"; "latitude"; "longitude"; "temperature"]
    /\ exists r : row,
         In r (docs sample_store) /\ d = outlier_item (RT := reference_runtime) "temperature" r.
Proof.
  eexists. split; [vm_compute; left; reflexivity|].
  apply (flagged_rows_projected (RT := reference_runtime)
           [("field", "temperature")] "temperature" sample_store);
    [reflexivity | vm_compute; left; reflexivity].
Defined.

(** C1 fails as stated: the row the IQR rule flags in the sample collection
    has no salinity. *)
Lemma flagged_row_lacks_salinity :
  ~ carries_all_fields
      (fst (API.find_outliers (RT := reference_runtime) (Some API.asv_1)
              [("field", "temperature")] sample_store)).
Proof.
  intros H.
  assert (E : exists d : dict,
            In (VDict d)
              (flagged (fst (API.find_outliers (RT := reference_runtime) (Some API.asv_1)
                               [("field", "temperature")] sample_store)))
            /\ dict_get "salinity" d = None).
  { eexists. split; [vm_compute; left; reflexivity | reflexivity]. }
  destruct E as (d & I & S).
  apply (H d I "salinity"); [|exact S].
  clear. unfold observation_fields. do 4 right. left. reflexivity.
Qed.

(** C6, at inputs where the program departs from it. With a method that is
    neither [iqr] nor [zscore]: over a collection whose only document has a
    null temperature the answer is a success with an empty list; over the
    empty collection left by a start-up that found no file the handler
    raises [KeyError]; over the sample
    collection the answer is the 400 rejection, given after the collection
    was read. *)
Theorem invalid_method_not_rejected :
  let args := [("field", "temperature"); ("method", "median")] in
  let run := API.find_outliers (RT := reference_runtime) (Some API.asv_1) args in
  (fst (run null_store) = Returned (API.jsonify [("outliers", VList [])])
   /\ log (snd (run null_store)) = [DbFind])
  /\ (docs empty_store = [] /\ fst (run empty_store) = Raised "KeyError")
  /\ (fst (run sample_store)
      = Returned (API.error_response "Invalid outlier method. Use 'iqr' or 'zscore'." 400)
      /\ log (snd (run sample_store)) = log sample_store ++ [DbFind]).
Proof. vm_compute. repeat split. Qed.

(** The early return of [find_outliers]. Over a collection whose only
    document has a null temperature, one the builder never stores, a valid
    request is answered with a success whose body has the key ["outliers"]
    and no key ["count"]. *)
Theorem empty_answer_without_count :
  let answer :=
    fst (API.find_outliers (RT := reference_runtime) (Some API.asv_1)
           [("field", "temperature"); ("method", "zscore")] null_store) in
  answer = Returned (API.mk_response [("outliers", VList [])] 200)
  /\ response_list "outliers" answer = Some []
  /\ response_count answer = None.
Proof. vm_compute. repeat split. Qed.

(** ** Timestamp bounds *)

Section Strings.
Local Open Scope string_scope.

Lemma contains_app (c : ascii) (a b : string) :
  PyStr.contains c (a ++ b) = PyStr.contains c a || PyStr.contains c b.
Proof.
  induction a as [|d a IH]; [reflexivity|]. cbn. now rewrite IH, orb_assoc.
Qed.

Lemma digits_lack (c : ascii) (s : string) :
  PyStr.is_digit c = false -> PyStr.all_digits s = true -> PyStr.contains c s = false.
Proof.
  intros N. induction s as [|d s IH]; [reflexivity|]. cbn.
  intros H. apply andb_true_iff in H. destruct H as [Hd Hs].
  rewrite (IH Hs), orb_false_r.
  destruct (Ascii.eqb_spec c d) as [->|_]; [congruence | reflexivity].
Qed.

Lemma rfind_absent (c : ascii) (s : string) :
  PyStr.contains c s = false -> PyStr.rfind c s = -1.
Proof.
  induction s as [|d s IH]; [reflexivity|]. cbn. intros H.
  apply orb_false_iff in H. destruct H as [Hd Hs].
  now rewrite (IH Hs), Hd.
Qed.

Lemma rfind_last (c : ascii) (a b : string) :
  PyStr.contains c b = false ->
  PyStr.rfind c (a ++ String c b) = PyStr.len a.
Proof.
  intros H. induction a as [|d a IH].
  - cbn. now rewrite (rfind_absent c b H), Ascii.eqb_refl.
  - cbn [append PyStr.rfind]. rewrite IH. unfold PyStr.len. cbn [String.length].
    destruct (Z.leb_spec 0 (Z.of_nat (String.length a))); lia.
Qed.

Lemma find_first (c : ascii) (a b : string) :
  PyStr.contains c a = false ->
  PyStr.find c (a ++ String c b) = PyStr.len a.
Proof.
  induction a as [|d a IH]; intros H.
  - cbn. now rewrite Ascii.eqb_refl.
  - cbn in H. apply orb_false_iff in H. destruct H as [Hd Ha].
    cbn [append PyStr.find]. rewrite Hd, (IH Ha). unfold PyStr.len. cbn [String.length].
    destruct (Z.ltb_spec (Z.of_nat (String.length a)) 0); lia.
Qed.

Lemma take_app (a b : string) : PyStr.take (String.length a) (a ++ b) = a.
Proof. induction a as [|d a IH]; cbn; [now destruct b | now rewrite IH]. Qed.

Lemma drop_app (a b : string) : PyStr.drop (String.length a) (a ++ b) = b.
Proof. induction a as [|d a IH]; cbn; [now destruct b | exact IH]. Qed.

Lemma string_length_app (a b : string) :
  String.length (a ++ b) = (String.length a + String.length b)%nat.
Proof. induction a as [|d a IH]; cbn; [reflexivity | now rewrite IH]. Qed.

Lemma slice_index_inside (a b : string) :
  PyStr.slice_index (PyStr.len a) (a ++ b) = String.length a.
Proof.
  unfold PyStr.slice_index, PyStr.len. rewrite string_length_app.
  destruct (Z.ltb_spec (Z.of_nat (String.length a)) 0); lia.
Qed.

Lemma slice_to_app (a b : string) : PyStr.slice_to (PyStr.len a) (a ++ b) = a.
Proof. unfold PyStr.slice_to. rewrite slice_index_inside. apply take_app. Qed.

Lemma slice_from_app (a b : string) : PyStr.slice_from (PyStr.len a) (a ++ b) = b.
Proof. unfold PyStr.slice_from. rewrite slice_index_inside. apply drop_app. Qed.

Lemma slice_from_next (a b : string) (c : ascii) :
  PyStr.slice_from (PyStr.len a + 1) (a ++ String c b) = b.
Proof.
  replace (a ++ String c b) with ((a ++ String c "") ++ b).
  - replace (PyStr.len a + 1) with (PyStr.len (a ++ String c "")).
    + apply slice_from_app.
    + unfold PyStr.len. rewrite string_length_app. cbn. lia.
  - induction a as [|d a IH]; cbn; [reflexivity | now rewrite IH].
Qed.

Lemma rsplit1_last (c : ascii) (a b : string) :
  PyStr.contains c b = false -> PyStr.rsplit1 c (a ++ String c b) = (a, b).
Proof.
  intros H. unfold PyStr.rsplit1. rewrite (rfind_last c a b H).
  now rewrite slice_to_app, slice_from_next.
Qed.

Lemma remove_last (c : ascii) (s : string) :
  PyStr.contains c s = false -> PyStr.remove c (s ++ String c "") = s.
Proof.
  induction s as [|d s IH]; cbn.
  - now rewrite Ascii.eqb_refl.
  - intros H. apply orb_false_iff in H. destruct H as [Hd Hs]. now rewrite Hd, (IH Hs).
Qed.

Lemma append_empty (s : string) : s ++ "" = s.
Proof. induction s as [|d s IH]; cbn; [reflexivity | now rewrite IH]. Qed.

Lemma zfill_full (s : string) :
  PyStr.all_digits s = true -> (6 <= String.length s)%nat ->
  PyStr.zfill 6 (PyStr.slice_to 6 s) = PyStr.take 6 s
  /\ String.length (PyStr.take 6 s) = 6%nat.
Proof.
  intros D L. unfold PyStr.slice_to, PyStr.slice_index, PyStr.len.
  replace (Z.to_nat _) with 6%nat
    by (destruct (Z.ltb_spec 6 0); lia).
  do 6 (destruct s as [|? s]; [cbn in L; lia|]).
  cbn in D. rewrite !andb_true_iff in D. destruct D as (D & _).
  split; [|reflexivity].
  unfold PyStr.zfill. cbn [PyStr.take String.length Nat.sub PyStr.zeros append].
  destruct (Ascii.eqb_spec a "+") as [->|_]; [discriminate D|].
  destruct (Ascii.eqb_spec a "-") as [->|_]; [discriminate D|]. reflexivity.
Qed.

(** The cleaned text of a bound made of a prefix, a dot, a run of digits and
    a time-zone suffix. *)
Lemma clean_iso_string_fraction {RT : Runtime} (base frac tz : string) :
  PyStr.all_digits frac = true -> tz_marker tz = true ->
  API.clean_iso_string (base ++ "." ++ frac ++ tz)
  = base ++ "." ++ PyStr.zfill 6 (PyStr.slice_to 6 frac) ++ tz.
Proof.
  intros D T. unfold API.clean_iso_string.
  assert (Dot : PyStr.contains "." (frac ++ tz) = false).
  { rewrite contains_app, (digits_lack "." frac eq_refl D).
    destruct tz as [|c t]; [reflexivity|].
    unfold tz_marker in T. apply andb_true_iff in T. destruct T as [T1 T2].
    apply negb_true_iff in T1.
    change (PyStr.contains "." (String c t))
      with (Ascii.eqb "." c || PyStr.contains "." t).
    rewrite T1, orb_false_r.
    destruct (Ascii.eqb_spec "." c) as [<-|_]; [vm_compute in T2; discriminate T2|].
    reflexivity. }
  change (base ++ "." ++ frac ++ tz) with (base ++ String "." (frac ++ tz)).
  rewrite (rsplit1_last "." base (frac ++ tz) Dot).
  pose proof (digits_lack "Z" frac eq_refl D) as NZ.
  pose proof (digits_lack "+" frac eq_refl D) as NP.
  pose proof (digits_lack "-" frac eq_refl D) as NM.
  destruct tz as [|c t].
  - rewrite append_empty, NZ, NP, NM. reflexivity.
  - unfold tz_marker in T. apply andb_true_iff in T. destruct T as [_ T].
    rewrite !contains_app, NZ, NP, NM. cbn [orb].
    revert T. destruct (Ascii.eqb_spec c "Z") as [->|_]; intros T.
    + apply String.eqb_eq in T. subst t.
      change (PyStr.contains "Z" "Z") with true. cbv beta iota.
      now rewrite (remove_last "Z" frac NZ).
    + revert T. destruct (Ascii.eqb_spec c "+") as [->|_]; intros T.
      * apply negb_true_iff in T.
        change (PyStr.contains "Z" (String "+" t)) with (PyStr.contains "Z" t).
        change (PyStr.contains "+" (String "+" t)) with true.
        rewrite T. cbv beta iota zeta.
        now rewrite (find_first "+" frac t NP), slice_from_app, slice_to_app.
      * revert T. destruct (Ascii.eqb_spec c "-") as [->|_]; intros T; [|discriminate T].
        rewrite !andb_true_iff, !negb_true_iff in T.
        destruct T as (((TZ & TP) & TM) & TC).
        change (PyStr.contains "Z" (String "-" t)) with (PyStr.contains "Z" t).
        change (PyStr.contains "+" (String "-" t)) with (PyStr.contains "+" t).
        change (PyStr.contains "-" (String "-" t)) with true.
        change (PyStr.contains ":" (String "-" t)) with (PyStr.contains ":" t).
        rewrite TZ, TP, TC, orb_true_r. cbv beta iota zeta.
        change (true && true) with true. cbv beta iota.
        now rewrite (rfind_last "-" frac t TM), slice_from_app, slice_to_app.
Qed.

End Strings.

(** A bound made of a prefix, a dot, a run of digits and a time-zone
    suffix is read as the library reads it or, when the library rejects it,
    as the library reads the same text with the digits cut to the first six
    and filled with zeros on the left up to six, the suffix kept for that
    parse, so that the bound is accepted whenever the library accepts the
    cleaned text; whatever is returned has no time zone; more than six
    digits are cut to exactly six with no zero added. *)
Theorem fraction_truncated {RT : Runtime} (base frac tz : string) :
  PyStr.all_digits frac = true ->
  tz_marker tz = true ->
  let bound := (base ++ "." ++ frac ++ tz)%string in
  let cleaned := (base ++ "." ++ PyStr.zfill 6 (PyStr.slice_to 6 frac) ++ tz)%string in
  API.safe_iso_to_datetime bound
  = match fromisoformat bound with
    | Some dt => Some (API.naive dt)
    | None => option_map API.naive (fromisoformat cleaned)
    end
  /\ (fromisoformat cleaned <> None -> API.safe_iso_to_datetime bound <> None)
  /\ (forall dt, API.safe_iso_to_datetime bound = Some dt -> tzinfo dt = None)
  /\ ((6 < String.length frac)%nat ->
      PyStr.zfill 6 (PyStr.slice_to 6 frac) = PyStr.take 6 frac
      /\ String.length (PyStr.take 6 frac) = 6%nat).
Proof.
  intros D T bound cleaned.
  assert (E : API.safe_iso_to_datetime bound
              = match fromisoformat bound with
                | Some dt => Some (API.naive dt)
                | None => option_map API.naive (fromisoformat cleaned)
                end).
  { unfold API.safe_iso_to_datetime.
    destruct (fromisoformat bound) as [dt|] eqn:F; [reflexivity|].
    assert (C : PyStr.contains "." bound = true).
    { subst bound. rewrite contains_app. cbn. apply orb_true_r. }
    rewrite C. subst bound cleaned. rewrite (clean_iso_string_fraction base frac tz D T).
    destruct (fromisoformat _); reflexivity. }
  split; [exact E|]. split; [|split].
  - intros A. rewrite E. destruct (fromisoformat bound); [discriminate|].
    destruct (fromisoformat cleaned); [discriminate | contradiction].
  - intros dt. rewrite E.
    destruct (fromisoformat bound) as [d|].
    + intros H. injection H as <-. reflexivity.
    + destruct (fromisoformat cleaned) as [d|]; [|discriminate].
      intros H. injection H as <-. reflexivity.
  - intros L. apply zfill_full; [exact D | lia].
Qed.

Lemma fraction_truncated_witness :
  API.safe_iso_to_datetime (RT := reference_runtime) "2022-01-01T00:00:00.1234567"
  = Some (mk_datetime 2022 1 1 0 0 0 123456 None)
  /\ API.safe_iso_to_datetime (RT := reference_runtime) "2022-01-01T00:00:00.1234567+05:30"
     = Some (mk_datetime 2022 1 1 0 0 0 123456 None).
Proof.
  split.
  - destruct (fraction_truncated (RT := reference_runtime)
                "2022-01-01T00:00:00" "1234567" "" eq_refl eq_refl) as (E & _).
    cbv zeta in E. etransitivity; [exact E|]. vm_compute. reflexivity.
  - destruct (fraction_truncated (RT := reference_runtime)
                "2022-01-01T00:00:00" "1234567" "+05:30" eq_refl eq_refl) as (E & _).
    cbv zeta in E. etransitivity; [exact E|]. vm_compute. reflexivity.
Defined.

(** ** Observations: what a page holds *)

Lemma skipn_Forall {A : Type} (P : A -> Prop) (n : nat) (l : list A) :
  Forall P l -> Forall P (skipn n l).
Proof.
  intros H. apply Forall_forall. intros x Hx.
  rewrite Forall_forall in H. apply H.
  rewrite <- (firstn_skipn n l). apply in_or_app. now right.
Qed.

Lemma firstn_Forall {A : Type} (P : A -> Prop) (n : nat) (l : list A) :
  Forall P l -> Forall P (firstn n l).
Proof.
  intros H. apply Forall_forall. intros x Hx.
  rewrite Forall_forall in H. apply H.
  rewrite <- (firstn_skipn n l). apply in_or_app. now left.
Qed.

Lemma window_Forall {A : Type} (P : A -> Prop) (s l : Z) (xs : list A) :
  Forall P xs -> Forall P (window s l xs).
Proof.
  intros H. unfold window. destruct (l =? 0).
  - now apply skipn_Forall.
  - now apply firstn_Forall, skipn_Forall.
Qed.

Lemma skipn_sorted {A : Type} (R : A -> A -> Prop) (n : nat) (l : list A) :
  StronglySorted R l -> StronglySorted R (skipn n l).
Proof.
  revert l. induction n as [|n IH]; intros l H; [exact H|].
  destruct l as [|x l]; [constructor|]. cbn. apply IH. now inversion H.
Qed.

Lemma firstn_sorted {A : Type} (R : A -> A -> Prop) (n : nat) (l : list A) :
  StronglySorted R l -> StronglySorted R (firstn n l).
Proof.
  revert l. induction n as [|n IH]; intros l H; [constructor|].
  destruct l as [|x l]; [constructor|]. cbn. inversion H as [|? ? Hs Hx]; subst.
  constructor; [now apply IH | now apply firstn_Forall].
Qed.

Lemma window_sorted {A : Type} (R : A -> A -> Prop) (s l : Z) (xs : list A) :
  StronglySorted R xs -> StronglySorted R (window s l xs).
Proof.
  intros H. unfold window. destruct (l =? 0).
  - now apply skipn_sorted.
  - now apply firstn_sorted, skipn_sorted.
Qed.

Lemma mongo_leb_total (a b : row) :
  mongo_leb (timestamp a) (timestamp b) = true
  \/ mongo_leb (timestamp b) (timestamp a) = true.
Proof.
  unfold mongo_leb. destruct (timestamp a), (timestamp b); auto. apply lex_leb_total.
Qed.

Lemma mongo_leb_trans (a b c : row) :
  mongo_leb (timestamp a) (timestamp b) = true ->
  mongo_leb (timestamp b) (timestamp c) = true ->
  mongo_leb (timestamp a) (timestamp c) = true.
Proof.
  unfold mongo_leb.
  destruct (timestamp a), (timestamp b), (timestamp c); auto; try discriminate.
  apply lex_leb_trans.
Qed.

Lemma window_length {A : Type} (s l : Z) (xs : list A) :
  0 <= s -> 0 <= l ->
  Z.of_nat (List.length (window s l xs))
  = if l =? 0 then Z.max 0 (Z.of_nat (List.length xs) - s)
    else Z.min l (Z.max 0 (Z.of_nat (List.length xs) - s)).
Proof.
  intros Ps Pl. unfold window. destruct (Z.eqb_spec l 0) as [E|N].
  - rewrite length_skipn. lia.
  - rewrite length_firstn, length_skipn. lia.
Qed.

Section Page.
Context {RT : Runtime}.

(** X1. A request that skips at least as many rows as match is answered
    with an empty page and the full count of matches. *)
Theorem skip_beyond_matches (args : params) (q : query) (l s : Z) (st : state) :
  API.build_mongo_query args = inl q ->
  API.int_arg args "limit" 100 = Some l ->
  API.int_arg args "skip" 0 = Some s ->
  0 <= l ->
  Z.of_nat (List.length (filter (matches q) (docs st))) <= s ->
  fst (API.get_observations (Some API.asv_1) args st)
  = Returned
      (API.jsonify
         [("count", VInt (Z.of_nat (List.length (filter (matches q) (docs st)))));
          ("items", VList [])]).
Proof.
  intros Q L S Pl Big.
  rewrite (get_observations_run args q l s st Q L S) by lia.
  assert (W : window s (Z.min l 1000) (served q st) = []).
  { unfold window. rewrite skipn_all2 by (rewrite served_length; lia).
    destruct (Z.min l 1000 =? 0); [reflexivity | apply firstn_nil]. }
  now rewrite W.
Qed.

(** X2. A limit of 0 lifts the cap: the page holds every match after the
    skipped ones, however many there are. *)
Theorem zero_limit_is_unlimited (args : params) (q : query) (s : Z) (st : state) :
  API.build_mongo_query args = inl q ->
  API.int_arg args "limit" 100 = Some 0 ->
  API.int_arg args "skip" 0 = Some s ->
  0 <= s ->
  exists items : list value,
    response_list "items" (fst (API.get_observations (Some API.asv_1) args st)) = Some items
    /\ items = skipn (Z.to_nat s) (served q st)
    /\ Z.of_nat (List.length items)
       = Z.max 0 (Z.of_nat (List.length (filter (matches q) (docs st))) - s).
Proof.
  intros Q L S Ps.
  rewrite (get_observations_run args q 0 s st Q L S) by lia.
  eexists. split; [reflexivity|]. split; [reflexivity|].
  change (window s (Z.min 0 1000) (served q st)) with (window s 0 (served q st)).
  rewrite window_length by lia. now rewrite served_length.
Qed.

(** X3. With a positive limit the page holds the smaller of the limit, 1000
    and the number of matches left after the skipped ones. *)
Theorem page_size (args : params) (q : query) (l s : Z) (st : state) :
  API.build_mongo_query args = inl q ->
  API.int_arg args "limit" 100 = Some l ->
  API.int_arg args "skip" 0 = Some s ->
  0 < l -> 0 <= s ->
  exists items : list value,
    response_list "items" (fst (API.get_observations (Some API.asv_1) args st)) = Some items
    /\ Z.of_nat (List.length items)
       = Z.min (Z.min l 1000)
           (Z.max 0 (Z.of_nat (List.length (filter (matches q) (docs st))) - s)).
Proof.
  intros Q L S Pl Ps.
  rewrite (get_observations_run args q l s st Q L S) by lia.
  eexists. split; [reflexivity|].
  rewrite window_length by lia. rewrite served_length.
  destruct (Z.eqb_spec (Z.min l 1000) 0); [lia | reflexivity].
Qed.

(** X4. The items of a page are stored documents that satisfy the query, in
    non-decreasing timestamp order. *)
Theorem page_rows_match_in_order (args : params) (q : query) (l s : Z) (st : state) :
  API.build_mongo_query args = inl q ->
  API.int_arg args "limit" 100 = Some l ->
  API.int_arg args "skip" 0 = Some s ->
  0 <= l -> 0 <= s ->
  exists page : list row,
    response_list "items" (fst (API.get_observations (Some API.asv_1) args st))
    = Some (map (fun r => VDict (API.convert_decimals_to_float (doc_of_row r))) page)
    /\ Forall (fun r => In r (docs st) /\ matches q r = true) page
    /\ served_in_order page.
Proof.
  intros Q L S Pl Ps.
  rewrite (get_observations_run args q l s st Q L S) by lia.
  unfold served. rewrite window_map.
  eexists. split; [reflexivity|]. split.
  - apply window_Forall, sort_by_Forall. apply Forall_forall. intros r Hr.
    apply filter_In in Hr. exact Hr.
  - apply window_sorted, sort_by_sorted; [apply mongo_leb_total | apply mongo_leb_trans].
Qed.

End Page.

Lemma skip_beyond_matches_witness :
  fst (API.get_observations (RT := reference_runtime) (Some API.asv_1)
         [("max_temp", "3.5"); ("skip", "3")] sample_store)
  = Returned (API.jsonify [("count", VInt 3); ("items", VList [])]).
Proof.
  apply (skip_beyond_matches (RT := reference_runtime)
           [("max_temp", "3.5"); ("skip", "3")]
           (mk_query None (Some (mk_range None (Some 3.5%float))) None None) 100 3
           sample_store); vm_compute; first [reflexivity | discriminate].
Defined.

Lemma zero_limit_is_unlimited_witness :
  exists items : list value,
    response_list "items"
      (fst (API.get_observations (RT := reference_runtime) (Some API.asv_1)
              [("limit", "0")] large_store)) = Some items
    /\ items = skipn (Z.to_nat 0) (served (RT := reference_runtime) match_all large_store)
    /\ Z.of_nat (List.length items)
       = Z.max 0 (Z.of_nat (List.length (filter (matches match_all) (docs large_store))) - 0).
Proof.
  apply (zero_limit_is_unlimited (RT := reference_runtime) [("limit", "0")] match_all 0
           large_store); first [reflexivity | lia].
Defined.

Lemma page_size_witness :
  exists items : list value,
    response_list "items"
      (fst (API.get_observations (RT := reference_runtime) (Some API.asv_1)
              [("limit", "2"); ("skip", "4")] sample_store)) = Some items
    /\ Z.of_nat (List.length items)
       = Z.min (Z.min 2 1000)
           (Z.max 0 (Z.of_nat (List.length (filter (matches match_all) (docs sample_store))) - 4)).
Proof.
  apply (page_size (RT := reference_runtime) [("limit", "2"); ("skip", "4")] match_all 2 4
           sample_store); first [reflexivity | lia].
Defined.

Lemma page_rows_match_in_order_witness :
  exists page : list row,
    response_list "items"
      (fst (API.get_observations (RT := reference_runtime) (Some API.asv_1)
              [("min_temp", "2.5")] sample_store))
    = Some (map (fun r => VDict (API.convert_decimals_to_float (RT := reference_runtime)
                                   (doc_of_row r))) page)
    /\ Forall (fun r => In r (docs sample_store)
                        /\ matches (mk_query None (Some (mk_range (Some 2.5%float) None))
                                      None None) r = true) page
    /\ served_in_order page.
Proof.
  apply (page_rows_match_in_order (RT := reference_runtime) [("min_temp", "2.5")]
           (mk_query None (Some (mk_range (Some 2.5%float) None)) None None) 100 0
           sample_store); first [reflexivity | lia].
Defined.

(** ** Observations: filters and validation *)

Section Filters.
Context {RT : Runtime}.

Lemma bound_parsed {A : Type} (parse : string -> option A) (args : params) (key s : string)
    (x : A) (o : option A) :
  args_get args key = Some s -> parse s = Some x ->
  API.bound parse args key = inl o -> o = Some x.
Proof.
  intros G P. unfold API.bound. rewrite G, P. intros E. now injection E as <-.
Qed.

Lemma numeric_filter_bounds (args : params) (min_key max_key : string)
    (rg : option (range float)) :
  API.numeric_filter args min_key max_key = inl rg ->
  (forall a lo, args_get args min_key = Some a -> py_float a = Some lo ->
     exists b, rg = Some b /\ gte b = Some lo)
  /\ (forall a hi, args_get args max_key = Some a -> py_float a = Some hi ->
        exists b, rg = Some b /\ lte b = Some hi).
Proof.
  unfold API.numeric_filter, args_has.
  destruct (API.bound py_float args min_key) as [lo'|] eqn:Bl;
    destruct (API.bound py_float args max_key) as [hi'|] eqn:Bh;
    destruct (args_get args min_key) as [a'|] eqn:Gl;
    destruct (args_get args max_key) as [b'|] eqn:Gh;
    cbn [orb]; intros E; try discriminate E; injection E as <-;
    split; intros a x G P; try discriminate G; injection G as <-.
  all: eexists; split; [reflexivity|]; cbn [gte lte].
  all: first [ exact (bound_parsed py_float args min_key _ _ _ Gl P Bl)
             | exact (bound_parsed py_float args max_key _ _ _ Gh P Bh) ].
Qed.

Lemma in_range_gte {A : Type} (leb : A -> A -> bool) (b : range A) (lo : A)
    (v : option A) :
  gte b = Some lo -> in_range leb (Some b) v = true ->
  exists x, v = Some x /\ leb lo x = true.
Proof.
  intros G. unfold in_range. destruct v as [x|]; [|discriminate].
  rewrite G. intros H. apply andb_true_iff in H. exists x. now split.
Qed.

Lemma in_range_lte {A : Type} (leb : A -> A -> bool) (b : range A) (hi : A)
    (v : option A) :
  lte b = Some hi -> in_range leb (Some b) v = true ->
  exists x, v = Some x /\ leb x hi = true.
Proof.
  intros G. unfold in_range. destruct v as [x|]; [|discriminate].
  rewrite G. intros H. apply andb_true_iff in H. exists x. now split.
Qed.

Lemma safe_iso_naive (s : string) (dt : datetime) :
  API.safe_iso_to_datetime s = Some dt -> tzinfo dt = None.
Proof.
  unfold API.safe_iso_to_datetime.
  destruct (fromisoformat s) as [d|]; [intros H; injection H as <-; reflexivity|].
  destruct (PyStr.contains "." s); [|discriminate].
  destruct (fromisoformat _) as [d|]; [|discriminate].
  intros H. injection H as <-. reflexivity.
Qed.

(** X5. [min_temp] and [max_temp] are inclusive bounds: a document that the
    query built from the request matches has a temperature, not below the
    parsed [min_temp] and not above the parsed [max_temp]; a document with
    a null temperature does not match. *)
Theorem temperature_bounds (args : params) (q : query) (r : row) :
  API.build_mongo_query args = inl q ->
  matches q r = true ->
  (forall a lo, args_get args "min_temp" = Some a -> py_float a = Some lo ->
     exists t, temperature r = Some t /\ PrimFloat.leb lo t = true)
  /\ (forall a hi, args_get args "max_temp" = Some a -> py_float a = Some hi ->
        exists t, temperature r = Some t /\ PrimFloat.leb t hi = true).
Proof.
  unfold API.build_mongo_query.
  destruct (API.time_filter args) as [ts|]; [|discriminate].
  destruct (API.numeric_filter args "min_temp" "max_temp") as [temp|] eqn:T; [|discriminate].
  destruct (API.numeric_filter args "min_sal" "max_sal") as [sal|]; [|discriminate].
  destruct (API.numeric_filter args "min_odo" "max_odo") as [od|]; [|discriminate].
  intros E. injection E as <-. unfold matches. cbn [q_temperature].
  rewrite !andb_true_iff. intros (((_ & M) & _) & _).
  destruct (numeric_filter_bounds args "min_temp" "max_temp" temp T) as [Lo Hi].
  split; intros a x G P.
  - destruct (Lo a x G P) as (b & -> & Gb). exact (in_range_gte _ b x _ Gb M).
  - destruct (Hi a x G P) as (b & -> & Gb). exact (in_range_lte _ b x _ Gb M).
Qed.

(** X6. [start] and [end] are inclusive bounds with the precision of the
    collection, the millisecond: a matching document has a timestamp, not
    before the parsed [start] cut to the millisecond and not after the
    parsed [end] cut to the millisecond, the bounds being naive. *)
Theorem time_bounds (args : params) (q : query) (r : row) :
  API.build_mongo_query args = inl q ->
  matches q r = true ->
  (forall a lo, args_get args "start" = Some a -> API.safe_iso_to_datetime a = Some lo ->
     tzinfo lo = None
     /\ exists t, timestamp r = Some t /\ dt_leb (mongo_datetime lo) t = true)
  /\ (forall a hi, args_get args "end" = Some a -> API.safe_iso_to_datetime a = Some hi ->
        tzinfo hi = None
        /\ exists t, timestamp r = Some t /\ dt_leb t (mongo_datetime hi) = true).
Proof.
  unfold API.build_mongo_query.
  destruct (API.time_filter args) as [ts|] eqn:T; [|discriminate].
  destruct (API.numeric_filter args "min_temp" "max_temp") as [temp|]; [|discriminate].
  destruct (API.numeric_filter args "min_sal" "max_sal") as [sal|]; [|discriminate].
  destruct (API.numeric_filter args "min_odo" "max_odo") as [od|]; [|discriminate].
  intros E. injection E as <-. unfold matches. cbn [q_timestamp].
  rewrite !andb_true_iff. intros (((M & _) & _) & _).
  unfold API.time_filter, args_has in T.
  destruct (API.bound API.safe_iso_to_datetime args "start") as [lo'|] eqn:Bl;
    destruct (API.bound API.safe_iso_to_datetime args "end") as [hi'|] eqn:Bh;
    destruct (args_get args "start") as [a'|] eqn:Gl;
    destruct (args_get args "end") as [b'|] eqn:Gh;
    cbn [orb] in T; try discriminate T; injection T as <-;
    split; intros a x G P; try discriminate G; injection G as <-.
  all: split; [exact (safe_iso_naive _ _ P)|].
  all: first
    [ apply (in_range_gte dt_leb (mongo_range (mk_range lo' hi')) (mongo_datetime x) _);
      [|exact M]; cbn [gte mongo_range];
      now rewrite (bound_parsed API.safe_iso_to_datetime args "start" _ _ _ Gl P Bl)
    | apply (in_range_lte dt_leb (mongo_range (mk_range lo' hi')) (mongo_datetime x) _);
      [|exact M]; cbn [lte mongo_range];
      now rewrite (bound_parsed API.safe_iso_to_datetime args "end" _ _ _ Gh P Bh) ].
Qed.

Lemma numeric_filter_absent (args : params) (min_key max_key : string) :
  args_has args min_key = false -> args_has args max_key = false ->
  API.numeric_filter args min_key max_key = inl None.
Proof. intros A B. unfold API.numeric_filter. now rewrite A, B. Qed.

(** X7. A request with none of the eight filter parameters matches every
    stored document: its count is the size of the collection. *)
Theorem unfiltered_counts_all (args : params) (l s : Z) (st : state) :
  unfiltered args = true ->
  API.int_arg args "limit" 100 = Some l ->
  API.int_arg args "skip" 0 = Some s ->
  0 <= l -> 0 <= s ->
  response_count (fst (API.get_observations (Some API.asv_1) args st))
  = Some (Z.of_nat (List.length (docs st))).
Proof.
  intros U L S Pl Ps.
  unfold unfiltered, filter_keys in U. apply negb_true_iff in U. cbn [existsb] in U.
  repeat (apply orb_false_iff in U; destruct U as [? U]).
  assert (Q : API.build_mongo_query args = inl match_all).
  { unfold API.build_mongo_query, API.time_filter.
    rewrite !numeric_filter_absent by assumption.
    replace (args_has args "start") with false by congruence.
    replace (args_has args "end") with false by congruence. reflexivity. }
  rewrite (get_observations_run args match_all l s st Q L S) by lia.
  cbn [fst response_count API.body API.jsonify dict_get String.eqb Ascii.eqb Bool.eqb].
  now rewrite (filter_all _ _ matches_match_all).
Qed.

(** X8. [get_observations] always answers, and a request it rejects leaves
    no trace: the status is 200 after exactly one count and one find on the
    collection, or it is 400 or 500 with the state, log included, left as
    it was. *)
Theorem observations_answer_and_trace (db_collection : option API.collection)
    (args : params) (st : state) :
  exists resp : API.response,
    fst (API.get_observations db_collection args st) = Returned resp
    /\ ((API.status resp = 200
         /\ log (snd (API.get_observations db_collection args st))
            = log st ++ [DbCount; DbFind])
        \/ ((API.status resp = 400 \/ API.status resp = 500)
            /\ snd (API.get_observations db_collection args st) = st)).
Proof.
  unfold API.get_observations.
  destruct db_collection as [c|]; [|eexists; split; [reflexivity|]; right; auto].
  destruct (API.build_mongo_query args) as [q|e];
    [|eexists; split; [reflexivity|]; right; auto].
  destruct (API.int_arg args "limit" 100) as [l|];
    [|eexists; split; [reflexivity|]; right; auto].
  destruct (API.int_arg args "skip" 0) as [s|];
    [|eexists; split; [reflexivity|]; right; auto].
  destruct ((Z.min l 1000 <? 0) || (s <? 0));
    [eexists; split; [reflexivity|]; right; auto|].
  unfold try_except, bind. rewrite count_documents_run, iterate_run. unfold ret.
  eexists. split; [reflexivity|]. left. split; [reflexivity|].
  cbn [snd log]. now rewrite <- app_assoc.
Qed.

End Filters.

Lemma temperature_bounds_witness :
  (forall a lo, args_get [("min_temp", "2.5"); ("max_temp", "4")] "min_temp" = Some a ->
     py_float (Runtime := reference_runtime) a = Some lo ->
     exists t, temperature (reading 3 3) = Some t /\ PrimFloat.leb lo t = true)
  /\ (forall a hi, args_get [("min_temp", "2.5"); ("max_temp", "4")] "max_temp" = Some a ->
        py_float (Runtime := reference_runtime) a = Some hi ->
        exists t, temperature (reading 3 3) = Some t /\ PrimFloat.leb t hi = true).
Proof.
  apply (temperature_bounds (RT := reference_runtime)
           [("min_temp", "2.5"); ("max_temp", "4")]
           (mk_query None (Some (mk_range (Some 2.5%float) (Some 4%float))) None None));
    reflexivity.
Defined.

Lemma time_bounds_witness :
  (forall a lo, args_get [("start", "2021-12-16T09:30:03.000500")] "start" = Some a ->
     API.safe_iso_to_datetime (RT := reference_runtime) a = Some lo ->
     tzinfo lo = None
     /\ exists t, timestamp (reading 3 3) = Some t /\ dt_leb (mongo_datetime lo) t = true)
  /\ (forall a hi, args_get [("start", "2021-12-16T09:30:03.000500")] "end" = Some a ->
        API.safe_iso_to_datetime (RT := reference_runtime) a = Some hi ->
        tzinfo hi = None
        /\ exists t, timestamp (reading 3 3) = Some t /\ dt_leb t (mongo_datetime hi) = true).
Proof.
  apply (time_bounds (RT := reference_runtime) [("start", "2021-12-16T09:30:03.000500")]
           (mk_query (Some (mk_range (Some (mk_datetime 2021 12 16 9 30 3 500 None)) None))
              None None None));
    vm_compute; reflexivity.
Defined.

Lemma unfiltered_counts_all_witness :
  response_count
    (fst (API.get_observations (RT := reference_runtime) (Some API.asv_1)
            [("limit", "2")] sample_store))
  = Some (Z.of_nat (List.length (docs sample_store))).
Proof.
  apply (unfiltered_counts_all (RT := reference_runtime) [("limit", "2")] 2 0 sample_store);
    first [reflexivity | lia].
Defined.

(** ** Statistics *)

Section Statistics.
Context {RT : Runtime}.

Lemma stats_item_keys (r : row) : keys (stats_item r) = API.numeric_fields.
Proof. destruct r as [[ts|] [la|] [lo|] [te|] [sa|] [od|]]; reflexivity. Qed.

Lemma stats_item_get (col : string) (r : row) :
  mem_string col API.numeric_fields = true ->
  dict_get col (stats_item r) = dict_get col (doc_of_row r).
Proof.
  intros H. destruct (numeric_field_cases col H) as [-> | [-> | ->]];
    destruct r as [[ts|] [la|] [lo|] [te|] [sa|] [od|]]; reflexivity.
Qed.

Lemma stats_series (col : string) (l : list row) :
  mem_string col API.numeric_fields = true ->
  API.floats col (filter (fun d => API.notna (dict_get col d)) (map stats_item l))
  = API.floats col (filter (fun d => API.notna (dict_get col d)) (map doc_of_row l)).
Proof.
  intros H. unfold API.floats. induction l as [|r l IH]; [reflexivity|].
  cbn [map filter]. rewrite (stats_item_get col r H).
  destruct (API.notna (dict_get col (doc_of_row r))); [|exact IH].
  cbn [map]. now rewrite (stats_item_get col r H), IH.
Qed.

Lemma stats_has_column (col : string) (r : row) (l : list row) :
  mem_string col API.numeric_fields = true ->
  API.has_column col (map stats_item (r :: l)) = true.
Proof.
  intros H. unfold API.has_column. cbn [map existsb].
  now rewrite stats_item_keys, H.
Qed.

(** What [get_stats] answers over a collection that holds a document. *)
Lemma get_stats_run (st : state) :
  docs st <> [] ->
  fst (API.get_stats (Some API.asv_1) st)
  = Returned
      (API.jsonify
         [("temperature", VDict (API.stats_of (field_values "temperature" st)));
          ("salinity", VDict (API.stats_of (field_values "salinity" st)));
          ("odo", VDict (API.stats_of (field_values "odo" st)))]).
Proof.
  intros N. unfold API.get_stats, try_except, bind. rewrite iterate_run. unfold ret.
  cbn [fst]. unfold cursor_rows, find, window. cbn [c_query c_sort_timestamp c_skip c_limit
    c_projection Z.eqb Z.to_nat skipn].
  rewrite (filter_all _ _ matches_match_all), map_map.
  change (map (fun r => API.convert_decimals_to_float
                          (project (Some API.numeric_fields) (doc_of_row r))) (docs st))
    with (map stats_item (docs st)).
  unfold field_values.
  destruct (docs st) as [|r l]; [contradiction|].
  unfold API.numeric_fields at 1. cbn [flat_map app].
  rewrite !stats_has_column by reflexivity.
  now rewrite !stats_series by reflexivity.
Qed.

(** Every stored document of a reachable state is complete. *)
Lemma reachable_docs_complete (st : state) : reachable st -> Forall complete (docs st).
Proof.
  induction 1 as [|st op R IH]; [constructor|].
  destruct (is_request op) eqn:Q.
  - destruct (request_same_data op st Q) as (D & _). now rewrite D.
  - destruct op as [all_data| | | |]; try discriminate. cbn [perform].
    destruct (init_docs all_data st) as [E|(_ & keep & E)]; rewrite E; [exact IH|].
    apply built_rows_invariant.
Qed.

Lemma complete_notna (col : string) (r : row) :
  mem_string col API.numeric_fields = true -> complete r ->
  API.notna (dict_get col (doc_of_row r)) = true.
Proof.
  intros H C. unfold complete in C. cbn in C. rewrite !andb_true_iff in C.
  destruct C as (_ & _ & _ & T & S & O & _).
  destruct (numeric_field_cases col H) as [-> | [-> | ->]];
    destruct r as [ts la lo [te|] [sa|] [od|]]; cbn in *; congruence.
Qed.

Lemma complete_field_values (col : string) (st : state) :
  mem_string col API.numeric_fields = true -> Forall complete (docs st) ->
  List.length (field_values col st) = List.length (docs st).
Proof.
  intros H C. unfold field_values, API.floats. rewrite length_map.
  induction C as [|r l Cr Cl IH]; [reflexivity|].
  cbn [map filter]. rewrite (complete_notna col r H Cr). cbn [List.length]. now rewrite IH.
Qed.

Lemma stats_of_count (s : list float) :
  dict_get "count" (API.stats_of s) = Some (VInt (Z.of_nat (List.length s)))
  /\ keys (API.stats_of s) = ["count"; "mean"; "min"; "max"; "25%"; "50%"; "75%"].
Proof. destruct s; split; reflexivity. Qed.

(** X9. Once the process holds documents, [get_stats] answers with the three
    numeric fields, each with the seven statistics, and each count is the
    number of stored documents. *)
Theorem stats_count_all_documents (st : state) :
  reachable st -> docs st <> [] ->
  exists t s o : dict,
    fst (API.get_stats (Some API.asv_1) st)
    = Returned (API.jsonify [("temperature", VDict t); ("salinity", VDict s);
                             ("odo", VDict o)])
    /\ Forall (fun d => dict_get "count" d = Some (VInt (Z.of_nat (List.length (docs st))))
                        /\ keys d = ["count"; "mean"; "min"; "max"; "25%"; "50%"; "75%"])
         [t; s; o].
Proof.
  intros R N. rewrite (get_stats_run st N). do 3 eexists. split; [reflexivity|].
  pose proof (reachable_docs_complete st R) as C.
  repeat constructor;
    try (rewrite (proj1 (stats_of_count _)), complete_field_values by (reflexivity || exact C);
         reflexivity);
    apply stats_of_count.
Qed.

(** X10. Over an empty collection [get_stats] answers with an empty object:
    the three fields are absent, not reported with a count of 0. *)
Theorem stats_of_empty_collection (st : state) :
  docs st = [] ->
  fst (API.get_stats (Some API.asv_1) st) = Returned (API.jsonify []).
Proof.
  intros E. unfold API.get_stats, try_except, bind. rewrite iterate_run. unfold ret.
  cbn [fst]. unfold cursor_rows, find, window. cbn [c_query c_sort_timestamp c_skip c_limit
    c_projection Z.eqb Z.to_nat skipn]. rewrite E. reflexivity.
Qed.

(** X11. A field that is null in every document of a non-empty collection is
    reported with a count of 0 and null for the six other statistics. *)
Theorem stats_of_null_field (col : string) (st : state) :
  mem_string col API.numeric_fields = true ->
  docs st <> [] ->
  Forall (fun r => field_cell col r = Some VNone) (docs st) ->
  exists body : dict,
    fst (API.get_stats (Some API.asv_1) st) = Returned (API.jsonify body)
    /\ dict_get col body
       = Some (VDict [("count", VInt 0); ("mean", VNone); ("min", VNone); ("max", VNone);
                      ("25%", VNone); ("50%", VNone); ("75%", VNone)]).
Proof.
  intros H N A. rewrite (get_stats_run st N). eexists. split; [reflexivity|].
  assert (V : field_values col st = []).
  { clear N. unfold field_values. induction A as [|r l Hr Hl IH]; [reflexivity|].
    cbn [map filter]. unfold field_cell in Hr. rewrite Hr. cbn [API.notna].
    apply IH. }
  destruct (numeric_field_cases col H) as [-> | [-> | ->]];
    cbn [dict_get String.eqb Ascii.eqb Bool.eqb]; rewrite V; reflexivity.
Qed.

End Statistics.

Lemma stats_count_all_documents_witness :
  exists t s o : dict,
    fst (API.get_stats (RT := reference_runtime) (Some API.asv_1) sample_store)
    = Returned (API.jsonify [("temperature", VDict t); ("salinity", VDict s);
                             ("odo", VDict o)])
    /\ Forall (fun d => dict_get "count" d
                        = Some (VInt (Z.of_nat (List.length (docs sample_store))))
                        /\ keys d = ["count"; "mean"; "min"; "max"; "25%"; "50%"; "75%"])
         [t; s; o].
Proof.
  apply (stats_count_all_documents (RT := reference_runtime) sample_store).
  - unfold sample_store. apply reachable_step, reachable_start.
  - vm_compute. discriminate.
Defined.

Lemma stats_of_empty_collection_witness :
  fst (API.get_stats (RT := reference_runtime) (Some API.asv_1) empty_store)
  = Returned (API.jsonify []).
Proof.
  apply (stats_of_empty_collection (RT := reference_runtime) empty_store). reflexivity.
Defined.

Lemma stats_of_null_field_witness :
  exists body : dict,
    fst (API.get_stats (RT := reference_runtime) (Some API.asv_1) null_store)
    = Returned (API.jsonify body)
    /\ dict_get "temperature" body
       = Some (VDict [("count", VInt 0); ("mean", VNone); ("min", VNone); ("max", VNone);
                      ("25%", VNone); ("50%", VNone); ("75%", VNone)]).
Proof.
  apply (stats_of_null_field (RT := reference_runtime) "temperature" null_store).
  - reflexivity.
  - discriminate.
  - repeat constructor.
Defined.

(** ** Outliers: parameters and result *)

Section OutlierFacts.
Context {RT : Runtime}.

(** X12. The factor is checked first and the field second, both before the
    collection is read: an unreadable [k] is answered with 400 and the
    message about the factor whatever the field, a missing or unknown field
    with 400 and the message about the field, and the state is left as it
    was. *)
Theorem outlier_parameters_checked_first (args : params) (st : state) :
  (forall s, args_get args "k" = Some s -> py_float s = None ->
     API.find_outliers (Some API.asv_1) args st
     = (Returned (API.error_response "Invalid factor 'k'." 400), st))
  /\ (forall k,
        API.factor_arg args
          (match args_get args "method" with Some m => m | None => "iqr" end) = Some k ->
        match args_get args "field" with
        | Some f => mem_string f API.numeric_fields = false
        | None => True
        end ->
        API.find_outliers (Some API.asv_1) args st
        = (Returned (API.error_response "Invalid field specified." 400), st)).
Proof.
  split.
  - intros s G P. unfold API.find_outliers, API.factor_arg. now rewrite G, P.
  - intros k K F. unfold API.find_outliers. rewrite K.
    destruct (args_get args "field") as [f|]; [|reflexivity]. now rewrite F.
Qed.

(** X13. The answer to an outliers request depends on the parameters
    [field], [method] and [k] only: the filter and pagination parameters of
    a request play no part. *)
Theorem outliers_ignore_other_parameters (db_collection : option API.collection)
    (args args' : params) (st : state) :
  args_get args "field" = args_get args' "field" ->
  args_get args "method" = args_get args' "method" ->
  args_get args "k" = args_get args' "k" ->
  API.find_outliers db_collection args st = API.find_outliers db_collection args' st.
Proof.
  intros F M K. unfold API.find_outliers, API.factor_arg. now rewrite F, M, K.
Qed.

(** The outcomes of [find_outliers]. *)
Lemma find_outliers_cases (db_collection : option API.collection) (args : params)
    (st : state) :
  (exists msg code, fst (API.find_outliers db_collection args st)
                    = Returned (API.error_response msg code))
  \/ fst (API.find_outliers db_collection args st) = Raised "KeyError"
  \/ fst (API.find_outliers db_collection args st)
     = Returned (API.jsonify [("outliers", VList [])])
  \/ exists records : list dict,
       fst (API.find_outliers db_collection args st)
       = Returned (API.jsonify [("outliers", VList (map VDict records));
                                ("count", VInt (Z.of_nat (List.length records)))]).
Proof.
  destruct db_collection as [[]|]; [|left; do 2 eexists; reflexivity].
  set (method := match args_get args "method" with Some m => m | None => "iqr" end).
  destruct (API.factor_arg args method) as [k|] eqn:K.
  2: { left. unfold API.find_outliers. fold method. rewrite K. do 2 eexists. reflexivity. }
  destruct (args_get args "field") as [field|] eqn:F.
  2: { left. unfold API.find_outliers. fold method. rewrite K, F.
       do 2 eexists. reflexivity. }
  destruct (mem_string field API.numeric_fields) eqn:N.
  2: { left. unfold API.find_outliers. fold method. rewrite K, F, N.
       do 2 eexists. reflexivity. }
  rewrite (find_outliers_run args field k st F N K).
  destruct (docs st) as [|r rs]; [right; left; reflexivity|].
  destruct (filter _ (map (outlier_item field) (r :: rs))) as [|x df];
    [right; right; left; reflexivity|].
  match goal with
  | |- context [API.method_mask ?m ?f ?kf ?fr ?s] =>
      destruct (method_mask_cases m f kf fr s) as [(mask & st'' & Mk)|Mk]; rewrite Mk
  end.
  - right. right. right. eexists. reflexivity.
  - left. do 2 eexists. reflexivity.
Qed.

(** X14. Whenever an outliers answer carries a count, its status is 200 and
    the count is the number of rows in its ["outliers"] list. *)
Theorem outliers_count_is_length (db_collection : option API.collection) (args : params)
    (st : state) (c : Z) :
  response_count (fst (API.find_outliers db_collection args st)) = Some c ->
  c = Z.of_nat (List.length (flagged (fst (API.find_outliers db_collection args st))))
  /\ exists resp, fst (API.find_outliers db_collection args st) = Returned resp
                  /\ API.status resp = 200.
Proof.
  destruct (find_outliers_cases db_collection args st)
    as [(msg & code & E)|[E|[E|(records & E)]]]; rewrite E; try discriminate.
  cbn [response_count API.body API.jsonify dict_get String.eqb Ascii.eqb Bool.eqb].
  intros H. injection H as <-. split.
  - unfold flagged. cbn. now rewrite length_map.
  - eexists. split; reflexivity.
Qed.

(** X15. With the IQR method, a row is flagged exactly when it is the
    projection of a stored document whose value of the field is not null
    and lies below [Q1 - k IQR] or above [Q3 + k IQR], the quartiles being
    those of all non-null stored values of the field. *)
Theorem iqr_flags_outside_fences (args : params) (field : string) (k : float)
    (st : state) (d : dict) :
  args_get args "field" = Some field ->
  mem_string field API.numeric_fields = true ->
  (args_get args "method" = None \/ args_get args "method" = Some "iqr") ->
  API.factor_arg args "iqr" = Some k ->
  field_values field st <> [] ->
  let Q1 := series_quantile (field_values field st) 0.25%float in
  let Q3 := series_quantile (field_values field st) 0.75%float in
  let IQR := PrimFloat.sub Q3 Q1 in
  let lower_bound := PrimFloat.sub Q1 (PrimFloat.mul k IQR) in
  let upper_bound := PrimFloat.add Q3 (PrimFloat.mul k IQR) in
  In (VDict d) (flagged (fst (API.find_outliers (Some API.asv_1) args st)))
  <-> exists r : row,
        In r (docs st) /\ d = outlier_item field r
        /\ API.notna (field_cell field r) = true
        /\ (PrimFloat.ltb (API.to_float (field_cell field r)) lower_bound
            || PrimFloat.ltb upper_bound (API.to_float (field_cell field r))) = true.
Proof.
  intros F N M K V Q1 Q3 IQR lower_bound upper_bound.
  assert (Me : match args_get args "method" with Some m => m | None => "iqr" end = "iqr")
    by (destruct M as [-> | ->]; reflexivity).
  pose proof (find_outliers_run args field k st F N) as R. cbv zeta in R.
  rewrite Me in R. rewrite (R K). clear R.
  pose proof (notna_items field (docs st) N) as E. fold (field_values field st) in E.
  destruct (docs st) as [|r0 rs] eqn:D.
  { unfold field_values in V. rewrite D in V. now destruct V. }
  rewrite <- D in *.
  destruct (filter _ (map (outlier_item field) (docs st))) as [|x df] eqn:Df.
  { rewrite <- E in V. now destruct V. }
  unfold API.method_mask. cbn [String.eqb Ascii.eqb Bool.eqb]. unfold ret.
  rewrite E. fold Q1 Q3 IQR lower_bound upper_bound.
  cbn [fst flagged response_list API.body API.jsonify dict_get String.eqb Ascii.eqb
         Bool.eqb].
  rewrite <- Df. unfold field_cell. split.
  - intros I. apply in_map_iff in I. destruct I as (v & Ev & Iv). injection Ev as ->.
    apply filter_In in Iv. destruct Iv as [Iv Out].
    apply filter_In in Iv. destruct Iv as [Iv Nn].
    apply in_map_iff in Iv. destruct Iv as (r & <- & Ir).
    exists r. rewrite (outlier_item_get field r N) in Nn, Out. auto.
  - intros (r & Ir & -> & Nn & Out). apply in_map. apply filter_In. split.
    + apply filter_In. split; [now apply in_map|].
      now rewrite (outlier_item_get field r N).
    + now rewrite (outlier_item_get field r N).
Qed.

End OutlierFacts.

Lemma outlier_parameters_checked_first_witness :
  API.find_outliers (RT := reference_runtime) (Some API.asv_1)
    [("field", "depth"); ("k", "wide")] sample_store
  = (Returned (API.error_response "Invalid factor 'k'." 400), sample_store)
  /\ API.find_outliers (RT := reference_runtime) (Some API.asv_1)
       [("field", "depth")] sample_store
     = (Returned (API.error_response "Invalid field specified." 400), sample_store).
Proof.
  split.
  - apply (proj1 (outlier_parameters_checked_first (RT := reference_runtime)
                    [("field", "depth"); ("k", "wide")] sample_store) "wide");
      reflexivity.
  - apply (proj2 (outlier_parameters_checked_first (RT := reference_runtime)
                    [("field", "depth")] sample_store) 1.5%float); reflexivity.
Defined.

Lemma outliers_ignore_other_parameters_witness :
  API.find_outliers (RT := reference_runtime) (Some API.asv_1)
    [("field", "temperature"); ("min_temp", "50"); ("limit", "1")] sample_store
  = API.find_outliers (RT := reference_runtime) (Some API.asv_1)
      [("field", "temperature")] sample_store.
Proof.
  apply (outliers_ignore_other_parameters (RT := reference_runtime)); reflexivity.
Defined.

Lemma outliers_count_is_length_witness :
  1 = Z.of_nat (List.length
                  (flagged (fst (API.find_outliers (RT := reference_runtime)
                                   (Some API.asv_1) [("field", "temperature")]
                                   sample_store))))
  /\ exists resp,
       fst (API.find_outliers (RT := reference_runtime) (Some API.asv_1)
              [("field", "temperature")] sample_store) = Returned resp
       /\ API.status resp = 200.
Proof.
  apply (outliers_count_is_length (RT := reference_runtime) (Some API.asv_1)
           [("field", "temperature")] sample_store 1).
  vm_compute. reflexivity.
Defined.

Lemma iqr_flags_outside_fences_witness :
  In (VDict (outlier_item (RT := reference_runtime) "temperature" (reading 5 100)))
    (flagged (fst (API.find_outliers (RT := reference_runtime) (Some API.asv_1)
                     [("field", "temperature")] sample_store))).
Proof.
  assert (V : field_values "temperature" sample_store <> [])
    by (vm_compute; discriminate).
  pose proof (iqr_flags_outside_fences (RT := reference_runtime)
                [("field", "temperature")] "temperature" 1.5%float sample_store
                (outlier_item (RT := reference_runtime) "temperature" (reading 5 100))
                eq_refl eq_refl (or_introl eq_refl) eq_refl V) as T.
  cbv zeta in T. apply (proj2 T). clear T V.
  exists (reading 5 100). split; [|split; [reflexivity|split]].
  - vm_compute. do 4 right. left. reflexivity.
  - reflexivity.
  - vm_compute. reflexivity.
Defined.

(** ** Construction of the database *)

Lemma sort_by_In {A : Type} (leb : A -> A -> bool) (x : A) (l : list A) :
  In x (sort_by leb l) -> In x l.
Proof.
  intros H.
  assert (F : Forall (fun y => In y l) (sort_by leb l))
    by (apply sort_by_Forall, Forall_forall; auto).
  rewrite Forall_forall in F. now apply F.
Qed.

Lemma existsb_false_In {A : Type} (f : A -> bool) (l : list A) (x : A) :
  existsb f l = false -> In x l -> f x = false.
Proof.
  intros E I. destruct (f x) eqn:Fx; [|reflexivity].
  assert (T : existsb f l = true) by (apply existsb_exists; now exists x). congruence.
Qed.

Section Build.
Context {RT : Runtime}.

(** The frame [_clean_outliers] returns for a frame that has rows. *)
Lemma clean_outliers_result (df : DB.frame) (t : float) (st : state) :
  DB.empty df = false ->
  fst (DB._clean_outliers df t st)
  = Returned
      (DB.mk_frame (DB.columns df)
         (filter
            (fun r =>
               negb (DB.outlier_mask
                       (map (DB.z_column df)
                          (filter (fun c => DB.has_column c (DB.columns df)) DB.numeric_cols))
                       t r))
            (DB.rows df))).
Proof.
  intros E. unfold DB._clean_outliers. rewrite E.
  set (present := filter _ DB.numeric_cols).
  unfold bind at 1. rewrite tells_run.
  destruct (map (DB.z_column df) present) as [|z zs] eqn:Z.
  - rewrite (filter_all (fun r => negb (DB.outlier_mask [] t r))) by reflexivity.
    destruct df. reflexivity.
  - reflexivity.
Qed.

(** X16. The frame the z-score pass returns keeps the columns, keeps rows of
    its input in their order, and holds no row whose z-score, taken against
    the mean and deviation of the input, exceeds the threshold in a numeric
    column of the frame. *)
Theorem cleaned_rows_within_threshold (df df' : DB.frame) (t : float) (st st' : state) :
  DB._clean_outliers df t st = (Returned df', st') ->
  DB.empty df = false ->
  DB.columns df' = DB.columns df
  /\ (exists keep : row -> bool, DB.rows df' = filter keep (DB.rows df))
  /\ (forall r col,
        In r (DB.rows df') -> In col DB.numeric_cols ->
        DB.has_column col (DB.columns df) = true ->
        PrimFloat.ltb t (DB.z_column df col r) = false).
Proof.
  intros C E. pose proof (clean_outliers_result df t st E) as R.
  rewrite C in R. cbn [fst] in R.
  match type of R with
  | Returned _ = Returned ?x => assert (Edf : df' = x) by congruence
  end.
  clear R. subst df'. cbn [DB.columns DB.rows].
  split; [reflexivity|]. split; [eexists; reflexivity|].
  intros r col Ir Ic Hc. apply filter_In in Ir. destruct Ir as [_ K].
  apply negb_true_iff in K. unfold DB.outlier_mask in K.
  apply (existsb_false_In _ _ (DB.z_column df col) K).
  apply in_map. apply filter_In. now split.
Qed.

Lemma missing_column (all_data : list DB.frame) (c : column) :
  (forall f, In f all_data -> DB.has_column c (DB.columns f) = false) ->
  DB.has_column c (DB.columns (DB.concat all_data)) = false.
Proof.
  intros H. unfold DB.concat. cbn [DB.columns]. unfold DB.has_column at 1.
  destruct (existsb _ (filter _ DB.required_cols)) eqn:X; [|reflexivity].
  apply existsb_exists in X. destruct X as (c' & I & Eq).
  apply filter_In in I. destruct I as [_ I].
  assert (c' = c) by (destruct c, c'; try discriminate; reflexivity). subst c'.
  apply existsb_exists in I. destruct I as (f & If & Hf).
  rewrite (H f If) in Hf. discriminate.
Qed.

(** X17. When the collection is empty and a required column is in none of
    the files read, the construction raises [KeyError] at the drop of
    incomplete rows: nothing is stored, and the only counter written is
    [original_rows]. *)
Theorem missing_column_aborts_construction (all_data : list DB.frame) (c : column)
    (st : state) :
  docs st = [] ->
  all_data <> [] ->
  In c DB.required_cols ->
  (forall f, In f all_data -> DB.has_column c (DB.columns f) = false) ->
  DB.__init__ all_data st
  = (Raised "KeyError",
     mk_state [] (DB.len (DB.concat all_data)) (removed_outliers st) (remaining_rows st)
       (log st ++ [DbCount])).
Proof.
  intros D N Ic Miss. unfold DB.__init__. unfold bind at 1. rewrite count_documents_run.
  rewrite (filter_all _ _ matches_match_all), D. cbn [List.length Z.of_nat Z.eqb].
  unfold bind at 1. rewrite load_run.
  destruct all_data as [|f fs]; [contradiction|]. cbv zeta.
  assert (F : forallb (fun col => DB.has_column col (DB.columns (DB.concat (f :: fs))))
                DB.required_cols = false).
  { destruct (forallb _ DB.required_cols) eqn:X; [|reflexivity].
    rewrite forallb_forall in X. specialize (X c Ic).
    rewrite (missing_column _ c Miss) in X. discriminate X. }
  rewrite F. reflexivity.
Qed.

(** The state after [__init__], by cases. *)
Lemma init_state (all_data : list DB.frame) (st : state) :
  let st' := snd (DB.__init__ all_data st) in
  let c := DB.concat all_data in
  let usable := sort_by DB.row_leb (filter complete_b (DB.rows c)) in
  ((docs st <> [] \/ all_data = []) /\ same_data st st')
  \/ (docs st = [] /\ all_data <> []
      /\ (forallb (fun col => DB.has_column col (DB.columns c)) DB.required_cols = false
          \/ usable = [])
      /\ docs st' = [] /\ original_rows st' = DB.len c
      /\ removed_outliers st' = removed_outliers st
      /\ remaining_rows st' = remaining_rows st)
  \/ (docs st = [] /\ usable <> []
      /\ exists keep : row -> bool,
           docs st' = map stored (map DB.none_if_na (filter keep usable))
           /\ original_rows st' = DB.len c
           /\ removed_outliers st' = DB.len c - Z.of_nat (List.length (filter keep usable))
           /\ remaining_rows st' = Z.of_nat (List.length (filter keep usable))).
Proof.
  intros st' c usable.
  assert (Tail : forall st0,
            same_data st0 (snd ((DB._print_report ;;; DB._print_sample_data)%py st0))).
  { intros st0.
    assert (R : read_only (DB._print_report ;;; DB._print_sample_data)%py).
    { unfold DB._print_report, DB._print_sample_data. repeat read_only_step. }
    exact (R st0). }
  subst st'. remember (snd (DB.__init__ all_data st)) as st' eqn:B. revert B.
  unfold DB.__init__. unfold bind at 1. rewrite count_documents_run.
  rewrite (filter_all _ _ matches_match_all).
  destruct (docs st) as [|d ds] eqn:D.
  2: { intros ->. left. split; [left; discriminate|].
       unfold same_data. cbn. rewrite D. repeat split. }
  cbn [List.length Z.of_nat Z.eqb].
  set (st0 := mk_state _ _ _ _ _).
  assert (S0 : same_data st st0) by (subst st0; unfold same_data; cbn; rewrite D; auto).
  unfold bind at 1. rewrite load_run.
  destruct all_data as [|f fs].
  - unfold bind at 1.
    destruct (clean_outliers_run (DB.mk_frame [] []) 3%float st0) as (keep & es & H).
    rewrite H. cbn [DB.empty DB.rows DB.columns].
    unfold bind at 1. rewrite insert_data_run. cbn [DB.empty DB.rows DB.columns].
    intros ->. left. split; [now right|].
    eapply same_data_trans; [exact S0 | apply Tail].
  - cbv zeta. fold c.
    destruct (forallb _ DB.required_cols) eqn:Cols.
    2: { intros ->. right. left. cbn. repeat split; auto. discriminate. }
    fold usable. clearbody usable.
    set (df := DB.mk_frame _ usable). set (st1 := mk_state _ _ _ _ _).
    unfold bind at 1.
    destruct (clean_outliers_run df 3%float st1) as (keep & es & H).
    rewrite H. clear H. destruct (DB.empty df) eqn:E.
    + cbv beta iota zeta. unfold bind at 1. rewrite insert_data_run, E.
      intros ->. right. left.
      destruct (Tail st1) as (T1 & T2 & T3 & T4).
      rewrite T1, T2, T3, T4. cbn.
      repeat split; auto; try discriminate.
      right. unfold DB.empty in E. cbn [DB.rows DB.columns] in E.
      destruct usable; [reflexivity|].
      destruct (DB.columns c) eqn:Cc; [|discriminate E].
      vm_compute in Cols. discriminate Cols.
    + cbv beta iota zeta. unfold bind at 1. rewrite insert_data_run.
      unfold df. cbn [DB.rows DB.columns].
      set (kept := filter keep usable).
      assert (U : usable <> []).
      { intros U. unfold DB.empty, df in E. cbn [DB.rows DB.columns] in E.
        rewrite U in E. discriminate E. }
      intros ->. right. right. split; [reflexivity|]. split; [exact U|]. exists keep.
      fold kept. clearbody kept.
      match goal with
      | |- context [if ?b then _ else _] => destruct b eqn:E'
      end.
      * match goal with
        | |- context [snd (_ ?s)] =>
            destruct (Tail s) as (T1 & T2 & T3 & T4)
        end.
        rewrite T1, T2, T3, T4. cbn.
        assert (K : kept = []).
        { unfold DB.empty in E'. cbn [DB.rows DB.columns] in E'.
          destruct kept; [reflexivity|].
          destruct (DB.columns c) eqn:Cc; [|cbn in E'; discriminate E'].
          vm_compute in Cols. discriminate Cols. }
        rewrite K. cbn. repeat split; reflexivity.
      * match goal with
        | |- context [snd (_ ?s)] =>
            destruct (Tail s) as (T1 & T2 & T3 & T4)
        end.
        rewrite T1, T2, T3, T4. cbn. repeat split; reflexivity.
Qed.

End Build.

Section BuildFacts.
Context {RT : Runtime}.

Lemma reindex_complete (cols : list column) (r0 : row) (c : column) :
  complete (DB.reindex cols r0) -> DB.has_column c cols = true.
Proof.
  unfold complete, DB.required_cols. cbn [forallb]. rewrite !andb_true_iff.
  intros (T & La & Lo & Te & Sa & Od & _).
  destruct c; cbn [DB.notna DB.reindex timestamp latitude longitude temperature
                     salinity odo] in *;
    match goal with
    | |- ?b = true => destruct b; [reflexivity | discriminate]
    end.
Qed.

Lemma reindex_all_columns (cols : list column) (r0 : row) :
  (forall c : column, DB.has_column c cols = true) -> DB.reindex cols r0 = r0.
Proof.
  intros H. unfold DB.reindex. rewrite !H. now destruct r0.
Qed.

(** X18. A document stored by the construction over an empty collection is
    complete and comes from a row of one of the files read, and that file
    has all six required columns: a file that lacks one contributes
    nothing.  The document has the five measurements of the row and, the
    timestamps of the files being naive, its timestamp cut to the
    millisecond. *)
Theorem stored_rows_come_from_complete_files (all_data : list DB.frame) (st : state)
    (r : row) :
  docs st = [] ->
  In r (docs (perform (Construct all_data) st)) ->
  complete r
  /\ exists (f : DB.frame) (r0 : row),
       In f all_data /\ In r0 (DB.rows f)
       /\ (forall c : column, DB.has_column c (DB.columns f) = true)
       /\ [latitude r; longitude r; temperature r; salinity r; odo r]
          = [latitude r0; longitude r0; temperature r0; salinity r0; odo r0]
       /\ forall t0, timestamp r0 = Some t0 -> tzinfo t0 = None ->
                     timestamp r = Some (mongo_datetime t0).
Proof.
  intros D I. cbn [perform] in I.
  destruct (init_docs all_data st) as [E|(_ & keep & E)]; rewrite E in I.
  { rewrite D in I. destruct I. }
  set (usable := sort_by DB.row_leb (filter complete_b (DB.rows (DB.concat all_data)))) in *.
  destruct (built_rows_invariant keep (DB.rows (DB.concat all_data))) as [C _].
  fold usable in C. cbv zeta in C.
  assert (Cr : complete r) by (rewrite Forall_forall in C; now apply C).
  split; [exact Cr|].
  assert (Ck : Forall complete (filter keep usable)).
  { apply filter_Forall, sort_by_Forall. apply Forall_forall. intros x Hx.
    apply filter_In in Hx. exact (proj2 Hx). }
  rewrite (map_none_if_na _ Ck) in I.
  apply in_map_iff in I. destruct I as (x & <- & I).
  apply filter_In in I. destruct I as [I _]. apply sort_by_In in I.
  apply filter_In in I. destruct I as [I Cx].
  unfold DB.concat in I. cbn [DB.rows] in I.
  apply in_flat_map in I. destruct I as (f & If & I).
  apply in_map_iff in I. destruct I as (r0 & <- & I0).
  assert (A : forall c : column, DB.has_column c (DB.columns f) = true).
  { intros c. now apply (reindex_complete (DB.columns f) r0 c). }
  exists f, r0. rewrite (reindex_all_columns _ r0 A).
  repeat split; try assumption.
  intros t0 T _. unfold stored. cbn [timestamp]. now rewrite T.
Qed.

(** X19. When the collection is empty and no row read is complete, the
    construction stores nothing and leaves [removed_outliers] and
    [remaining_rows] at their former values, whatever number of rows it
    recorded in [original_rows]. *)
Theorem incomplete_rows_store_nothing (all_data : list DB.frame) (st : state) :
  docs st = [] ->
  filter complete_b (DB.rows (DB.concat all_data)) = [] ->
  let st' := perform (Construct all_data) st in
  docs st' = []
  /\ removed_outliers st' = removed_outliers st
  /\ remaining_rows st' = remaining_rows st
  /\ (all_data <> [] -> original_rows st' = DB.len (DB.concat all_data)).
Proof.
  intros D F st'. subst st'. cbn [perform].
  destruct (init_state all_data st) as [([N|N] & S)|[H|H]].
  - contradiction.
  - destruct S as (S1 & S2 & S3 & S4). rewrite S1, S3, S4. repeat split; auto.
    intros X. contradiction.
  - destruct H as (_ & _ & _ & H1 & H2 & H3 & H4). repeat split; auto.
  - destruct H as (_ & U & _). rewrite F in U. now destruct U.
Qed.

(** X20. After the construction run by a fresh process, [remaining_rows] is
    the number of stored documents, and when documents were stored
    [original_rows] is [removed_outliers] plus [remaining_rows]. *)
Theorem report_matches_store (all_data : list DB.frame) :
  let st' := perform (Construct all_data) start in
  remaining_rows st' = Z.of_nat (List.length (docs st'))
  /\ (docs st' <> [] -> original_rows st' = removed_outliers st' + remaining_rows st').
Proof.
  intros st'. subst st'. cbn [perform].
  destruct (init_state all_data start) as [(_ & S)|[H|H]].
  - destruct S as (S1 & _ & _ & S4). rewrite S1, S4. split; [reflexivity|].
    intros N. now destruct N.
  - destruct H as (_ & _ & _ & H1 & _ & _ & H4). rewrite H1, H4. split; [reflexivity|].
    intros N. now destruct N.
  - destruct H as (_ & _ & keep & H1 & H2 & H3 & H4). rewrite H1, H2, H3, H4.
    rewrite !length_map. split; [reflexivity|]. intros _. lia.
Qed.

(** X21. The three counters of the report are written by a construction over
    an empty collection only: no request changes them, and neither does a
    construction over a collection that holds documents. *)
Theorem counters_written_once (op : operation) (st : state) :
  is_request op = true \/ docs st <> [] ->
  original_rows (perform op st) = original_rows st
  /\ removed_outliers (perform op st) = removed_outliers st
  /\ remaining_rows (perform op st) = remaining_rows st.
Proof.
  intros H.
  assert (S : same_data st (perform op st)).
  { destruct (is_request op) eqn:Q; [now apply request_same_data|].
    destruct H as [H|N]; [discriminate|].
    destruct op as [all_data| | | |]; try discriminate. cbn [perform].
    destruct (init_state all_data st) as [(_ & S)|[K|K]]; [exact S| |];
      destruct K as (D & _); contradiction. }
  destruct S as (_ & S2 & S3 & S4). auto.
Qed.

End BuildFacts.

Lemma cleaned_rows_within_threshold_witness :
  let df := DB.mk_frame DB.required_cols
              [reading 1 1; reading 2 2; reading 3 3; reading 4 4; reading 5 100] in
  exists (df' : DB.frame) (st' : state),
    DB._clean_outliers (RT := reference_runtime) df 3%float start = (Returned df', st')
    /\ DB.columns df' = DB.columns df
    /\ (exists keep : row -> bool, DB.rows df' = filter keep (DB.rows df))
    /\ (forall r col,
          In r (DB.rows df') -> In col DB.numeric_cols ->
          DB.has_column col (DB.columns df) = true ->
          PrimFloat.ltb 3%float (DB.z_column (RT := reference_runtime) df col r) = false).
Proof.
  intros df. do 2 eexists. split; [vm_compute; reflexivity|].
  eapply (cleaned_rows_within_threshold (RT := reference_runtime) df _ 3%float start);
    [vm_compute; reflexivity | reflexivity].
Defined.

Lemma missing_column_aborts_construction_witness :
  let files := [DB.mk_frame [Timestamp; Latitude; Longitude; Temperature; Salinity]
                  [reading 1 1; reading 2 2]] in
  DB.__init__ (RT := reference_runtime) files start
  = (Raised "KeyError",
     mk_state [] (DB.len (DB.concat files)) (removed_outliers start) (remaining_rows start)
       (log start ++ [DbCount])).
Proof.
  intros files.
  apply (missing_column_aborts_construction (RT := reference_runtime) files Odo start).
  - reflexivity.
  - discriminate.
  - cbn. auto 7.
  - intros f [<-|[]]. reflexivity.
Defined.

Lemma stored_rows_come_from_complete_files_witness :
  let read (us : Z) (temp : float) :=
    mk_row (Some (mk_datetime 2021 12 16 9 30 1 us None)) (Some 26.5%float)
      (Some (-80.25)%float) (Some temp) (Some 35%float) (Some 6.5%float) in
  let files := [DB.mk_frame DB.required_cols [read 123456 1%float; read 999 2%float]] in
  let r := read 123000 1%float in
  complete r
  /\ exists (f : DB.frame) (r0 : row),
       In f files /\ In r0 (DB.rows f)
       /\ (forall c : column, DB.has_column c (DB.columns f) = true)
       /\ [latitude r; longitude r; temperature r; salinity r; odo r]
          = [latitude r0; longitude r0; temperature r0; salinity r0; odo r0]
       /\ forall t0, timestamp r0 = Some t0 -> tzinfo t0 = None ->
                     timestamp r = Some (mongo_datetime t0).
Proof.
  intros read files r.
  apply (stored_rows_come_from_complete_files (RT := reference_runtime) files start).
  - reflexivity.
  - vm_compute. right. left. reflexivity.
Defined.

Lemma incomplete_rows_store_nothing_witness :
  let files := [DB.mk_frame DB.required_cols
                  [mk_row (at_second 6) (Some 26.5%float) (Some (-80.25)%float)
                     (Some 7%float) (Some 35%float) None]] in
  let st' := perform (RT := reference_runtime) (Construct files) start in
  docs st' = []
  /\ removed_outliers st' = removed_outliers start
  /\ remaining_rows st' = remaining_rows start
  /\ (files <> [] -> original_rows st' = DB.len (DB.concat files)).
Proof.
  intros files.
  apply (incomplete_rows_store_nothing (RT := reference_runtime) files start); reflexivity.
Defined.

Lemma counters_written_once_witness :
  original_rows (perform (RT := reference_runtime) (Construct []) sample_store)
  = original_rows sample_store
  /\ removed_outliers (perform (RT := reference_runtime) (Construct []) sample_store)
     = removed_outliers sample_store
  /\ remaining_rows (perform (RT := reference_runtime) (Construct []) sample_store)
     = remaining_rows sample_store.
Proof.
  apply (counters_written_once (RT := reference_runtime) (Construct []) sample_store).
  right. vm_compute. discriminate.
Defined.

(** ** Column names *)

Section ColumnNames.
Import Columns.

Lemma mem_string_In (k : string) (l : list string) :
  mem_string k l = true <-> In k l.
Proof.
  induction l as [|x l IH]; cbn; [split; [discriminate | intros []]|].
  rewrite orb_true_iff, IH. split.
  - intros [H|H]; [left; symmetry; now apply String.eqb_eq | now right].
  - intros [H|H]; [left; subst; apply String.eqb_refl | now right].
Qed.

Lemma lookup_assign_other (k k' v : string) (d : list (string * string)) :
  k <> k' -> lookup (assign k' v d) k = lookup d k.
Proof.
  intros N. induction d as [|[a b] d IH]; cbn.
  - destruct (String.eqb_spec k k'); [contradiction | reflexivity].
  - destruct (String.eqb_spec k' a) as [->|Na]; cbn.
    + destruct (String.eqb_spec k a); [contradiction | reflexivity].
    + destruct (String.eqb_spec k a); [reflexivity | exact IH].
Qed.

Lemma lookup_assign_same (k v : string) (d : list (string * string)) :
  lookup (assign k v d) k = Some v.
Proof.
  induction d as [|[a b] d IH]; cbn.
  - now rewrite String.eqb_refl.
  - destruct (String.eqb_spec k a) as [->|Na]; cbn.
    + now rewrite String.eqb_refl.
    + destruct (String.eqb_spec k a); [contradiction | exact IH].
Qed.

Lemma remap_column_step (m : list (string * string)) (names : list string)
    (c : string) :
  remap_column (m, names) c
  = if mem_string (standard_name c) names then (m, names)
    else (assign c (standard_name c) m, standard_name c :: names).
Proof. reflexivity. Qed.

(** The names taken after a run of the loop. *)
Lemma taken_after (s : string) (l : list string) (m : list (string * string))
    (names : list string) :
  mem_string s (snd (fold_left remap_column l (m, names)))
  = mem_string s names || existsb (fun c => String.eqb (standard_name c) s) l.
Proof.
  revert m names. induction l as [|c l IH]; intros m names; cbn [fold_left existsb].
  - now rewrite orb_false_r.
  - rewrite remap_column_step.
    destruct (mem_string (standard_name c) names) eqn:T.
    + rewrite IH. destruct (String.eqb_spec (standard_name c) s) as [<-|_].
      * now rewrite T.
      * reflexivity.
    + rewrite IH. cbn [mem_string]. rewrite (String.eqb_sym s).
      now rewrite orb_assoc, (orb_comm (_ =? _)%string).
Qed.

(** A label the loop does not meet keeps its entry. *)
Lemma entry_untouched (c : string) (l : list string) (m : list (string * string))
    (names : list string) :
  ~ In c l -> lookup (fst (fold_left remap_column l (m, names))) c = lookup m c.
Proof.
  revert m names. induction l as [|k l IH]; intros m names N; [reflexivity|].
  cbn [fold_left]. rewrite remap_column_step.
  assert (Nk : c <> k) by (intros ->; apply N; now left).
  assert (Nl : ~ In c l) by (intros H; apply N; now right).
  destruct (mem_string (standard_name k) names).
  - now apply IH.
  - rewrite IH by exact Nl. now apply lookup_assign_other.
Qed.

(** Once the standard name of a label is taken, its entry stays as it is. *)
Lemma entry_settled (c : string) (l : list string) (m : list (string * string))
    (names : list string) :
  mem_string (standard_name c) names = true ->
  lookup (fst (fold_left remap_column l (m, names))) c = lookup m c.
Proof.
  revert m names. induction l as [|k l IH]; intros m names T; [reflexivity|].
  cbn [fold_left]. rewrite remap_column_step.
  destruct (mem_string (standard_name k) names) eqn:Tk.
  - now apply IH.
  - rewrite IH.
    + apply lookup_assign_other. intros ->. congruence.
    + cbn [mem_string]. rewrite T. apply orb_true_r.
Qed.

(** The entry of a label at its first occurrence. *)
Lemma first_occurrence (pre post : list string) (c : string) :
  ~ In c pre ->
  lookup (new_cols_map (pre ++ c :: post)) c
  = if existsb (fun c' => String.eqb (standard_name c') (standard_name c)) pre
    then None else Some (standard_name c).
Proof.
  intros N. unfold new_cols_map. rewrite fold_left_app. cbn [fold_left].
  destruct (fold_left remap_column pre ([], [])) as [m names] eqn:P.
  assert (Lm : lookup m c = None).
  { pose proof (entry_untouched c pre [] [] N) as H. now rewrite P in H. }
  assert (Tn : mem_string (standard_name c) names
               = existsb (fun c' => String.eqb (standard_name c') (standard_name c)) pre).
  { pose proof (taken_after (standard_name c) pre [] []) as H. now rewrite P in H. }
  rewrite remap_column_step. rewrite Tn.
  destruct (existsb _ pre) eqn:X.
  - rewrite entry_settled by (now rewrite Tn). exact Lm.
  - rewrite entry_settled.
    + apply lookup_assign_same.
    + cbn [mem_string]. now rewrite String.eqb_refl.
Qed.

(** X22. First writer wins. At its first occurrence among the headers of a
    file, a label is renamed to its standard name when no earlier column
    has that standard name, and is left out of the renaming map
    otherwise. *)
Theorem first_writer_wins (pre post : list string) (c : string) :
  ~ In c pre ->
  (Forall (fun c' => standard_name c' <> standard_name c) pre ->
   lookup (new_cols_map (pre ++ c :: post)) c = Some (standard_name c))
  /\ (Exists (fun c' => standard_name c' = standard_name c) pre ->
      lookup (new_cols_map (pre ++ c :: post)) c = None).
Proof.
  intros N. rewrite (first_occurrence pre post c N). split.
  - intros F. destruct (existsb _ pre) eqn:X; [|reflexivity].
    apply existsb_exists in X. destruct X as (c' & I & E).
    apply String.eqb_eq in E. rewrite Forall_forall in F. now destruct (F c' I).
  - intros E. apply Exists_exists in E. destruct E as (c' & I & E).
    assert (X : existsb (fun c' => String.eqb (standard_name c') (standard_name c)) pre
                = true).
    { apply existsb_exists. exists c'. split; [exact I|]. now apply String.eqb_eq. }
    now rewrite X.
Qed.

(** X23. When the headers of a file have pairwise distinct standard names,
    every column is renamed to its standard name and no two columns of the
    result share a label. *)
Theorem distinct_headers_standardized (columns : list string) :
  NoDup (map standard_name columns) ->
  standardize columns = map standard_name columns
  /\ NoDup (standardize columns).
Proof.
  intros D.
  assert (E : standardize columns = map standard_name columns).
  { unfold standardize, rename. apply map_ext_in. intros c I.
    destruct (in_split c columns I) as (pre & post & S).
    rewrite S in D. rewrite map_app in D. cbn [map] in D.
    pose proof (NoDup_remove_2 _ _ _ D) as Nd.
    assert (F : Forall (fun c' => standard_name c' <> standard_name c) pre).
    { apply Forall_forall. intros c' I' Eq. apply Nd. apply in_or_app. left.
      rewrite <- Eq. now apply in_map. }
    assert (N : ~ In c pre).
    { intros I'. rewrite Forall_forall in F. now apply (F c I'). }
    rewrite S, (first_occurrence pre post c N).
    destruct (existsb _ pre) eqn:X; [|reflexivity].
    apply existsb_exists in X. destruct X as (c' & I' & Eq).
    apply String.eqb_eq in Eq. rewrite Forall_forall in F. now destruct (F c' I'). }
  split; [exact E | now rewrite E].
Qed.

(** X24. A column that loses its standard name to an earlier column keeps
    its own label; when that label is the standard name itself, as for
    [temperature] after [temp c], the renamed frame has two columns with
    the same label. *)
Theorem conflicting_header_duplicates_label (pre mid post : list string)
    (c1 c2 : string) :
  ~ In c1 pre ->
  ~ In c2 (pre ++ c1 :: mid) ->
  Forall (fun c' => standard_name c' <> c2) pre ->
  standard_name c1 = c2 ->
  standard_name c2 = c2 ->
  exists a b c : list string,
    standardize (pre ++ c1 :: mid ++ c2 :: post) = a ++ c2 :: b ++ c2 :: c
    /\ List.length a = List.length pre /\ List.length b = List.length mid.
Proof.
  intros N1 N2 F S1 S2.
  set (cols := pre ++ c1 :: mid ++ c2 :: post).
  assert (L1 : lookup (new_cols_map cols) c1 = Some c2).
  { unfold cols. rewrite (first_occurrence pre (mid ++ c2 :: post) c1 N1), S1.
    destruct (existsb _ pre) eqn:X; [|reflexivity].
    apply existsb_exists in X. destruct X as (c' & I' & Eq).
    apply String.eqb_eq in Eq. rewrite Forall_forall in F. now destruct (F c' I'). }
  assert (L2 : lookup (new_cols_map cols) c2 = None).
  { subst cols.
    replace (pre ++ c1 :: mid ++ c2 :: post) with ((pre ++ c1 :: mid) ++ c2 :: post)
      by (rewrite <- app_assoc; reflexivity).
    rewrite (first_occurrence (pre ++ c1 :: mid) post c2 N2).
    assert (X : existsb (fun c' => String.eqb (standard_name c') (standard_name c2))
                  (pre ++ c1 :: mid) = true).
    { apply existsb_exists. exists c1. split.
      - apply in_or_app. right. now left.
      - apply String.eqb_eq. congruence. }
    now rewrite X. }
  unfold standardize, rename. fold cols.
  unfold cols at 2. rewrite map_app. cbn [map]. rewrite map_app. cbn [map].
  rewrite L1, L2.
  do 3 eexists. split; [reflexivity|]. now rewrite !length_map.
Qed.

End ColumnNames.

Lemma first_writer_wins_witness :
  Columns.lookup (Columns.new_cols_map ["temp c"; "sal ppt"; "temp (c)"]) "sal ppt"
  = Some "salinity"
  /\ Columns.lookup (Columns.new_cols_map ["temp c"; "sal ppt"; "temp (c)"]) "temp (c)"
     = None.
Proof.
  split.
  - apply (proj1 (first_writer_wins ["temp c"] ["temp (c)"] "sal ppt"
                    ltac:(intros [H|[]]; discriminate H))).
    repeat constructor. discriminate.
  - apply (proj2 (first_writer_wins ["temp c"; "sal ppt"] [] "temp (c)"
                    ltac:(intros [H|[H|[]]]; discriminate H))).
    left. reflexivity.
Defined.

Lemma distinct_headers_standardized_witness :
  Columns.standardize ["date m/d/y"; "time hh:mm:ss"; "long"; "d.o."; "depth m"]
  = ["date"; "time"; "longitude"; "odo"; "depth m"]
  /\ NoDup (Columns.standardize ["date m/d/y"; "time hh:mm:ss"; "long"; "d.o."; "depth m"]).
Proof.
  apply (distinct_headers_standardized
           ["date m/d/y"; "time hh:mm:ss"; "long"; "d.o."; "depth m"]).
  repeat constructor; cbn; intuition discriminate.
Defined.

Lemma conflicting_header_duplicates_label_witness :
  exists a b c : list string,
    Columns.standardize ([] ++ "temp c" :: ["odo"] ++ "temperature" :: [])
    = a ++ "temperature" :: b ++ "temperature" :: c
    /\ List.length a = List.length (@nil string) /\ List.length b = List.length ["odo"].
Proof.
  apply (conflicting_header_duplicates_label [] ["odo"] [] "temp c" "temperature").
  - intros [].
  - intros [H|[H|[]]]; discriminate H.
  - constructor.
  - reflexivity.
  - reflexivity.
Defined.

(** ** Validation of the filters and the z-score method *)

Section Validation.
Context {RT : Runtime}.

Lemma bound_cases {A : Type} (parse : string -> option A) (args : params) (key : string) :
  (bound_accepted parse args key /\ exists o, API.bound parse args key = inl o)
  \/ (~ bound_accepted parse args key /\ API.bound parse args key = inr tt).
Proof.
  unfold bound_accepted, API.bound.
  destruct (args_get args key) as [s|]; [destruct (parse s) as [x|] eqn:P|].
  - left. split; [|eexists; reflexivity]. intros s' E. injection E as <-. congruence.
  - right. split; [|reflexivity]. intros H. now apply (H s).
  - left. split; [discriminate | eexists; reflexivity].
Qed.

Lemma numeric_filter_cases (args : params) (min_key max_key : string) :
  (bound_accepted py_float args min_key /\ bound_accepted py_float args max_key
   /\ exists rg, API.numeric_filter args min_key max_key = inl rg)
  \/ ((~ bound_accepted py_float args min_key \/ ~ bound_accepted py_float args max_key)
      /\ exists error, API.numeric_filter args min_key max_key = inr error).
Proof.
  unfold API.numeric_filter.
  destruct (bound_cases py_float args min_key) as [[A1 [o1 B1]]|[A1 B1]];
    destruct (bound_cases py_float args max_key) as [[A2 [o2 B2]]|[A2 B2]].
  - left. split; [exact A1|]. split; [exact A2|]. rewrite B1, B2.
    destruct (_ || _); eexists; reflexivity.
  - right. split; [now right|]. rewrite B1, B2.
    assert (H : args_has args max_key = true).
    { unfold args_has. destruct (args_get args max_key) eqn:G; [reflexivity|].
      exfalso. apply A2. intros s E. unfold bound_accepted in *. congruence. }
    rewrite H, orb_true_r. eexists; reflexivity.
  - right. split; [now left|]. rewrite B1.
    assert (H : args_has args min_key = true).
    { unfold args_has. destruct (args_get args min_key) eqn:G; [reflexivity|].
      exfalso. apply A1. intros s E. congruence. }
    rewrite H. cbn [orb]. eexists; reflexivity.
  - right. split; [now left|]. rewrite B1.
    assert (H : args_has args min_key = true).
    { unfold args_has. destruct (args_get args min_key) eqn:G; [reflexivity|].
      exfalso. apply A1. intros s E. congruence. }
    rewrite H. cbn [orb]. eexists; reflexivity.
Qed.

Lemma time_filter_cases (args : params) :
  (bound_accepted API.safe_iso_to_datetime args "start"
   /\ bound_accepted API.safe_iso_to_datetime args "end"
   /\ exists ts, API.time_filter args = inl ts)
  \/ ((~ bound_accepted API.safe_iso_to_datetime args "start"
       \/ ~ bound_accepted API.safe_iso_to_datetime args "end")
      /\ exists error, API.time_filter args = inr error).
Proof.
  unfold API.time_filter.
  destruct (bound_cases API.safe_iso_to_datetime args "start") as [[A1 [o1 B1]]|[A1 B1]];
    destruct (bound_cases API.safe_iso_to_datetime args "end") as [[A2 [o2 B2]]|[A2 B2]].
  - left. split; [exact A1|]. split; [exact A2|]. rewrite B1, B2.
    destruct (_ || _); eexists; reflexivity.
  - right. split; [now right|]. rewrite B1, B2.
    assert (H : args_has args "end" = true).
    { unfold args_has. destruct (args_get args "end") eqn:G; [reflexivity|].
      exfalso. apply A2. intros s E. congruence. }
    rewrite H, orb_true_r. eexists; reflexivity.
  - right. split; [now left|]. rewrite B1.
    assert (H : args_has args "start" = true).
    { unfold args_has. destruct (args_get args "start") eqn:G; [reflexivity|].
      exfalso. apply A1. intros s E. congruence. }
    rewrite H. cbn [orb]. eexists; reflexivity.
  - right. split; [now left|]. rewrite B1.
    assert (H : args_has args "start" = true).
    { unfold args_has. destruct (args_get args "start") eqn:G; [reflexivity|].
      exfalso. apply A1. intros s E. congruence. }
    rewrite H. cbn [orb]. eexists; reflexivity.
Qed.

(** X25. [build_mongo_query] returns a query exactly when every bound the
    request carries is accepted by its parser: [start] and [end] by
    [safe_iso_to_datetime], the six numeric bounds by [float]. *)
Theorem query_built_iff_bounds_parse (args : params) :
  (exists q, API.build_mongo_query args = inl q)
  <-> (bound_accepted API.safe_iso_to_datetime args "start"
       /\ bound_accepted API.safe_iso_to_datetime args "end"
       /\ Forall (bound_accepted py_float args)
            ["min_temp"; "max_temp"; "min_sal"; "max_sal"; "min_odo"; "max_odo"]).
Proof.
  unfold API.build_mongo_query.
  destruct (time_filter_cases args) as [(S & E & ts & T)|(B & e & T)]; rewrite T.
  2: { split; [intros (q & Q); discriminate Q|].
       intros (S & E & _). destruct B as [B|B]; contradiction. }
  destruct (numeric_filter_cases args "min_temp" "max_temp")
    as [(A1 & A2 & r1 & N1)|(B & e & N1)]; rewrite N1.
  2: { split; [intros (q & Q); discriminate Q|].
       intros (_ & _ & F). inversion F as [|? ? F1 F']; subst.
       inversion F' as [|? ? F2 F'']; subst. destruct B as [B|B]; contradiction. }
  destruct (numeric_filter_cases args "min_sal" "max_sal")
    as [(A3 & A4 & r2 & N2)|(B & e & N2)]; rewrite N2.
  2: { split; [intros (q & Q); discriminate Q|].
       intros (_ & _ & F). do 2 (inversion F as [|? ? _ F']; subst; clear F; rename F' into F).
       inversion F as [|? ? F1 F']; subst.
       inversion F' as [|? ? F2 F'']; subst. destruct B as [B|B]; contradiction. }
  destruct (numeric_filter_cases args "min_odo" "max_odo")
    as [(A5 & A6 & r3 & N3)|(B & e & N3)]; rewrite N3.
  2: { split; [intros (q & Q); discriminate Q|].
       intros (_ & _ & F). do 4 (inversion F as [|? ? _ F']; subst; clear F; rename F' into F).
       inversion F as [|? ? F1 F']; subst.
       inversion F' as [|? ? F2 F'']; subst. destruct B as [B|B]; contradiction. }
  split; [|intros _; eexists; reflexivity].
  intros _. split; [exact S|]. split; [exact E|]. repeat constructor; assumption.
Qed.

(** X26. The filters are validated before the pagination, [start] first: a
    [start] that [safe_iso_to_datetime] rejects is answered with 400 and
    the message about [start], whatever the other parameters are, and the
    state is left as it was. *)
Theorem invalid_start_reported_first (args : params) (s : string) (st : state) :
  args_get args "start" = Some s ->
  API.safe_iso_to_datetime s = None ->
  API.get_observations (Some API.asv_1) args st
  = (Returned (API.error_response "Invalid 'start' date format." 400), st).
Proof.
  intros G P. unfold API.get_observations, API.build_mongo_query, API.time_filter,
    API.bound, args_has.
  rewrite G, P. reflexivity.
Qed.

(** X27. With the z-score method and a deviation other than 0, a row is
    flagged exactly when it is the projection of a stored document whose
    value of the field is not null and lies more than [k] deviations from
    the mean, both taken over all non-null stored values of the field. *)
Theorem zscore_flags_beyond_factor (args : params) (field : string) (k : float)
    (st : state) (d : dict) :
  args_get args "field" = Some field ->
  mem_string field API.numeric_fields = true ->
  args_get args "method" = Some "zscore" ->
  API.factor_arg args "zscore" = Some k ->
  field_values field st <> [] ->
  PrimFloat.eqb (series_std (field_values field st)) 0 = false ->
  let mean := series_mean (field_values field st) in
  let std := series_std (field_values field st) in
  In (VDict d) (flagged (fst (API.find_outliers (Some API.asv_1) args st)))
  <-> exists r : row,
        In r (docs st) /\ d = outlier_item field r
        /\ API.notna (field_cell field r) = true
        /\ PrimFloat.ltb k
             (PrimFloat.abs
                (PrimFloat.div (PrimFloat.sub (API.to_float (field_cell field r)) mean) std))
           = true.
Proof.
  intros F N M K V S mean std.
  pose proof (find_outliers_run args field k st F N) as R. cbv zeta in R.
  rewrite M in R. rewrite (R K). clear R.
  pose proof (notna_items field (docs st) N) as E. fold (field_values field st) in E.
  destruct (docs st) as [|r0 rs] eqn:D.
  { unfold field_values in V. rewrite D in V. now destruct V. }
  rewrite <- D in *.
  destruct (filter _ (map (outlier_item field) (docs st))) as [|x df] eqn:Df.
  { rewrite <- E in V. now destruct V. }
  unfold API.method_mask. cbn [String.eqb Ascii.eqb Bool.eqb].
  rewrite E, S. cbn [negb]. fold mean std.
  unfold bind, tell, ret. 
  cbn [fst snd flagged response_list API.body API.jsonify dict_get String.eqb Ascii.eqb
         Bool.eqb].
  rewrite <- Df. unfold field_cell. split.
  - intros I. apply in_map_iff in I. destruct I as (v & Ev & Iv). injection Ev as ->.
    apply filter_In in Iv. destruct Iv as [Iv Out].
    apply filter_In in Iv. destruct Iv as [Iv Nn].
    apply in_map_iff in Iv. destruct Iv as (r & <- & Ir).
    exists r. rewrite (outlier_item_get field r N) in Nn, Out. auto.
  - intros (r & Ir & -> & Nn & Out). apply in_map. apply filter_In. split.
    + apply filter_In. split; [now apply in_map|].
      now rewrite (outlier_item_get field r N).
    + now rewrite (outlier_item_get field r N).
Qed.

End Validation.

Lemma invalid_start_reported_first_witness :
  API.get_observations (RT := reference_runtime) (Some API.asv_1)
    [("start", "yesterday"); ("limit", "many")] sample_store
  = (Returned (API.error_response "Invalid 'start' date format." 400), sample_store).
Proof.
  apply (invalid_start_reported_first (RT := reference_runtime)
           [("start", "yesterday"); ("limit", "many")] "yesterday" sample_store).
  - reflexivity.
  - vm_compute. reflexivity.
Defined.

Lemma zscore_flags_beyond_factor_witness :
  In (VDict (outlier_item (RT := reference_runtime) "temperature" (reading 5 100)))
    (flagged (fst (API.find_outliers (RT := reference_runtime) (Some API.asv_1)
                     [("field", "temperature"); ("method", "zscore"); ("k", "1.5")]
                     sample_store))).
Proof.
  assert (V : field_values "temperature" sample_store <> [])
    by (vm_compute; discriminate).
  pose proof (zscore_flags_beyond_factor (RT := reference_runtime)
                [("field", "temperature"); ("method", "zscore"); ("k", "1.5")]
                "temperature" 1.5%float sample_store
                (outlier_item (RT := reference_runtime) "temperature" (reading 5 100))
                eq_refl eq_refl eq_refl ltac:(vm_compute; reflexivity) V
                ltac:(vm_compute; reflexivity)) as T.
  cbv zeta in T. apply (proj2 T). clear T V.
  exists (reading 5 100). split; [|split; [reflexivity|split]].
  - vm_compute. do 4 right. left. reflexivity.
  - reflexivity.
  - vm_compute. reflexivity.
Defined.

(** ** Outliers over the collections the process can hold *)

Section ReachableOutliers.
Context {RT : Runtime}.

(** C7. In every state the process reaches, a successful answer to an
    outliers request has exactly the keys ["outliers"] and ["count"], and
    the count is the number of rows in the list.  (The builder stores no
    null field, so that the return without a count is never taken; over an
    empty collection the request raises and there is no successful
    answer.) *)
Theorem successful_answer_has_count (db_collection : option API.collection)
    (args : params) (st : state) (resp : API.response) :
  reachable st ->
  fst (API.find_outliers db_collection args st) = Returned resp ->
  API.status resp = 200 ->
  exists records : list dict,
    API.body resp
    = [("outliers", VList (map VDict records));
       ("count", VInt (Z.of_nat (List.length records)))].
Proof.
  intros R.
  destruct db_collection as [[]|].
  2: { intros E S. cbn in E. injection E as <-. discriminate S. }
  set (method := match args_get args "method" with Some m => m | None => "iqr" end).
  destruct (API.factor_arg args method) as [k|] eqn:K.
  2: { unfold API.find_outliers. fold method. rewrite K.
       intros E S. cbn in E. injection E as <-. discriminate S. }
  destruct (args_get args "field") as [field|] eqn:F.
  2: { unfold API.find_outliers. fold method. rewrite K, F.
       intros E S. cbn in E. injection E as <-. discriminate S. }
  destruct (mem_string field API.numeric_fields) eqn:N.
  2: { unfold API.find_outliers. fold method. rewrite K, F, N.
       intros E S. cbn in E. injection E as <-. discriminate S. }
  rewrite (find_outliers_run args field k st F N K).
  pose proof (reachable_docs_complete st R) as C.
  destruct (docs st) as [|r rs]; [discriminate|].
  cbn [map filter].
  inversion C as [|? ? Cr _]; subst.
  rewrite (outlier_item_get field r N), (complete_notna field r N Cr).
  match goal with
  | |- context [API.method_mask ?m ?f ?kf ?fr ?s] =>
      destruct (method_mask_cases m f kf fr s) as [(mask & st'' & Mk)|Mk]; rewrite Mk
  end.
  - intros E _. cbn [fst] in E. injection E as <-. eexists. reflexivity.
  - intros E S. cbn [fst] in E. injection E as <-. discriminate S.
Qed.

End ReachableOutliers.

Lemma successful_answer_has_count_witness :
  exists records : list dict,
    [("outliers",
      VList [VDict (outlier_item (RT := reference_runtime) "temperature" (reading 5 100))]);
     ("count", VInt 1)]
    = [("outliers", VList (map VDict records));
       ("count", VInt (Z.of_nat (List.length records)))].
Proof.
  apply (successful_answer_has_count (RT := reference_runtime) (Some API.asv_1)
           [("field", "temperature")] sample_store
           (API.jsonify
              [("outliers",
                VList [VDict (outlier_item (RT := reference_runtime) "temperature"
                                (reading 5 100))]);
               ("count", VInt 1)])).
  - unfold sample_store. apply reachable_step, reachable_start.
  - vm_compute. reflexivity.
  - reflexivity.
Defined.

(** C8, at an input where the program departs from it. Three readings of
    the same temperature, 0.1, are in the collection the builder makes of
    them; their mean is computed as 0.10000000000000002 and their standard
    deviation as 1.7e-17, not 0, so that a z-score request with the factor
    0.5 divides by the deviation and flags the three rows. *)
Theorem constant_field_flagged :
  let answer :=
    API.find_outliers (RT := reference_runtime) (Some API.asv_1)
      [("field", "temperature"); ("method", "zscore"); ("k", "0.5")] tenth_store in
  reachable (RT := reference_runtime) tenth_store
  /\ field_values "temperature" tenth_store = [0x1.999999999999ap-4; 0x1.999999999999ap-4; 0x1.999999999999ap-4]%float
  /\ series_std (Runtime := reference_runtime) (field_values "temperature" tenth_store)
     = 0x1.3988e1409212ep-56%float
  /\ response_count (fst answer) = Some 3
  /\ List.length (flagged (fst answer)) = 3%nat
  /\ log (snd answer) = log tenth_store ++ [DbFind; SeriesDiv].
Proof.
  split; [unfold tenth_store; apply reachable_step, reachable_start|].
  vm_compute. repeat split.
Qed.

(** ** The fraction of a bound that the library rejects *)

Section Padding.
Context {RT : Runtime}.
Local Open Scope string_scope.

Lemma slice_to_short (s : string) :
  (String.length s <= 6)%nat -> PyStr.slice_to 6 s = s.
Proof.
  intros L. unfold PyStr.slice_to, PyStr.slice_index, PyStr.len.
  replace (Z.to_nat _) with (String.length s)
    by (destruct (Z.ltb_spec 6 0); lia).
  rewrite <- (append_empty s) at 2. apply take_app.
Qed.

Lemma zfill_digits (s : string) :
  PyStr.all_digits s = true ->
  PyStr.zfill 6 s = PyStr.zeros (6 - String.length s) ++ s.
Proof.
  intros D. unfold PyStr.zfill. destruct s as [|c s]; [now rewrite append_empty|].
  cbn [PyStr.all_digits] in D. apply andb_true_iff in D. destruct D as [D _].
  destruct (Ascii.eqb_spec c "+") as [->|_]; [discriminate D|].
  destruct (Ascii.eqb_spec c "-") as [->|_]; [discriminate D|]. reflexivity.
Qed.

(** C9, where the program departs from it. When the library rejects a bound
    made of a prefix, a dot, a run of digits and a time-zone suffix, the
    bound is read as the library reads the same text with a fraction of
    exactly six digits: the first six of the run when it has six or more,
    and otherwise the run with zeros put before it, so that [.12] is read
    as 12 microseconds and not as 120000; the suffix is handed to the
    library with the text, so that the bound is rejected when the library
    does not read the suffix. *)
Theorem fraction_padded_on_left (base frac tz : string) :
  PyStr.all_digits frac = true ->
  tz_marker tz = true ->
  fromisoformat (base ++ "." ++ frac ++ tz) = None ->
  let fraction :=
    if (String.length frac <? 6)%nat
    then PyStr.zeros (6 - String.length frac) ++ frac
    else PyStr.take 6 frac in
  String.length fraction = 6%nat
  /\ API.safe_iso_to_datetime (base ++ "." ++ frac ++ tz)
     = option_map API.naive (fromisoformat (base ++ "." ++ fraction ++ tz)).
Proof.
  intros D T F fraction.
  assert (E : PyStr.zfill 6 (PyStr.slice_to 6 frac) = fraction
              /\ String.length fraction = 6%nat).
  { subst fraction. destruct (Nat.ltb_spec (String.length frac) 6) as [L|L].
    - rewrite slice_to_short by lia. rewrite (zfill_digits frac D). split; [reflexivity|].
      rewrite string_length_app.
      assert (Z : forall n, String.length (PyStr.zeros n) = n)
        by (induction n as [|n IH]; cbn; [reflexivity | now rewrite IH]).
      rewrite Z. lia.
    - exact (zfill_full frac D L). }
  destruct E as [E L]. split; [exact L|].
  unfold API.safe_iso_to_datetime. rewrite F.
  assert (C : PyStr.contains "." (base ++ "." ++ frac ++ tz) = true).
  { rewrite contains_app. cbn. apply orb_true_r. }
  rewrite C, (clean_iso_string_fraction base frac tz D T), E.
  destruct (fromisoformat _); reflexivity.
Qed.

End Padding.

Lemma fraction_padded_on_left_witness :
  API.safe_iso_to_datetime (RT := reference_runtime) "2022-01-01T00:00:00.12"
  = Some (mk_datetime 2022 1 1 0 0 0 12 None)
  /\ API.safe_iso_to_datetime (RT := reference_runtime) "2022-01-01T00:00:00.1234567Z"
     = None.
Proof.
  split.
  - destruct (fraction_padded_on_left (RT := reference_runtime)
                "2022-01-01T00:00:00" "12" "" eq_refl eq_refl eq_refl) as (_ & E).
    etransitivity; [exact E|]. vm_compute. reflexivity.
  - destruct (fraction_padded_on_left (RT := reference_runtime)
                "2022-01-01T00:00:00" "1234567" "Z" eq_refl eq_refl eq_refl) as (_ & E).
    etransitivity; [exact E|]. vm_compute. reflexivity.
Defined.
